(** * GPU execution event tracer

    The source is the CUPTI tracer (it includes cupti_tracer.h and lives in
    namespace xla::profiler), found in the file
    xla/service/spmd/shardy/stablehlo_round_trip/export_ops.cc.

    A shallow embedding of the tracer: the per-thread event buffer,
    the driver-API callback dispatcher, CUDA-graph resource tracking, the
    activity-buffer back-pressure policy and the tracer life cycle.

    Conventions.
    - [size_t], [uint32_t] and [uint64_t] values are [N]; where the source
      does arithmetic on them the wrap-around is written out ([u64_add]).
      [int64_t] scope-range ids and the [int] fields are [Z].
    - absl::flat_hash_map / flat_hash_set are stdpp's [gmap] / [gset]; the
      iteration order of a hash map is the order of [map_to_list].
    - A dereference of a null pointer or of an empty optional, and a
      dereference of [begin()] of an empty container, has no defined
      behaviour: the embedded function returns [None] there.
    - Mutexes guard single-threaded critical sections and are elided: every
      operation below is one atomic step on the state it locks. *)

From stdpp Require Import gmap strings list fin_maps pretty.
From Stdlib Require Import ZArith NArith Lia.

Set Default Proof Using "Type".

(** ** Machine integers *)

Definition u64_modulus : N := 2 ^ 64.
Definition u32_modulus : N := 2 ^ 32.

(** [a + b] on [uint64_t] / [size_t]. *)
Definition u64_add (a b : N) : N := ((a + b) mod u64_modulus)%N.

(** Conversion of an [int] to [uint32_t], as the usual arithmetic
    conversions do in [device_id >= num_gpus_]. *)
Definition int_to_u32 (z : Z) : N := Z.to_N (z mod Z.of_N u32_modulus).

(** ** Status values (absl::Status) *)

Inductive Status :=
| OkStatus
| InternalError (msg : string)
| PermissionDeniedError (msg : string).

Definition ok (s : Status) : bool :=
  match s with OkStatus => true | _ => false end.

(** ** Vendor identifiers *)

(** Driver-API callback identifiers.  The identifiers of the CUDA-graph
    family and of the kernel launches are listed one by one, as the switch
    of [SetCallbackEventUponApiExit] lists them; the identifiers of the
    memcpy / memset / alloc / free / host-register arms are [cbid_memory n]
    and every identifier the switch does not list is [cbid_unlisted n]. *)
Inductive CUpti_CallbackId :=
| CBID_INVALID
| cuLaunchKernel | cuLaunchKernelEx
| cuLaunchCooperativeKernel | cuLaunchCooperativeKernelMultiDevice
| cuGraphCreate | cuGraphInstantiate | cuGraphLaunch | cuGraphLaunch_ptsz
| cuGraphClone | cuGraphInstantiate_v2 | cuGraphInstantiateWithFlags
| cuGraphInstantiateWithParams | cuGraphInstantiateWithParams_ptsz
| cuGraphAddKernelNode | cuGraphAddKernelNode_v2 | cuGraphAddMemcpyNode
| cuGraphAddMemsetNode | cuGraphAddChildGraphNode | cuGraphAddEmptyNode
| cuGraphAddHostNode | cuGraphAddNode | cuGraphAddNode_v2
| cuGraphAddEventRecordNode | cuGraphAddEventWaitNode
| cuGraphAddExternalSemaphoresSignalNode
| cuGraphAddExternalSemaphoresWaitNode
| cuGraphAddMemAllocNode | cuGraphAddMemFreeNode | cuGraphAddBatchMemOpNode
| cuCtxDestroy | cuCtxDestroy_v2
| cbid_memory (n : N)
| cbid_unlisted (n : N).

#[global] Instance CUpti_CallbackId_eq_dec : EqDecision CUpti_CallbackId.
Proof. solve_decision. Defined.

(** Resource-domain callback identifiers. *)
Inductive CUpti_ResourceCbid :=
| CUPTI_CBID_RESOURCE_GRAPH_CREATED
| CUPTI_CBID_RESOURCE_GRAPH_CLONED
| CUPTI_CBID_RESOURCE_GRAPHEXEC_CREATED
| CUPTI_CBID_RESOURCE_GRAPHNODE_CREATED
| CUPTI_CBID_RESOURCE_GRAPHNODE_CLONED
| CUPTI_CBID_RESOURCE_other (n : N).

Inductive CUpti_ApiCallbackSite := CUPTI_API_ENTER | CUPTI_API_EXIT | CUPTI_API_other.

Inductive CUpti_CallbackDomain :=
| CUPTI_CB_DOMAIN_DRIVER_API | CUPTI_CB_DOMAIN_RESOURCE | CUPTI_CB_DOMAIN_other.

(** ** Event model *)

Module CuptiTracerEventType.
Inductive t :=
| Unsupported | Kernel | MemcpyH2D | MemcpyD2H | MemcpyD2D | MemcpyP2P
| MemcpyOther | Memset | MemoryAlloc | MemoryFree | HostRegister
| HostUnregister | CudaGraph | CudaGraphNodeMap | Generic.

#[global] Instance eq_dec : EqDecision t.
Proof. solve_decision. Defined.
End CuptiTracerEventType.

Module CuptiTracerEventSource.
Inductive t := Invalid | DriverCallback | Activity.
End CuptiTracerEventSource.

Record CudaGraphDetails := {
  cbid : CUpti_CallbackId;
  orig_graph_id : N;
  orig_graph_node_id : N;
}.

(** The decoded vendor parameter block of a memory operation: the event
    kind and the kind-specific numbers its setter stores; whether the
    setter assigns the name (the alloc, free and host-register setters do,
    the memcpy and memset setters do not); and, for a peer copy, the source
    device the vendor resolves. *)
Record MemoryDetails := {
  mem_type : CuptiTracerEventType.t;
  mem_named : bool;
  mem_source_device : option N;
  mem_address : N;
  mem_num_bytes : N;
  mem_destination : N;
  mem_flags : N;
  mem_async : bool;
}.

(** Modelled from the spec: the declaration of [CuptiTracerEvent]
    (cupti_buffer_events.h) is not part of the sources; the fields are the
    ones the tracer assigns, with the spec's data model (section 3) for
    their meaning.  The kind-specific payload is kept as one field per kind
    the tracer writes. *)
Record CuptiTracerEvent := {
  type : CuptiTracerEventType.t;
  source : CuptiTracerEventSource.t;
  name : string;
  annotation : string;
  nvtx_range : string;
  start_time_ns : N;
  end_time_ns : N;
  device_id : N;
  correlation_id : N;
  thread_id : N;
  context_id : N;
  graph_id : N;
  graph_node_id : N;
  scope_range_id : Z;
  cuda_graph_info : CudaGraphDetails;
  generic_info_cbid : CUpti_CallbackId;
  memory_info : option MemoryDetails;
}.

(** [CuptiTracerEvent event{}]: value initialisation. *)
Definition CuptiTracerEvent_zero : CuptiTracerEvent := {|
  type := CuptiTracerEventType.Unsupported;
  source := CuptiTracerEventSource.Invalid;
  name := ""; annotation := ""; nvtx_range := "";
  start_time_ns := 0; end_time_ns := 0; device_id := 0;
  correlation_id := 0; thread_id := 0; context_id := 0;
  graph_id := 0; graph_node_id := 0; scope_range_id := 0;
  cuda_graph_info :=
    {| cbid := CBID_INVALID; orig_graph_id := 0; orig_graph_node_id := 0 |};
  generic_info_cbid := CBID_INVALID;
  memory_info := None;
|}.

(** Assignment of the two annotation fields, all other fields kept. *)
Definition with_annotations (a r : string) (e : CuptiTracerEvent)
  : CuptiTracerEvent := {|
  type := type e; source := source e; name := name e;
  annotation := a; nvtx_range := r;
  start_time_ns := start_time_ns e; end_time_ns := end_time_ns e;
  device_id := device_id e; correlation_id := correlation_id e;
  thread_id := thread_id e; context_id := context_id e;
  graph_id := graph_id e; graph_node_id := graph_node_id e;
  scope_range_id := scope_range_id e;
  cuda_graph_info := cuda_graph_info e;
  generic_info_cbid := generic_info_cbid e;
  memory_info := memory_info e;
|}.

(** ** Per-thread collection *)

(** Modelled from the spec: [CallbackAnnotationsAndEvents]
    (cupti_buffer_events.h) is not part of the sources.  Per the data model
    it is "an ordered sequence of TracerEvents, a deduplicated set of
    annotation strings, a dropped-event counter, and a scope-range-id parent
    tree"; the nvtx-range strings are deduplicated in a set of their own. *)
Record CallbackAnnotationsAndEvents := {
  annotations : gset string;
  nvtx_ranges : gset string;
  num_dropped_events : N;
  event_queue : list CuptiTracerEvent;
  scope_range_id_tree : gmap Z Z;
}.

(** A default-constructed collection. *)
Definition CallbackAnnotationsAndEvents_empty : CallbackAnnotationsAndEvents := {|
  annotations := ∅; nvtx_ranges := ∅; num_dropped_events := 0;
  event_queue := []; scope_range_id_tree := ∅;
|}.

(** Modelled from the spec: [NumAnnotations], the number of distinct
    annotation strings held. *)
Definition NumAnnotations (c : CallbackAnnotationsAndEvents) : N :=
  N.of_nat (size (annotations c)).

(** Modelled from the spec: [DedupAnnotation] enters the string in the
    deduplicated set and returns the stored copy, equal to the argument. *)
Definition DedupAnnotation (s : string) (c : CallbackAnnotationsAndEvents)
  : string * CallbackAnnotationsAndEvents :=
  (s, {| annotations := {[ s ]} ∪ annotations c;
         nvtx_ranges := nvtx_ranges c;
         num_dropped_events := num_dropped_events c;
         event_queue := event_queue c;
         scope_range_id_tree := scope_range_id_tree c |}).

(** Modelled from the spec: [DedupNvtxRange], the same for range labels. *)
Definition DedupNvtxRange (s : string) (c : CallbackAnnotationsAndEvents)
  : string * CallbackAnnotationsAndEvents :=
  (s, {| annotations := annotations c;
         nvtx_ranges := {[ s ]} ∪ nvtx_ranges c;
         num_dropped_events := num_dropped_events c;
         event_queue := event_queue c;
         scope_range_id_tree := scope_range_id_tree c |}).

(** Modelled from the spec: [event_queue().Push], append at the tail. *)
Definition event_queue_Push (e : CuptiTracerEvent)
  (c : CallbackAnnotationsAndEvents) : CallbackAnnotationsAndEvents :=
  {| annotations := annotations c;
     nvtx_ranges := nvtx_ranges c;
     num_dropped_events := num_dropped_events c;
     event_queue := event_queue c ++ [e];
     scope_range_id_tree := scope_range_id_tree c |}.

(** Modelled from the spec: the collection's own [IncNumDroppedEvents],
    "increments a counter when the global event cap is hit". *)
Definition inc_num_dropped_events (c : CallbackAnnotationsAndEvents)
  : CallbackAnnotationsAndEvents :=
  {| annotations := annotations c;
     nvtx_ranges := nvtx_ranges c;
     num_dropped_events := num_dropped_events c + 1;
     event_queue := event_queue c;
     scope_range_id_tree := scope_range_id_tree c |}.

Definition with_scope_range_id_tree (t : gmap Z Z)
  (c : CallbackAnnotationsAndEvents) : CallbackAnnotationsAndEvents :=
  {| annotations := annotations c;
     nvtx_ranges := nvtx_ranges c;
     num_dropped_events := num_dropped_events c;
     event_queue := event_queue c;
     scope_range_id_tree := t |}.

(** ** Collector options and the tracer object *)

(** The ceilings read through [collector_->GetOptions()]. *)
Record CuptiTracerCollectorOptions := {
  max_callback_api_events : N;
  max_activity_api_events : N;
  max_annotation_strings : N;
}.

(** ** The vendor profiling interface (CuptiInterface) *)

Inductive CUptiResult :=
| CUPTI_SUCCESS
| CUPTI_ERROR_INSUFFICIENT_PRIVILEGES
| CUPTI_ERROR_other (errstr : string).

Inductive CUpti_ActivityKind :=
| CUPTI_ACTIVITY_KIND_MARKER
| CUPTI_ACTIVITY_KIND_UNIFIED_MEMORY_COUNTER
| CUPTI_ACTIVITY_KIND_CONCURRENT_KERNEL
| CUPTI_ACTIVITY_KIND_other (n : N).

#[global] Instance CUpti_ActivityKind_eq_dec : EqDecision CUpti_ActivityKind.
Proof. solve_decision. Defined.

(** The status-returning vendor calls the life cycle issues. *)
Inductive CuptiCall :=
| Subscribe
| Unsubscribe
| EnableResourceCallback (enable : bool) (c : CUpti_ResourceCbid)
| EnableDriverCallback (enable : bool) (c : CUpti_CallbackId)
| EnableDomain (enable : bool) (d : CUpti_CallbackDomain)
| SetThreadIdType
| ActivityUsePerThreadBuffer
| ActivityRegisterCallbacks
| ActivityEnable (k : CUpti_ActivityKind)
| ActivityDisable (k : CUpti_ActivityKind)
| ActivityFlushAll (forced : bool)
| ActivityConfigureUnifiedMemoryCounter (enable : bool)
| CuptiFinalize
| CleanUp.

(** Contexts, graphs and graph nodes are opaque vendor handles. *)
Definition CUcontext := N.
Definition CUgraph := N.
Definition CUgraphExec := N.
Definition CUgraphNode := N.

(** One activity record of a filled buffer; only their number matters. *)
Definition CUpti_Activity := N.

(** The interface object: what each call answers.  A query that fails
    leaves its output argument untouched ([None]). *)
Record CuptiInterface := {
  call_result : CuptiCall → CUptiResult;
  GetResultString : CUptiResult → string;
  GetTimestamp_result : option N;
  GetDeviceId : CUcontext → CUptiResult * N;
  GetGraphId : CUgraph → option N;
  GetGraphExecId : CUgraphExec → option N;
  GetGraphNodeId : CUgraphNode → option N;
  Disabled : bool;
  ActivityGetNumDroppedRecords : CUcontext → N → option N;
  (** the records [ActivityGetNextRecord] yields, one per call, for a
      buffer and its valid size, before it stops answering success *)
  ActivityRecords : N → N → list CUpti_Activity;
}.

(** [RETURN_IF_CUPTI_ERROR]: the status a failed vendor call is turned
    into; [None] when the call succeeded and control continues. *)
Definition cupti_error (cupti : CuptiInterface) (r : CUptiResult)
  : option Status :=
  match r with
  | CUPTI_SUCCESS => None
  | CUPTI_ERROR_INSUFFICIENT_PRIVILEGES =>
      Some (PermissionDeniedError "CUPTI needs root access")
  | CUPTI_ERROR_other _ =>
      Some (InternalError
              (String.append "CUPTI call error: " (GetResultString cupti r)))
  end.

(** ** Tracer options, activity buffers, hook *)

Record CuptiTracerOptions := {
  required_callback_api_events : bool;
  cbids_selected : list CUpti_CallbackId;
  activities_selected : list CUpti_ActivityKind;
  cupti_finalize : bool;
  sync_devices_before_stop : bool;
  enable_nvtx_tracking : bool;
  pm_sampler_enable : bool;
}.

Definition with_activities_selected (a : list CUpti_ActivityKind)
  (o : CuptiTracerOptions) : CuptiTracerOptions := {|
  required_callback_api_events := required_callback_api_events o;
  cbids_selected := cbids_selected o;
  activities_selected := a;
  cupti_finalize := cupti_finalize o;
  sync_devices_before_stop := sync_devices_before_stop o;
  enable_nvtx_tracking := enable_nvtx_tracking o;
  pm_sampler_enable := pm_sampler_enable o;
|}.

(** A filled buffer with its valid size. *)
Definition ActivityBufferAndSize : Type := N * N.

(** Modelled from the spec: [CuptiActivityBufferManager]
    (cupti_buffer_events.h) is not part of the sources.  Per section 4.3 it
    owns a pool of fixed-size buffers; [CacheCuptiFilledActivityBuffer]
    "records a filled buffer for later draining", [PopCachedBuffers] "hands
    over all cached buffers and clears the cache" and [ReclaimBuffer]
    "returns an unused/already-drained buffer to the pool for reuse". *)
Record CuptiActivityBufferManager := {
  buffer_size_in_bytes : N;
  buffer_pool : list N;
  cached_buffers : list ActivityBufferAndSize;
}.

Definition ReclaimBuffer (p : N) (m : CuptiActivityBufferManager)
  : CuptiActivityBufferManager :=
  {| buffer_size_in_bytes := buffer_size_in_bytes m;
     buffer_pool := p :: buffer_pool m;
     cached_buffers := cached_buffers m |}.

Definition CacheCuptiFilledActivityBuffer (p size : N)
  (m : CuptiActivityBufferManager) : CuptiActivityBufferManager :=
  {| buffer_size_in_bytes := buffer_size_in_bytes m;
     buffer_pool := buffer_pool m;
     cached_buffers := cached_buffers m ++ [(p, size)] |}.

Definition PopCachedBuffers (m : CuptiActivityBufferManager)
  : list ActivityBufferAndSize * CuptiActivityBufferManager :=
  (cached_buffers m,
   {| buffer_size_in_bytes := buffer_size_in_bytes m;
      buffer_pool := buffer_pool m;
      cached_buffers := [] |}).

(** [CuptiDriverApiHookWithActivityApi]: its copy of the options and the
    contexts it tracks for the synchronisation pass. *)
Record CuptiDriverApiHook := {
  hook_option_ : CuptiTracerOptions;
  contexts_ : gset N;
}.

(** ** What a life-cycle operation does to the outside world *)

(** Calls on the external collector. *)
Inductive CollectorCall :=
| SetTracingEndTimeNs (ts : N)
| OnTracerCollectedCallbackData
    (batches : list CallbackAnnotationsAndEvents) (include_annotations : bool)
| OnTracerCachedActivityBuffers (buffers : list ActivityBufferAndSize)
| OnEventsDropped (reason : string) (count : N)
| CollectorFlush.

Inductive Effect :=
| Vendor (c : CuptiCall)
| Collector (c : CollectorCall)
| PmStopSampler
| PmDeinitialize
| ContextSynchronize (ctx : N)
| AnnotationStackEnable (on : bool).

(** ** The tracer object *)

Record CuptiTracer := {
  num_gpus_ : Z;
  api_tracing_enabled_ : bool;
  activity_tracing_enabled_ : bool;
  pm_sampling_enabled_ : bool;
  need_root_access_ : bool;
  (** [collector_]: the collector is reached through a pointer; what the
      tracer reads from it are its options *)
  collector_ : option CuptiTracerCollectorOptions;
  option_ : option CuptiTracerOptions;
  cupti_driver_api_hook_ : option CuptiDriverApiHook;
  activity_buffers_ : option CuptiActivityBufferManager;
  pm_sampler_ : bool;
  num_callback_events_ : N;
  cupti_dropped_activity_event_count_ : N;
  num_activity_events_in_cached_buffer_ : N;
  num_activity_events_in_dropped_buffer_ : N;
}.

(** [CuptiTracer::TooManyCallbackEvents]. *)
Definition TooManyCallbackEvents (t : CuptiTracer) : bool :=
  match collector_ t with
  | Some opts =>
      let count := num_callback_events_ t in
      let max_events := max_callback_api_events opts in
      (0 <? max_events)%N && (max_events <=? count)%N
  | None => true
  end.

(** [CuptiTracer::TooManyAnnotationStrings]. *)
Definition TooManyAnnotationStrings (t : CuptiTracer) (count : N) : bool :=
  match collector_ t with
  | Some opts =>
      let max_strings := max_annotation_strings opts in
      (0 <? max_strings)%N && (max_strings <=? count)%N
  | None => true
  end.

(** Modelled from the spec: [IncCallbackEventCount] (cupti_tracer.h, not
    part of the sources) adds one to the total of callback events. *)
Definition IncCallbackEventCount (t : CuptiTracer) : CuptiTracer := {|
  num_gpus_ := num_gpus_ t;
  api_tracing_enabled_ := api_tracing_enabled_ t;
  activity_tracing_enabled_ := activity_tracing_enabled_ t;
  pm_sampling_enabled_ := pm_sampling_enabled_ t;
  need_root_access_ := need_root_access_ t;
  collector_ := collector_ t;
  option_ := option_ t;
  cupti_driver_api_hook_ := cupti_driver_api_hook_ t;
  activity_buffers_ := activity_buffers_ t;
  pm_sampler_ := pm_sampler_ t;
  num_callback_events_ := num_callback_events_ t + 1;
  cupti_dropped_activity_event_count_ := cupti_dropped_activity_event_count_ t;
  num_activity_events_in_cached_buffer_ := num_activity_events_in_cached_buffer_ t;
  num_activity_events_in_dropped_buffer_ := num_activity_events_in_dropped_buffer_ t;
|}.

(** ** GuardedCallbackAnnotationsAndEvents *)

Module GuardedCallbackAnnotationsAndEvents.

(** [Consume]: swap with a default-constructed collection and return
    what was there.  The pair is (returned, left behind). *)
Definition Consume (c : CallbackAnnotationsAndEvents)
  : CallbackAnnotationsAndEvents * CallbackAnnotationsAndEvents :=
  let grabbed := CallbackAnnotationsAndEvents_empty in
  (c, grabbed).

(** Modelled from the spec: the collection's own [Clear] "resets a
    buffer at session start". *)
Definition Clear (c : CallbackAnnotationsAndEvents)
  : CallbackAnnotationsAndEvents :=
  CallbackAnnotationsAndEvents_empty.

Definition IncNumDroppedEvents (c : CallbackAnnotationsAndEvents)
  : CallbackAnnotationsAndEvents :=
  inc_num_dropped_events c.

(** [Push]. *)
Definition Push (tracer : CuptiTracer) (event : CuptiTracerEvent)
  (c : CallbackAnnotationsAndEvents) : CallbackAnnotationsAndEvents :=
  let too_many_annotations :=
    TooManyAnnotationStrings tracer (NumAnnotations c) in
  let '(a, c1) :=
    DedupAnnotation (if too_many_annotations then "" else annotation event) c in
  let '(r, c2) :=
    DedupNvtxRange (if too_many_annotations then "" else nvtx_range event) c1 in
  event_queue_Push (with_annotations a r event) c2.

(** The loop of [AddScopeRangeIdSequence], on the sequence read from
    its back: [curr] is the head of the reversed sequence, [*(curr - 1)]
    the element after it, and [curr > head] fails on the last one. *)
Fixpoint walk_back (rev_sequence : list Z) (tree : gmap Z Z) : gmap Z Z :=
  match rev_sequence with
  | curr :: ((prev :: _) as rest) =>
      if decide (is_Some (tree !! curr)) then tree
      else walk_back rest (<[curr := prev]> tree)
  | _ => tree
  end.

(** [AddScopeRangeIdSequence]. *)
Definition AddScopeRangeIdSequence (sequence : list Z)
  (c : CallbackAnnotationsAndEvents) : CallbackAnnotationsAndEvents :=
  if decide (1 < length sequence) then
    with_scope_range_id_tree
      (walk_back (rev sequence) (scope_range_id_tree c)) c
  else c.

End GuardedCallbackAnnotationsAndEvents.

(** ** Thread-local state *)

(** [GraphResourceCreationInfo]; the fields carry a prefix because the
    event has fields of the same names. *)
Record GraphResourceCreationInfo := {
  gi_graph_id : N;
  gi_orig_graph_id : N;
  node_id_map : gmap N N;
}.

Definition GraphResourceCreationInfo_zero : GraphResourceCreationInfo :=
  {| gi_graph_id := 0; gi_orig_graph_id := 0; node_id_map := ∅ |}.

(** What is thread-local to the thread a callback runs on: the
    re-entrancy counter, the graph correlation state, the guarded
    collection, the thread id and what the annotation stack answers;
    [correlationData_cell] is the cell [cbdata->correlationData] points to
    for the API call in flight. *)
Record ThreadLocal := {
  internalCuCall : Z;
  per_thread_graph_info : GraphResourceCreationInfo;
  annotations_and_events_ : CallbackAnnotationsAndEvents;
  current_thread_id : N;
  AnnotationStack_Get : string;
  AnnotationStack_GetScopeRangeIds : list Z;
  correlationData_cell : N;
}.

Definition with_graph_and_events (g : GraphResourceCreationInfo)
  (c : CallbackAnnotationsAndEvents) (th : ThreadLocal) : ThreadLocal := {|
  internalCuCall := internalCuCall th;
  per_thread_graph_info := g;
  annotations_and_events_ := c;
  current_thread_id := current_thread_id th;
  AnnotationStack_Get := AnnotationStack_Get th;
  AnnotationStack_GetScopeRangeIds := AnnotationStack_GetScopeRangeIds th;
  correlationData_cell := correlationData_cell th;
|}.

Definition with_correlationData (v : N) (th : ThreadLocal) : ThreadLocal := {|
  internalCuCall := internalCuCall th;
  per_thread_graph_info := per_thread_graph_info th;
  annotations_and_events_ := annotations_and_events_ th;
  current_thread_id := current_thread_id th;
  AnnotationStack_Get := AnnotationStack_Get th;
  AnnotationStack_GetScopeRangeIds := AnnotationStack_GetScopeRangeIds th;
  correlationData_cell := v;
|}.

(** [CUpti_CallbackData], with the members of the vendor parameter block
    the setters read: [hGraph] of a graph launch and the decoded block of a
    memory operation. *)
Record CUpti_CallbackData := {
  callbackSite : CUpti_ApiCallbackSite;
  functionName : string;
  symbolName : option string;
  context : option CUcontext;
  contextUid : N;
  correlationId : N;
  hGraph : CUgraphExec;
  memory_params : MemoryDetails;
}.

(** ** Event setters of the callback dispatcher *)

Section setters.
Variable cupti_interface : CuptiInterface.
Variable tracer : CuptiTracer.
Variable device_id0 : N.
Variable cbid0 : CUpti_CallbackId.
Variable cbdata : CUpti_CallbackData.
Variables start_time end_time : N.
(** [Env::Default()->GetCurrentThreadId()] *)
Variable tid : N.

Definition SetKernelEventUponApiExit (event : CuptiTracerEvent)
  : CuptiTracerEvent := {|
  type := CuptiTracerEventType.Kernel;
  source := CuptiTracerEventSource.DriverCallback;
  name := match symbolName cbdata with
          | Some s => s | None => functionName cbdata end;
  annotation := annotation event; nvtx_range := nvtx_range event;
  start_time_ns := start_time; end_time_ns := end_time;
  device_id := device_id0;
  correlation_id := correlationId cbdata;
  thread_id := tid;
  context_id := contextUid cbdata;
  graph_id := graph_id event; graph_node_id := graph_node_id event;
  scope_range_id := scope_range_id event;
  cuda_graph_info := cuda_graph_info event;
  generic_info_cbid := generic_info_cbid event;
  memory_info := memory_info event;
|}.

(** The memcpy, memset, alloc, free and host-register setters, in one:
    each stores the common fields below and the numbers it decodes from
    the vendor parameter block, which [memory_params] carries decoded. *)
Definition SetMemoryEventUponApiExit (event : CuptiTracerEvent)
  : CuptiTracerEvent := {|
  type := mem_type (memory_params cbdata);
  source := CuptiTracerEventSource.DriverCallback;
  name := if mem_named (memory_params cbdata)
          then functionName cbdata else name event;
  annotation := annotation event; nvtx_range := nvtx_range event;
  start_time_ns := start_time; end_time_ns := end_time;
  device_id := default device_id0 (mem_source_device (memory_params cbdata));
  correlation_id := correlationId cbdata;
  thread_id := tid;
  context_id := contextUid cbdata;
  graph_id := graph_id event; graph_node_id := graph_node_id event;
  scope_range_id := scope_range_id event;
  cuda_graph_info := cuda_graph_info event;
  generic_info_cbid := generic_info_cbid event;
  memory_info := Some (memory_params cbdata);
|}.

Definition SetGenericEventUponApiExit (event : CuptiTracerEvent)
  : CuptiTracerEvent := {|
  type := CuptiTracerEventType.Generic;
  source := CuptiTracerEventSource.DriverCallback;
  name := functionName cbdata;
  annotation := annotation event; nvtx_range := nvtx_range event;
  start_time_ns := start_time; end_time_ns := end_time;
  device_id := device_id0;
  correlation_id := correlationId cbdata;
  thread_id := tid;
  context_id := contextUid cbdata;
  graph_id := graph_id event; graph_node_id := graph_node_id event;
  scope_range_id := scope_range_id event;
  cuda_graph_info := cuda_graph_info event;
  generic_info_cbid := cbid0;
  memory_info := memory_info event;
|}.

(** The time increment of the node-map events. *)
Definition kTimeIncrementNs : N := 1.

(** [current_event] of the loop of [SetCudaGraphEventUponApiExit]: a
    copy of [event] with the node-map fields assigned. *)
Definition node_map_event (event : CuptiTracerEvent)
  (graph_id_info : GraphResourceCreationInfo)
  (current_start_time node_id orig_node_id : N) : CuptiTracerEvent := {|
  type := CuptiTracerEventType.CudaGraphNodeMap;
  source := CuptiTracerEventSource.DriverCallback;
  name := String.append "CudaGraphNodeMap: " (functionName cbdata);
  annotation := annotation event; nvtx_range := nvtx_range event;
  start_time_ns := current_start_time;
  end_time_ns := u64_add current_start_time kTimeIncrementNs;
  device_id := device_id0;
  correlation_id := correlationId cbdata;
  thread_id := tid;
  context_id := contextUid cbdata;
  graph_id := gi_graph_id graph_id_info;
  graph_node_id := node_id;
  scope_range_id := scope_range_id event;
  cuda_graph_info :=
    {| cbid := cbid0;
       orig_graph_id := gi_orig_graph_id graph_id_info;
       orig_graph_node_id := orig_node_id |};
  generic_info_cbid := generic_info_cbid event;
  memory_info := memory_info event;
|}.

(** The range-for over [node_id_map]: one pushed event per entry, in
    iteration order.  [current_start_time] is loop-carried state; the
    loop body reads it and does not assign it. *)
Fixpoint node_map_loop (entries : list (N * N))
  (event : CuptiTracerEvent) (graph_id_info : GraphResourceCreationInfo)
  (current_start_time : N) (guarded : CallbackAnnotationsAndEvents)
  : CallbackAnnotationsAndEvents :=
  match entries with
  | [] => guarded
  | (node_id, orig_node_id) :: rest =>
      let current_event :=
        node_map_event event graph_id_info current_start_time
          node_id orig_node_id in
      let guarded' :=
        GuardedCallbackAnnotationsAndEvents.Push tracer current_event guarded in
      node_map_loop rest event graph_id_info current_start_time guarded'
  end.

(** The graph-level event both graph setters end with (the single-node
    setter also assigns the two node fields). *)
Definition graph_level_event (event : CuptiTracerEvent)
  (graph_id_info : GraphResourceCreationInfo)
  (node_id orig_node_id : N) : CuptiTracerEvent := {|
  type := CuptiTracerEventType.CudaGraph;
  source := CuptiTracerEventSource.DriverCallback;
  name := functionName cbdata;
  annotation := annotation event; nvtx_range := nvtx_range event;
  start_time_ns := start_time; end_time_ns := end_time;
  device_id := device_id0;
  correlation_id := correlationId cbdata;
  thread_id := tid;
  context_id := contextUid cbdata;
  graph_id := gi_graph_id graph_id_info;
  graph_node_id := node_id;
  scope_range_id := scope_range_id event;
  cuda_graph_info :=
    {| cbid := cbid0;
       orig_graph_id := gi_orig_graph_id graph_id_info;
       orig_graph_node_id := orig_node_id |};
  generic_info_cbid := generic_info_cbid event;
  memory_info := memory_info event;
|}.

(** [SetCudaGraphEventUponApiExit]: returns the event, the thread's
    graph state and the thread's collection. *)
Definition SetCudaGraphEventUponApiExit (event : CuptiTracerEvent)
  (graph_id_info : GraphResourceCreationInfo)
  (guarded : CallbackAnnotationsAndEvents)
  : CuptiTracerEvent * GraphResourceCreationInfo * CallbackAnnotationsAndEvents :=
  let graph_id_info1 :=
    if decide (cbid0 = cuGraphLaunch ∨ cbid0 = cuGraphLaunch_ptsz) then
      {| gi_graph_id :=
           default (gi_graph_id graph_id_info)
             (GetGraphExecId cupti_interface (hGraph cbdata));
         gi_orig_graph_id := 0;
         node_id_map := node_id_map graph_id_info |}
    else graph_id_info in
  let '(graph_id_info2, guarded2) :=
    if decide (cbid0 = cuGraphClone ∨ cbid0 = cuGraphInstantiateWithFlags) then
      let current_start_time := start_time in
      let guarded' :=
        node_map_loop (map_to_list (node_id_map graph_id_info1))
          event graph_id_info1 current_start_time guarded in
      ({| gi_graph_id := gi_graph_id graph_id_info1;
          gi_orig_graph_id := gi_orig_graph_id graph_id_info1;
          node_id_map := ∅ |}, guarded')
    else (graph_id_info1, guarded) in
  (graph_level_event event graph_id_info2
     (graph_node_id event) (orig_graph_node_id (cuda_graph_info event)),
   graph_id_info2, guarded2).

(** [SetCudaGraphNodeEventUponApiExit]: [node_id_map.begin()] is
    dereferenced without a test, so an empty map has no result. *)
Definition SetCudaGraphNodeEventUponApiExit (event : CuptiTracerEvent)
  (graph_id_info : GraphResourceCreationInfo)
  : option (CuptiTracerEvent * GraphResourceCreationInfo) :=
  match map_to_list (node_id_map graph_id_info) with
  | [] => None
  | (first, second) :: _ =>
      Some (graph_level_event event graph_id_info first second,
            {| gi_graph_id := gi_graph_id graph_id_info;
               gi_orig_graph_id := gi_orig_graph_id graph_id_info;
               node_id_map := ∅ |})
  end.

(** [SetCallbackEventUponApiExit]: the switch on the identifier, as
    compiled for CUDA 11.8 and later (all its arms present). *)
Definition SetCallbackEventUponApiExit (event : CuptiTracerEvent)
  (graph_id_info : GraphResourceCreationInfo)
  (guarded : CallbackAnnotationsAndEvents)
  : option (CuptiTracerEvent * GraphResourceCreationInfo
            * CallbackAnnotationsAndEvents) :=
  match cbid0 with
  | cuLaunchKernel | cuLaunchKernelEx
  | cuLaunchCooperativeKernel | cuLaunchCooperativeKernelMultiDevice =>
      Some (SetKernelEventUponApiExit event, graph_id_info, guarded)
  | cbid_memory _ =>
      Some (SetMemoryEventUponApiExit event, graph_id_info, guarded)
  | cuGraphCreate | cuGraphInstantiate | cuGraphLaunch | cuGraphLaunch_ptsz
  | cuGraphClone | cuGraphInstantiate_v2 | cuGraphInstantiateWithFlags
  | cuGraphInstantiateWithParams | cuGraphInstantiateWithParams_ptsz =>
      Some (SetCudaGraphEventUponApiExit event graph_id_info guarded)
  | cuGraphAddKernelNode | cuGraphAddKernelNode_v2 | cuGraphAddMemcpyNode
  | cuGraphAddMemsetNode | cuGraphAddChildGraphNode | cuGraphAddEmptyNode
  | cuGraphAddHostNode | cuGraphAddNode | cuGraphAddNode_v2
  | cuGraphAddEventRecordNode | cuGraphAddEventWaitNode
  | cuGraphAddExternalSemaphoresSignalNode
  | cuGraphAddExternalSemaphoresWaitNode
  | cuGraphAddMemAllocNode | cuGraphAddMemFreeNode
  | cuGraphAddBatchMemOpNode =>
      match SetCudaGraphNodeEventUponApiExit event graph_id_info with
      | Some (event', graph_id_info') =>
          Some (event', graph_id_info', guarded)
      | None => None
      end
  | _ => Some (SetGenericEventUponApiExit event, graph_id_info, guarded)
  end.

End setters.

(** ** Callback path *)

Definition with_cupti_driver_api_hook_ (h : option CuptiDriverApiHook)
  (t : CuptiTracer) : CuptiTracer := {|
  num_gpus_ := num_gpus_ t;
  api_tracing_enabled_ := api_tracing_enabled_ t;
  activity_tracing_enabled_ := activity_tracing_enabled_ t;
  pm_sampling_enabled_ := pm_sampling_enabled_ t;
  need_root_access_ := need_root_access_ t;
  collector_ := collector_ t;
  option_ := option_ t;
  cupti_driver_api_hook_ := h;
  activity_buffers_ := activity_buffers_ t;
  pm_sampler_ := pm_sampler_ t;
  num_callback_events_ := num_callback_events_ t;
  cupti_dropped_activity_event_count_ := cupti_dropped_activity_event_count_ t;
  num_activity_events_in_cached_buffer_ := num_activity_events_in_cached_buffer_ t;
  num_activity_events_in_dropped_buffer_ := num_activity_events_in_dropped_buffer_ t;
|}.

(** [CuptiTracer::GetTimestamp]: 0 when the vendor call fails. *)
Definition GetTimestamp (cupti : CuptiInterface) : N :=
  default 0%N (GetTimestamp_result cupti).

(** The result of a callback-path step: the status returned, the tracer
    and the calling thread's state afterwards. *)
Definition CallbackResult : Type := Status * CuptiTracer * ThreadLocal.

(** [AddDriverApiCallbackEvent]. *)
Definition AddDriverApiCallbackEvent (tracer : CuptiTracer)
  (cupti_interface : CuptiInterface) (device_id0 : N) (start_tsc end_tsc : N)
  (cbid0 : CUpti_CallbackId) (cbdata : CUpti_CallbackData) (th : ThreadLocal)
  : option CallbackResult :=
  let annotation0 := AnnotationStack_Get th in
  let nvtx_range0 := "" in
  let guarded := annotations_and_events_ th in
  if TooManyCallbackEvents tracer then
    Some (OkStatus, tracer,
          with_graph_and_events (per_thread_graph_info th)
            (GuardedCallbackAnnotationsAndEvents.IncNumDroppedEvents guarded) th)
  else
    let tracer1 := IncCallbackEventCount tracer in
    let range_ids := AnnotationStack_GetScopeRangeIds th in
    let guarded1 :=
      GuardedCallbackAnnotationsAndEvents.AddScopeRangeIdSequence
        range_ids guarded in
    let event := {|
      type := type CuptiTracerEvent_zero;
      source := source CuptiTracerEvent_zero;
      name := name CuptiTracerEvent_zero;
      annotation := annotation0; nvtx_range := nvtx_range0;
      start_time_ns := 0; end_time_ns := 0; device_id := 0;
      correlation_id := correlationId cbdata;
      thread_id := 0; context_id := 0; graph_id := 0; graph_node_id := 0;
      scope_range_id := default 0%Z (last range_ids);
      cuda_graph_info := cuda_graph_info CuptiTracerEvent_zero;
      generic_info_cbid := generic_info_cbid CuptiTracerEvent_zero;
      memory_info := memory_info CuptiTracerEvent_zero;
    |} in
    match SetCallbackEventUponApiExit cupti_interface tracer1 device_id0
            cbid0 cbdata start_tsc end_tsc (current_thread_id th)
            event (per_thread_graph_info th) guarded1 with
    | None => None
    | Some (event', graph_id_info', guarded2) =>
        Some (OkStatus, tracer1,
              with_graph_and_events graph_id_info'
                (GuardedCallbackAnnotationsAndEvents.Push tracer1 event' guarded2)
                th)
    end.

Module CuptiDriverApiHookWithActivityApi.

(** [TrackContext]. *)
Definition TrackContext (cbid0 : CUpti_CallbackId) (ctx : option CUcontext)
  (h : CuptiDriverApiHook) : CuptiDriverApiHook :=
  if negb (sync_devices_before_stop (hook_option_ h)) then h
  else match ctx with
       | None => h
       | Some c =>
           if decide (cbid0 = cuCtxDestroy_v2 ∨ cbid0 = cuCtxDestroy) then
             {| hook_option_ := hook_option_ h;
                contexts_ := contexts_ h ∖ {[ c ]} |}
           else
             {| hook_option_ := hook_option_ h;
                contexts_ := {[ c ]} ∪ contexts_ h |}
       end.

(** [OnDriverApiEnter]: stash the entry timestamp. *)
Definition OnDriverApiEnter (h : CuptiDriverApiHook)
  (cupti_interface : CuptiInterface) (tracer : CuptiTracer)
  (th : ThreadLocal) : option CallbackResult :=
  Some (OkStatus, tracer,
        with_correlationData
          (if required_callback_api_events (hook_option_ h)
           then GetTimestamp cupti_interface else 0%N) th).

(** [OnDriverApiExit]. *)
Definition OnDriverApiExit (h : CuptiDriverApiHook)
  (cupti_interface : CuptiInterface) (tracer : CuptiTracer)
  (device_id0 : N) (cbid0 : CUpti_CallbackId) (cbdata : CUpti_CallbackData)
  (th : ThreadLocal) : option CallbackResult :=
  let end_tsc := GetTimestamp cupti_interface in
  let start_tsc := correlationData_cell th in
  let h' := TrackContext cbid0 (context cbdata) h in
  AddDriverApiCallbackEvent (with_cupti_driver_api_hook_ (Some h') tracer)
    cupti_interface device_id0 start_tsc end_tsc cbid0 cbdata th.

(** [SyncAndFlush]: the contexts synchronised, when configured. *)
Definition SyncAndFlush (h : CuptiDriverApiHook) : list Effect :=
  if sync_devices_before_stop (hook_option_ h)
  then ContextSynchronize <$> elements (contexts_ h)
  else [].

End CuptiDriverApiHookWithActivityApi.

(** The members of [CUpti_GraphData] a resource notification carries. *)
Record CUpti_GraphData := {
  graph : CUgraph;
  originalGraph : CUgraph;
  graphExec : CUgraphExec;
  node : CUgraphNode;
  originalNode : CUgraphNode;
}.

(** [CuptiTracer::HandleResourceCallback], on the thread's graph state. *)
Definition HandleResourceCallback (cupti_interface : CuptiInterface)
  (cbid0 : CUpti_ResourceCbid) (graph_data : CUpti_GraphData)
  (graph_id_info : GraphResourceCreationInfo) : GraphResourceCreationInfo :=
  let orig_graph_node := originalNode graph_data in
  let created_graph_node := node graph_data in
  match cbid0 with
  | CUPTI_CBID_RESOURCE_GRAPH_CREATED =>
      {| gi_graph_id :=
           default (gi_graph_id graph_id_info)
             (GetGraphId cupti_interface (graph graph_data));
         gi_orig_graph_id := 0;
         node_id_map := node_id_map graph_id_info |}
  | CUPTI_CBID_RESOURCE_GRAPH_CLONED =>
      {| gi_graph_id :=
           default (gi_graph_id graph_id_info)
             (GetGraphId cupti_interface (graph graph_data));
         gi_orig_graph_id :=
           default (gi_orig_graph_id graph_id_info)
             (GetGraphId cupti_interface (originalGraph graph_data));
         node_id_map := node_id_map graph_id_info |}
  | CUPTI_CBID_RESOURCE_GRAPHEXEC_CREATED =>
      {| gi_graph_id :=
           default (gi_graph_id graph_id_info)
             (GetGraphExecId cupti_interface (graphExec graph_data));
         gi_orig_graph_id :=
           default (gi_orig_graph_id graph_id_info)
             (GetGraphId cupti_interface (graph graph_data));
         node_id_map := node_id_map graph_id_info |}
  | CUPTI_CBID_RESOURCE_GRAPHNODE_CREATED =>
      let graph_node_id0 :=
        default 0%N (GetGraphNodeId cupti_interface created_graph_node) in
      {| gi_graph_id := gi_graph_id graph_id_info;
         gi_orig_graph_id := gi_orig_graph_id graph_id_info;
         node_id_map := <[graph_node_id0 := 0%N]> (node_id_map graph_id_info) |}
  | CUPTI_CBID_RESOURCE_GRAPHNODE_CLONED =>
      let graph_node_id0 :=
        default 0%N (GetGraphNodeId cupti_interface created_graph_node) in
      let orig_graph_node_id0 :=
        default 0%N (GetGraphNodeId cupti_interface orig_graph_node) in
      {| gi_graph_id := gi_graph_id graph_id_info;
         gi_orig_graph_id := gi_orig_graph_id graph_id_info;
         node_id_map :=
           <[graph_node_id0 := orig_graph_node_id0]> (node_id_map graph_id_info) |}
  | CUPTI_CBID_RESOURCE_other _ => graph_id_info
  end.

(** [CuptiTracer::HandleDriverApiCallback]. *)
Definition HandleDriverApiCallback (tracer : CuptiTracer)
  (cupti_interface : CuptiInterface) (cbid0 : CUpti_CallbackId)
  (cbdata : CUpti_CallbackData) (th : ThreadLocal) : option CallbackResult :=
  if decide (internalCuCall th ≠ 0%Z) then Some (OkStatus, tracer, th)
  else
    match context cbdata with
    | None =>
        Some (InternalError "cutpi callback without context", tracer, th)
    | Some ctx =>
        let '(r, device_id0) := GetDeviceId cupti_interface ctx in
        match cupti_error cupti_interface r with
        | Some st => Some (st, tracer, th)
        | None =>
            if (int_to_u32 (num_gpus_ tracer) <=? device_id0)%N then
              Some (InternalError
                      (String.append "Invalid device id:" (pretty device_id0)),
                    tracer, th)
            else
              match callbackSite cbdata with
              | CUPTI_API_ENTER =>
                  match cupti_driver_api_hook_ tracer with
                  | None => None
                  | Some h =>
                      CuptiDriverApiHookWithActivityApi.OnDriverApiEnter
                        h cupti_interface tracer th
                  end
              | CUPTI_API_EXIT =>
                  match cupti_driver_api_hook_ tracer with
                  | None => None
                  | Some h =>
                      CuptiDriverApiHookWithActivityApi.OnDriverApiExit
                        h cupti_interface tracer device_id0 cbid0 cbdata th
                  end
              | CUPTI_API_other => Some (OkStatus, tracer, th)
              end
        end
    end.

(** ** Assignments to single members of the tracer *)

Definition with_api_tracing_enabled_ (v : bool) (t : CuptiTracer) : CuptiTracer := {|
  num_gpus_ := num_gpus_ t;
  api_tracing_enabled_ := v;
  activity_tracing_enabled_ := activity_tracing_enabled_ t;
  pm_sampling_enabled_ := pm_sampling_enabled_ t;
  need_root_access_ := need_root_access_ t;
  collector_ := collector_ t;
  option_ := option_ t;
  cupti_driver_api_hook_ := cupti_driver_api_hook_ t;
  activity_buffers_ := activity_buffers_ t;
  pm_sampler_ := pm_sampler_ t;
  num_callback_events_ := num_callback_events_ t;
  cupti_dropped_activity_event_count_ := cupti_dropped_activity_event_count_ t;
  num_activity_events_in_cached_buffer_ := num_activity_events_in_cached_buffer_ t;
  num_activity_events_in_dropped_buffer_ := num_activity_events_in_dropped_buffer_ t;
|}.

Definition with_activity_tracing_enabled_ (v : bool) (t : CuptiTracer) : CuptiTracer := {|
  num_gpus_ := num_gpus_ t;
  api_tracing_enabled_ := api_tracing_enabled_ t;
  activity_tracing_enabled_ := v;
  pm_sampling_enabled_ := pm_sampling_enabled_ t;
  need_root_access_ := need_root_access_ t;
  collector_ := collector_ t;
  option_ := option_ t;
  cupti_driver_api_hook_ := cupti_driver_api_hook_ t;
  activity_buffers_ := activity_buffers_ t;
  pm_sampler_ := pm_sampler_ t;
  num_callback_events_ := num_callback_events_ t;
  cupti_dropped_activity_event_count_ := cupti_dropped_activity_event_count_ t;
  num_activity_events_in_cached_buffer_ := num_activity_events_in_cached_buffer_ t;
  num_activity_events_in_dropped_buffer_ := num_activity_events_in_dropped_buffer_ t;
|}.

Definition with_pm_sampling_enabled_ (v : bool) (t : CuptiTracer) : CuptiTracer := {|
  num_gpus_ := num_gpus_ t;
  api_tracing_enabled_ := api_tracing_enabled_ t;
  activity_tracing_enabled_ := activity_tracing_enabled_ t;
  pm_sampling_enabled_ := v;
  need_root_access_ := need_root_access_ t;
  collector_ := collector_ t;
  option_ := option_ t;
  cupti_driver_api_hook_ := cupti_driver_api_hook_ t;
  activity_buffers_ := activity_buffers_ t;
  pm_sampler_ := pm_sampler_ t;
  num_callback_events_ := num_callback_events_ t;
  cupti_dropped_activity_event_count_ := cupti_dropped_activity_event_count_ t;
  num_activity_events_in_cached_buffer_ := num_activity_events_in_cached_buffer_ t;
  num_activity_events_in_dropped_buffer_ := num_activity_events_in_dropped_buffer_ t;
|}.

Definition with_need_root_access_ (v : bool) (t : CuptiTracer) : CuptiTracer := {|
  num_gpus_ := num_gpus_ t;
  api_tracing_enabled_ := api_tracing_enabled_ t;
  activity_tracing_enabled_ := activity_tracing_enabled_ t;
  pm_sampling_enabled_ := pm_sampling_enabled_ t;
  need_root_access_ := v;
  collector_ := collector_ t;
  option_ := option_ t;
  cupti_driver_api_hook_ := cupti_driver_api_hook_ t;
  activity_buffers_ := activity_buffers_ t;
  pm_sampler_ := pm_sampler_ t;
  num_callback_events_ := num_callback_events_ t;
  cupti_dropped_activity_event_count_ := cupti_dropped_activity_event_count_ t;
  num_activity_events_in_cached_buffer_ := num_activity_events_in_cached_buffer_ t;
  num_activity_events_in_dropped_buffer_ := num_activity_events_in_dropped_buffer_ t;
|}.

Definition with_collector_ (v : option CuptiTracerCollectorOptions) (t : CuptiTracer) : CuptiTracer := {|
  num_gpus_ := num_gpus_ t;
  api_tracing_enabled_ := api_tracing_enabled_ t;
  activity_tracing_enabled_ := activity_tracing_enabled_ t;
  pm_sampling_enabled_ := pm_sampling_enabled_ t;
  need_root_access_ := need_root_access_ t;
  collector_ := v;
  option_ := option_ t;
  cupti_driver_api_hook_ := cupti_driver_api_hook_ t;
  activity_buffers_ := activity_buffers_ t;
  pm_sampler_ := pm_sampler_ t;
  num_callback_events_ := num_callback_events_ t;
  cupti_dropped_activity_event_count_ := cupti_dropped_activity_event_count_ t;
  num_activity_events_in_cached_buffer_ := num_activity_events_in_cached_buffer_ t;
  num_activity_events_in_dropped_buffer_ := num_activity_events_in_dropped_buffer_ t;
|}.

Definition with_option_ (v : option CuptiTracerOptions) (t : CuptiTracer) : CuptiTracer := {|
  num_gpus_ := num_gpus_ t;
  api_tracing_enabled_ := api_tracing_enabled_ t;
  activity_tracing_enabled_ := activity_tracing_enabled_ t;
  pm_sampling_enabled_ := pm_sampling_enabled_ t;
  need_root_access_ := need_root_access_ t;
  collector_ := collector_ t;
  option_ := v;
  cupti_driver_api_hook_ := cupti_driver_api_hook_ t;
  activity_buffers_ := activity_buffers_ t;
  pm_sampler_ := pm_sampler_ t;
  num_callback_events_ := num_callback_events_ t;
  cupti_dropped_activity_event_count_ := cupti_dropped_activity_event_count_ t;
  num_activity_events_in_cached_buffer_ := num_activity_events_in_cached_buffer_ t;
  num_activity_events_in_dropped_buffer_ := num_activity_events_in_dropped_buffer_ t;
|}.

Definition with_activity_buffers_ (v : option CuptiActivityBufferManager) (t : CuptiTracer) : CuptiTracer := {|
  num_gpus_ := num_gpus_ t;
  api_tracing_enabled_ := api_tracing_enabled_ t;
  activity_tracing_enabled_ := activity_tracing_enabled_ t;
  pm_sampling_enabled_ := pm_sampling_enabled_ t;
  need_root_access_ := need_root_access_ t;
  collector_ := collector_ t;
  option_ := option_ t;
  cupti_driver_api_hook_ := cupti_driver_api_hook_ t;
  activity_buffers_ := v;
  pm_sampler_ := pm_sampler_ t;
  num_callback_events_ := num_callback_events_ t;
  cupti_dropped_activity_event_count_ := cupti_dropped_activity_event_count_ t;
  num_activity_events_in_cached_buffer_ := num_activity_events_in_cached_buffer_ t;
  num_activity_events_in_dropped_buffer_ := num_activity_events_in_dropped_buffer_ t;
|}.

Definition with_pm_sampler_ (v : bool) (t : CuptiTracer) : CuptiTracer := {|
  num_gpus_ := num_gpus_ t;
  api_tracing_enabled_ := api_tracing_enabled_ t;
  activity_tracing_enabled_ := activity_tracing_enabled_ t;
  pm_sampling_enabled_ := pm_sampling_enabled_ t;
  need_root_access_ := need_root_access_ t;
  collector_ := collector_ t;
  option_ := option_ t;
  cupti_driver_api_hook_ := cupti_driver_api_hook_ t;
  activity_buffers_ := activity_buffers_ t;
  pm_sampler_ := v;
  num_callback_events_ := num_callback_events_ t;
  cupti_dropped_activity_event_count_ := cupti_dropped_activity_event_count_ t;
  num_activity_events_in_cached_buffer_ := num_activity_events_in_cached_buffer_ t;
  num_activity_events_in_dropped_buffer_ := num_activity_events_in_dropped_buffer_ t;
|}.

Definition with_num_callback_events_ (v : N) (t : CuptiTracer) : CuptiTracer := {|
  num_gpus_ := num_gpus_ t;
  api_tracing_enabled_ := api_tracing_enabled_ t;
  activity_tracing_enabled_ := activity_tracing_enabled_ t;
  pm_sampling_enabled_ := pm_sampling_enabled_ t;
  need_root_access_ := need_root_access_ t;
  collector_ := collector_ t;
  option_ := option_ t;
  cupti_driver_api_hook_ := cupti_driver_api_hook_ t;
  activity_buffers_ := activity_buffers_ t;
  pm_sampler_ := pm_sampler_ t;
  num_callback_events_ := v;
  cupti_dropped_activity_event_count_ := cupti_dropped_activity_event_count_ t;
  num_activity_events_in_cached_buffer_ := num_activity_events_in_cached_buffer_ t;
  num_activity_events_in_dropped_buffer_ := num_activity_events_in_dropped_buffer_ t;
|}.

Definition with_cupti_dropped_activity_event_count_ (v : N) (t : CuptiTracer) : CuptiTracer := {|
  num_gpus_ := num_gpus_ t;
  api_tracing_enabled_ := api_tracing_enabled_ t;
  activity_tracing_enabled_ := activity_tracing_enabled_ t;
  pm_sampling_enabled_ := pm_sampling_enabled_ t;
  need_root_access_ := need_root_access_ t;
  collector_ := collector_ t;
  option_ := option_ t;
  cupti_driver_api_hook_ := cupti_driver_api_hook_ t;
  activity_buffers_ := activity_buffers_ t;
  pm_sampler_ := pm_sampler_ t;
  num_callback_events_ := num_callback_events_ t;
  cupti_dropped_activity_event_count_ := v;
  num_activity_events_in_cached_buffer_ := num_activity_events_in_cached_buffer_ t;
  num_activity_events_in_dropped_buffer_ := num_activity_events_in_dropped_buffer_ t;
|}.

Definition with_num_activity_events_in_cached_buffer_ (v : N) (t : CuptiTracer) : CuptiTracer := {|
  num_gpus_ := num_gpus_ t;
  api_tracing_enabled_ := api_tracing_enabled_ t;
  activity_tracing_enabled_ := activity_tracing_enabled_ t;
  pm_sampling_enabled_ := pm_sampling_enabled_ t;
  need_root_access_ := need_root_access_ t;
  collector_ := collector_ t;
  option_ := option_ t;
  cupti_driver_api_hook_ := cupti_driver_api_hook_ t;
  activity_buffers_ := activity_buffers_ t;
  pm_sampler_ := pm_sampler_ t;
  num_callback_events_ := num_callback_events_ t;
  cupti_dropped_activity_event_count_ := cupti_dropped_activity_event_count_ t;
  num_activity_events_in_cached_buffer_ := v;
  num_activity_events_in_dropped_buffer_ := num_activity_events_in_dropped_buffer_ t;
|}.

Definition with_num_activity_events_in_dropped_buffer_ (v : N) (t : CuptiTracer) : CuptiTracer := {|
  num_gpus_ := num_gpus_ t;
  api_tracing_enabled_ := api_tracing_enabled_ t;
  activity_tracing_enabled_ := activity_tracing_enabled_ t;
  pm_sampling_enabled_ := pm_sampling_enabled_ t;
  need_root_access_ := need_root_access_ t;
  collector_ := collector_ t;
  option_ := option_ t;
  cupti_driver_api_hook_ := cupti_driver_api_hook_ t;
  activity_buffers_ := activity_buffers_ t;
  pm_sampler_ := pm_sampler_ t;
  num_callback_events_ := num_callback_events_ t;
  cupti_dropped_activity_event_count_ := cupti_dropped_activity_event_count_ t;
  num_activity_events_in_cached_buffer_ := num_activity_events_in_cached_buffer_ t;
  num_activity_events_in_dropped_buffer_ := v;
|}.
(** ** Vendor call sequences *)

(** A vendor call whose status is tested by [RETURN_IF_CUPTI_ERROR], or
    one whose status is only logged. *)
Inductive VendorStep :=
| Checked (c : CuptiCall)
| Unchecked (c : CuptiCall).

(** Issue the calls in order up to the first tested call that fails;
    the status is that failure, or [OkStatus] when none failed. *)
Fixpoint cupti_calls (cupti : CuptiInterface) (steps : list VendorStep)
  : Status * list Effect :=
  match steps with
  | [] => (OkStatus, [])
  | Unchecked c :: rest =>
      let '(st, es) := cupti_calls cupti rest in (st, Vendor c :: es)
  | Checked c :: rest =>
      match cupti_error cupti (call_result cupti c) with
      | Some st => (st, [Vendor c])
      | None =>
          let '(st, es) := cupti_calls cupti rest in (st, Vendor c :: es)
      end
  end.

(** [GetCudaGraphTracingResourceCbids] (CUDA 11.7 and later). *)
Definition GetCudaGraphTracingResourceCbids : list CUpti_ResourceCbid :=
  [ CUPTI_CBID_RESOURCE_GRAPH_CREATED; CUPTI_CBID_RESOURCE_GRAPH_CLONED;
    CUPTI_CBID_RESOURCE_GRAPHEXEC_CREATED;
    CUPTI_CBID_RESOURCE_GRAPHNODE_CREATED;
    CUPTI_CBID_RESOURCE_GRAPHNODE_CLONED ].

(** ** Activity path *)

(** The counting loop of [CountCuptiActivityEvent]. *)
Fixpoint count_records (records : list CUpti_Activity) (total_event_count : N)
  : N :=
  match records with
  | [] => total_event_count
  | _ :: rest => count_records rest (u64_add total_event_count 1)
  end.

(** [CountCuptiActivityEvent]. *)
Definition CountCuptiActivityEvent (cupti : CuptiInterface)
  (buffer : option N) (size : N) : N :=
  match buffer with
  | None => 0%N
  | Some p =>
      if (size =? 0)%N then 0%N
      else count_records (ActivityRecords cupti p size) 0%N
  end.

(** The [absl::Cleanup] of [ProcessActivityBuffer], run on every return:
    a buffer still held goes back to the pool. *)
Definition buffer_cleanup (buffer : option N) (t : CuptiTracer)
  : option CuptiTracer :=
  match buffer with
  | None => Some t
  | Some p =>
      match activity_buffers_ t with
      | None => None
      | Some m => Some (with_activity_buffers_ (Some (ReclaimBuffer p m)) t)
      end
  end.

(** [CuptiTracer::ProcessActivityBuffer]. *)
Definition ProcessActivityBuffer (cupti : CuptiInterface) (t : CuptiTracer)
  (context0 : CUcontext) (stream_id : N) (buffer : option N) (size : N)
  : option (Status * CuptiTracer) :=
  match buffer with
  | None => t' ← buffer_cleanup buffer t; Some (OkStatus, t')
  | Some p =>
      if (size =? 0)%N then
        t' ← buffer_cleanup buffer t; Some (OkStatus, t')
      else if negb (activity_tracing_enabled_ t) then
        t' ← buffer_cleanup buffer t; Some (OkStatus, t')
      else if Disabled cupti then
        t' ← buffer_cleanup buffer t; Some (InternalError "Disabled.", t')
      else
        let t1 :=
          match ActivityGetNumDroppedRecords cupti context0 stream_id with
          | Some dropped =>
              with_cupti_dropped_activity_event_count_
                (u64_add (cupti_dropped_activity_event_count_ t) dropped) t
          | None => t
          end in
        let event_count_in_buffer := CountCuptiActivityEvent cupti buffer size in
        match collector_ t1 with
        | None => None
        | Some opts =>
            let max_activity_event_count := max_activity_api_events opts in
            if (0 <? max_activity_event_count)%N
               && (max_activity_event_count
                   <=? num_activity_events_in_cached_buffer_ t1)%N
            then
              let t2 :=
                with_num_activity_events_in_dropped_buffer_
                  (u64_add (num_activity_events_in_dropped_buffer_ t1)
                     event_count_in_buffer) t1 in
              t' ← buffer_cleanup buffer t2; Some (OkStatus, t')
            else
              let t2 :=
                with_num_activity_events_in_cached_buffer_
                  (u64_add (num_activity_events_in_cached_buffer_ t1)
                     event_count_in_buffer) t1 in
              match activity_buffers_ t2 with
              | None => None
              | Some m =>
                  let t3 :=
                    with_activity_buffers_
                      (Some (CacheCuptiFilledActivityBuffer p size m)) t2 in
                  t' ← buffer_cleanup None t3; Some (OkStatus, t')
              end
        end
  end.

(** ** Life cycle *)

(** Modelled from the spec: [tsl::profiler::PerThread] (per_thread.h) is
    not part of the sources.  Per section 9 it is "a registry of all live
    thread-local instances": [StartRecording] and [StopRecording] both hand
    out every registered instance, and the stop variant "also permanently
    retires thread-local registrations", recorded in [recording]. *)
Record PerThreadRegistry := {
  recording : bool;
  instances : list CallbackAnnotationsAndEvents;
}.

(** [CuptiTracer::GatherCallbackAnnotationsAndEvents]: every registered
    collection is consumed, in registry order. *)
Definition GatherCallbackAnnotationsAndEvents (stop_recording : bool)
  (reg : PerThreadRegistry)
  : list CallbackAnnotationsAndEvents * PerThreadRegistry :=
  let guarded_collection := instances reg in
  (fst <$> (GuardedCallbackAnnotationsAndEvents.Consume <$> guarded_collection),
   {| recording := if stop_recording then false else true;
      instances :=
        snd <$> (GuardedCallbackAnnotationsAndEvents.Consume
                   <$> guarded_collection) |}).

(** [CuptiTracer::PrepareCallbackStart]. *)
Definition PrepareCallbackStart (t : CuptiTracer) (reg : PerThreadRegistry)
  : CuptiTracer * PerThreadRegistry :=
  (with_num_callback_events_ 0%N t,
   {| recording := true;
      instances := GuardedCallbackAnnotationsAndEvents.Clear <$> instances reg |}).

(** [CuptiTracer::PrepareActivityStart]; [kBufferSizeInBytes] is declared
    in cupti_tracer.h, which is not part of the sources. *)
Definition PrepareActivityStart (kBufferSizeInBytes : N) (t : CuptiTracer)
  : CuptiTracer :=
  with_num_activity_events_in_dropped_buffer_ 0%N
    (with_num_activity_events_in_cached_buffer_ 0%N
       (with_cupti_dropped_activity_event_count_ 0%N
          (with_activity_buffers_
             (Some {| buffer_size_in_bytes := kBufferSizeInBytes;
                      buffer_pool := []; cached_buffers := [] |}) t))).

(** Modelled from the spec: [IsCallbackApiEventsRequired] (cupti_tracer.h,
    not part of the sources) is the "callback-required toggle" of the
    options in force, false when there are none. *)
Definition IsCallbackApiEventsRequired (t : CuptiTracer) : bool :=
  match option_ t with
  | Some o => required_callback_api_events o
  | None => false
  end.

(** The result of a life-cycle step on the tracer alone. *)
Definition TracerResult : Type := Status * CuptiTracer * list Effect.

(** [CuptiTracer::EnableApiTracing]. *)
Definition EnableApiTracing (cupti : CuptiInterface) (t : CuptiTracer)
  (reg : PerThreadRegistry) : option (TracerResult * PerThreadRegistry) :=
  if api_tracing_enabled_ t then Some ((OkStatus, t, []), reg)
  else
    let '(t1, reg1) := PrepareCallbackStart t reg in
    let '(st1, es1) := cupti_calls cupti [Checked Subscribe] in
    if negb (ok st1) then Some ((st1, t1, es1), reg1)
    else
      let t2 := with_api_tracing_enabled_ true t1 in
      let '(st2, es2) :=
        cupti_calls cupti
          ((λ c, Checked (EnableResourceCallback true c))
             <$> GetCudaGraphTracingResourceCbids) in
      if negb (ok st2) then Some ((st2, t2, es1 ++ es2), reg1)
      else
        match option_ t2 with
        | None => None
        | Some o =>
            let steps :=
              match cbids_selected o with
              | [] => [Checked (EnableDomain true CUPTI_CB_DOMAIN_DRIVER_API)]
              | cbids => (λ c, Checked (EnableDriverCallback true c)) <$> cbids
              end in
            let '(st3, es3) := cupti_calls cupti steps in
            Some ((st3, t2, es1 ++ es2 ++ es3), reg1)
        end.

(** [CuptiTracer::DisableApiTracing]. *)
Definition DisableApiTracing (cupti : CuptiInterface) (t : CuptiTracer)
  : option TracerResult :=
  if negb (api_tracing_enabled_ t) then Some (OkStatus, t, [])
  else
    let t1 := with_api_tracing_enabled_ false t in
    let '(st1, es1) :=
      cupti_calls cupti
        ((λ c, Checked (EnableResourceCallback false c))
           <$> GetCudaGraphTracingResourceCbids) in
    if negb (ok st1) then Some (st1, t1, es1)
    else
      match option_ t1 with
      | None => None
      | Some o =>
          let steps :=
            match cbids_selected o with
            | [] => [Checked (EnableDomain false CUPTI_CB_DOMAIN_DRIVER_API)]
            | cbids => (λ c, Checked (EnableDriverCallback false c)) <$> cbids
            end in
          let '(st2, es2) := cupti_calls cupti steps in
          if negb (ok st2) then Some (st2, t1, es1 ++ es2)
          else
            let '(st3, es3) := cupti_calls cupti [Checked Unsubscribe] in
            Some (st3, t1, es1 ++ es2 ++ es3)
      end.

(** The vendor calls of one round of the enabling loop. *)
Definition enable_activity_steps (activity : CUpti_ActivityKind)
  : list VendorStep :=
  (if decide (activity = CUPTI_ACTIVITY_KIND_UNIFIED_MEMORY_COUNTER)
   then [Unchecked (ActivityConfigureUnifiedMemoryCounter true)] else [])
  ++ [Checked (ActivityEnable activity)].

(** The vendor calls of one round of the disabling loop; the concurrent
    kernel kind is skipped. *)
Definition disable_activity_steps (activity : CUpti_ActivityKind)
  : list VendorStep :=
  (if decide (activity = CUPTI_ACTIVITY_KIND_UNIFIED_MEMORY_COUNTER)
   then [Unchecked (ActivityConfigureUnifiedMemoryCounter false)] else [])
  ++ (if decide (activity = CUPTI_ACTIVITY_KIND_CONCURRENT_KERNEL)
      then [] else [Checked (ActivityDisable activity)]).

(** [CuptiTracer::EnableActivityTracing]. *)
Definition EnableActivityTracing (kBufferSizeInBytes : N)
  (cupti : CuptiInterface) (t : CuptiTracer) : option TracerResult :=
  if activity_tracing_enabled_ t then Some (OkStatus, t, [])
  else
    let t1 := PrepareActivityStart kBufferSizeInBytes t in
    match option_ t1 with
    | None => None
    | Some o =>
        let steps :=
          match activities_selected o with
          | [] => []
          | activities =>
              [Unchecked SetThreadIdType; Unchecked ActivityUsePerThreadBuffer;
               Checked ActivityRegisterCallbacks]
              ++ mjoin (enable_activity_steps <$> activities)
          end in
        let '(st, es) := cupti_calls cupti steps in
        if negb (ok st) then Some (st, t1, es)
        else Some (OkStatus, with_activity_tracing_enabled_ true t1, es)
    end.

(** [CuptiTracer::DisableActivityTracing]. *)
Definition DisableActivityTracing (cupti : CuptiInterface) (t : CuptiTracer)
  : option TracerResult :=
  if activity_tracing_enabled_ t then
    match option_ t with
    | None => None
    | Some o =>
        let '(st1, es1) :=
          cupti_calls cupti
            (mjoin (disable_activity_steps <$> activities_selected o)) in
        if negb (ok st1) then Some (st1, t, es1)
        else
          let t1 := with_option_ (Some (with_activities_selected [] o)) t in
          let '(st2, es2) :=
            cupti_calls cupti [Checked (ActivityFlushAll true)] in
          if negb (ok st2) then Some (st2, t1, es1 ++ es2)
          else
            Some (OkStatus, with_activity_tracing_enabled_ false t1, es1 ++ es2)
    end
  else Some (OkStatus, with_activity_tracing_enabled_ false t, []).

(** [CuptiTracer::Finalize]. *)
Definition Finalize (cupti : CuptiInterface) (t : CuptiTracer)
  : option TracerResult :=
  match option_ t with
  | None => None
  | Some o =>
      if cupti_finalize o then
        let '(st, es) := cupti_calls cupti [Checked CuptiFinalize] in
        Some (st, t, es)
      else Some (OkStatus, t, [])
  end.

(** What creating and starting the performance-counter sampler answer
    (cupti_pm_sampler_factory.h is not part of the sources). *)
Record PmSamplerFactory := {
  CreatePmSampler_status : Status;
  StartSampler_status : Status;
}.

Definition is_permission_denied (s : Status) : bool :=
  match s with PermissionDeniedError _ => true | _ => false end.

(** [CuptiTracer::Enable]. *)
Definition Enable (kBufferSizeInBytes : N) (cupti : CuptiInterface)
  (pm : PmSamplerFactory) (option0 : CuptiTracerOptions)
  (collector : CuptiTracerCollectorOptions)
  (t : CuptiTracer) (reg : PerThreadRegistry)
  : option (TracerResult * PerThreadRegistry) :=
  let option1 :=
    if enable_nvtx_tracking option0 then
      if decide (CUPTI_ACTIVITY_KIND_MARKER ∈ activities_selected option0)
      then option0
      else with_activities_selected
             (activities_selected option0 ++ [CUPTI_ACTIVITY_KIND_MARKER])
             option0
    else option0 in
  let t1 :=
    with_cupti_driver_api_hook_
      (Some {| hook_option_ := option1; contexts_ := ∅ |})
      (with_collector_ (Some collector) (with_option_ (Some option1) t)) in
  match EnableApiTracing cupti t1 reg with
  | None => None
  | Some ((status, t2, es2), reg2) =>
      let t3 :=
        with_need_root_access_
          (need_root_access_ t2 || is_permission_denied status) t2 in
      if negb (ok status) then Some ((status, t3, es2), reg2)
      else
        match EnableActivityTracing kBufferSizeInBytes cupti t3 with
        | None => None
        | Some (_, t4, es4) =>
            let es := es2 ++ es4 ++ [AnnotationStackEnable true] in
            if pm_sampler_enable option1 then
              if negb (ok (CreatePmSampler_status pm)) then
                Some ((CreatePmSampler_status pm, t4, es), reg2)
              else
                let t5 := with_pm_sampler_ true t4 in
                if negb (ok (StartSampler_status pm)) then
                  Some ((StartSampler_status pm, t5, es), reg2)
                else
                  Some ((status, with_pm_sampling_enabled_ true t5, es), reg2)
            else Some ((status, t4, es), reg2)
        end
  end.

(** The tail of [CuptiTracer::Disable], from the hand-over of the cached
    activity buffers on. *)
Definition Disable_deliver_activity (t : CuptiTracer)
  : CuptiTracer * list Effect :=
  let '(t1, es1) :=
    match activity_buffers_ t with
    | Some m =>
        let '(cached, _) := PopCachedBuffers m in
        (with_activity_buffers_ None t,
         [Collector (OnTracerCachedActivityBuffers cached)])
    | None => (t, [])
    end in
  let es2 :=
    if (0 <? cupti_dropped_activity_event_count_ t1)%N then
      [Collector (OnEventsDropped "Activity Event dropped by Cupti Lib:"
                    (cupti_dropped_activity_event_count_ t1))]
    else [] in
  let es3 :=
    if (0 <? num_activity_events_in_dropped_buffer_ t1)%N then
      [Collector (OnEventsDropped "Activity Event dropped in dropped buffer:"
                    (num_activity_events_in_dropped_buffer_ t1))]
    else [] in
  (with_cupti_driver_api_hook_ None
     (with_option_ None (with_collector_ None t1)),
   es1 ++ es2 ++ es3
   ++ [Collector CollectorFlush; AnnotationStackEnable false]).

(** [CuptiTracer::Disable].  The statuses of the disabling steps are
    ignored; a dereference of a null [pm_sampler_], [option_],
    [cupti_driver_api_hook_] or [collector_] has no result. *)
Definition Disable (cupti : CuptiInterface) (t : CuptiTracer)
  (reg : PerThreadRegistry)
  : option (CuptiTracer * PerThreadRegistry * list Effect) :=
  '(t1, es1) ←
    (if pm_sampling_enabled_ t then
       if pm_sampler_ t then
         Some (with_pm_sampling_enabled_ false t,
               [PmStopSampler; PmDeinitialize])
       else None
     else Some (t, []));
  '(_, t2, es2) ← DisableApiTracing cupti t1;
  '(_, t3, es3) ← DisableActivityTracing cupti t2;
  let es4 := [Vendor CleanUp] in
  '(_, t5, es5) ← Finalize cupti t3;
  h ← cupti_driver_api_hook_ t5;
  let es6 := CuptiDriverApiHookWithActivityApi.SyncAndFlush h in
  _ ← collector_ t5;
  let es7 := [Collector (SetTracingEndTimeNs (GetTimestamp cupti))] in
  let '(batches, reg') := GatherCallbackAnnotationsAndEvents true reg in
  let es8 :=
    [Collector (OnTracerCollectedCallbackData batches
                  (IsCallbackApiEventsRequired t5))] in
  let '(t9, es9) := Disable_deliver_activity t5 in
  Some (t9, reg',
        es1 ++ es2 ++ es3 ++ es4 ++ es5 ++ es6 ++ es7 ++ es8 ++ es9).

(** [CuptiTracer::FlushEventsToCollector]. *)
Definition FlushEventsToCollector (t : CuptiTracer) (reg : PerThreadRegistry)
  : option (Status * CuptiTracer * PerThreadRegistry * list Effect) :=
  if negb (api_tracing_enabled_ t) && negb (activity_tracing_enabled_ t) then
    Some (OkStatus, t, reg, [])
  else
    '(cached_buffers0, t1) ←
      (if activity_tracing_enabled_ t then
         m ← activity_buffers_ t;
         let '(cached, m') := PopCachedBuffers m in
         Some (cached, with_activity_buffers_ (Some m') t)
       else Some ([], t));
    '(reg1, es1) ←
      (if api_tracing_enabled_ t1 then
         _ ← collector_ t1;
         let '(batches, reg') := GatherCallbackAnnotationsAndEvents false reg in
         Some (reg',
               [Collector (OnTracerCollectedCallbackData batches
                             (IsCallbackApiEventsRequired t1))])
       else Some (reg, []));
    _ ← collector_ t1;
    Some (OkStatus, t1, reg1,
          es1 ++ [Collector (OnTracerCachedActivityBuffers cached_buffers0)]).

(** [CuptiTracer::HandleCallback], for the driver-API domain and the
    resource domain. *)
Definition HandleCallback (tracer : CuptiTracer)
  (cupti_interface : CuptiInterface) (domain : CUpti_CallbackDomain)
  (cbid0 : CUpti_CallbackId) (res_cbid : CUpti_ResourceCbid)
  (cbdata : CUpti_CallbackData) (graph_data : CUpti_GraphData)
  (th : ThreadLocal) : option CallbackResult :=
  if negb (api_tracing_enabled_ tracer) then Some (OkStatus, tracer, th)
  else
    match cupti_driver_api_hook_ tracer with
    | None => Some (OkStatus, tracer, th)
    | Some _ =>
        match domain with
        | CUPTI_CB_DOMAIN_DRIVER_API =>
            HandleDriverApiCallback tracer cupti_interface cbid0 cbdata th
        | CUPTI_CB_DOMAIN_RESOURCE =>
            Some (OkStatus, tracer,
                  with_graph_and_events
                    (HandleResourceCallback cupti_interface res_cbid graph_data
                       (per_thread_graph_info th))
                    (annotations_and_events_ th) th)
        | CUPTI_CB_DOMAIN_other => Some (OkStatus, tracer, th)
        end
    end.

(** [ApiCallback]: the status of the handler is ignored, and the traced
    application goes on. *)
Definition ApiCallback (tracer : CuptiTracer)
  (cupti_interface : CuptiInterface) (domain : CUpti_CallbackDomain)
  (cbid0 : CUpti_CallbackId) (res_cbid : CUpti_ResourceCbid)
  (cbdata : CUpti_CallbackData) (graph_data : CUpti_GraphData)
  (th : ThreadLocal) : option (CuptiTracer * ThreadLocal) :=
  '(_, tracer', th') ←
    HandleCallback tracer cupti_interface domain cbid0 res_cbid cbdata
      graph_data th;
  Some (tracer', th').

(** A tracer as constructed: nothing enabled, nothing attached. *)
Definition CuptiTracer_new (num_gpus : Z) : CuptiTracer := {|
  num_gpus_ := num_gpus;
  api_tracing_enabled_ := false;
  activity_tracing_enabled_ := false;
  pm_sampling_enabled_ := false;
  need_root_access_ := false;
  collector_ := None;
  option_ := None;
  cupti_driver_api_hook_ := None;
  activity_buffers_ := None;
  pm_sampler_ := false;
  num_callback_events_ := 0;
  cupti_dropped_activity_event_count_ := 0;
  num_activity_events_in_cached_buffer_ := 0;
  num_activity_events_in_dropped_buffer_ := 0;
|}.

(** ** Runs and observations used in the statements *)

(** A sequence of [Push] calls on one thread's collection. *)
Definition push_all (tracer : CuptiTracer) (events : list CuptiTracerEvent)
  (c : CallbackAnnotationsAndEvents) : CallbackAnnotationsAndEvents :=
  foldl (λ c e, GuardedCallbackAnnotationsAndEvents.Push tracer e c) c events.

(** An event with its annotation and nvtx-range fields emptied. *)
Definition strip_annotations (e : CuptiTracerEvent) : CuptiTracerEvent :=
  with_annotations "" "" e.

(** [stored] is [pushed], whole or with the two annotation fields
    emptied. *)
Definition stored_as (pushed stored : CuptiTracerEvent) : Prop :=
  stored = pushed ∨ stored = strip_annotations pushed.

(** The arguments of one driver-API callback exit. *)
Record ExitCall := {
  ec_device_id : N;
  ec_start_tsc : N;
  ec_end_tsc : N;
  ec_cbid : CUpti_CallbackId;
  ec_cbdata : CUpti_CallbackData;
}.

Definition add_exit (cupti : CuptiInterface) (tracer : CuptiTracer)
  (th : ThreadLocal) (call : ExitCall) : option CallbackResult :=
  AddDriverApiCallbackEvent tracer cupti (ec_device_id call)
    (ec_start_tsc call) (ec_end_tsc call) (ec_cbid call) (ec_cbdata call) th.

(** A sequence of callback exits on one thread, each handed to
    [AddDriverApiCallbackEvent]. *)
Fixpoint run_exits (cupti : CuptiInterface) (tracer : CuptiTracer)
  (th : ThreadLocal) (calls : list ExitCall)
  : option (CuptiTracer * ThreadLocal) :=
  match calls with
  | [] => Some (tracer, th)
  | call :: rest =>
      '(_, tracer', th') ← add_exit cupti tracer th call;
      run_exits cupti tracer' th' rest
  end.

(** The calls on the collector among the effects of an operation. *)
Definition collector_calls (es : list Effect) : list CollectorCall :=
  omap (λ e, match e with Collector c => Some c | _ => None end) es.

Definition is_callback_data (c : CollectorCall) : bool :=
  match c with OnTracerCollectedCallbackData _ _ => true | _ => false end.



(** Which part of the tracer an effect belongs to: the sampler, the
    callback subscription, the activity capture, the collector, or none of
    these. *)
Inductive EffectKind :=
| PmSamplingEffect | ApiTracingEffect | ActivityTracingEffect
| CollectorEffect | OtherEffect.

#[global] Instance EffectKind_eq_dec : EqDecision EffectKind.
Proof. solve_decision. Defined.

Definition call_kind (c : CuptiCall) : EffectKind :=
  match c with
  | Subscribe | Unsubscribe | EnableResourceCallback _ _
  | EnableDriverCallback _ _ | EnableDomain _ _ => ApiTracingEffect
  | SetThreadIdType | ActivityUsePerThreadBuffer | ActivityRegisterCallbacks
  | ActivityEnable _ | ActivityDisable _ | ActivityFlushAll _
  | ActivityConfigureUnifiedMemoryCounter _ => ActivityTracingEffect
  | CuptiFinalize | CleanUp => OtherEffect
  end.

Definition effect_kind (e : Effect) : EffectKind :=
  match e with
  | PmStopSampler | PmDeinitialize => PmSamplingEffect
  | Vendor c => call_kind c
  | Collector _ => CollectorEffect
  | ContextSynchronize _ | AnnotationStackEnable _ => OtherEffect
  end.

Definition step_call (s : VendorStep) : CuptiCall :=
  match s with Checked c | Unchecked c => c end.

(** The identifiers of the single-node-addition family, cuGraphAdd and so on. *)
Definition is_cuGraphAdd (c : CUpti_CallbackId) : bool :=
  match c with
  | cuGraphAddKernelNode | cuGraphAddKernelNode_v2 | cuGraphAddMemcpyNode
  | cuGraphAddMemsetNode | cuGraphAddChildGraphNode | cuGraphAddEmptyNode
  | cuGraphAddHostNode | cuGraphAddNode | cuGraphAddNode_v2
  | cuGraphAddEventRecordNode | cuGraphAddEventWaitNode
  | cuGraphAddExternalSemaphoresSignalNode
  | cuGraphAddExternalSemaphoresWaitNode
  | cuGraphAddMemAllocNode | cuGraphAddMemFreeNode
  | cuGraphAddBatchMemOpNode => true
  | _ => false
  end.

(** A node-map event as the loop entered at [start_time] leaves it in
    the buffer: its kind and its window. *)
Definition node_map_stored (start_time : N) (e : CuptiTracerEvent) : Prop :=
  type e = CuptiTracerEventType.CudaGraphNodeMap
  ∧ start_time_ns e = start_time
  ∧ end_time_ns e = u64_add start_time kTimeIncrementNs.

(** The start times of the node-map events among a list of events. *)
Definition node_map_start_times (events : list CuptiTracerEvent) : list N :=
  start_time_ns <$>
    filter (λ e, type e = CuptiTracerEventType.CudaGraphNodeMap) events.

(** Strictly increasing, one apart. *)
Fixpoint consecutive_from (start : N) (l : list N) : Prop :=
  match l with
  | [] => True
  | x :: rest => x = start ∧ consecutive_from (start + 1) rest
  end.

(** ** Concrete values for the examples *)

Module Ex.

(** A vendor interface on which every call succeeds. *)
Definition cupti : CuptiInterface := {|
  call_result := λ _, CUPTI_SUCCESS;
  GetResultString := λ r,
    match r with CUPTI_ERROR_other s => s | _ => "" end;
  GetTimestamp_result := Some 1000%N;
  GetDeviceId := λ _, (CUPTI_SUCCESS, 0%N);
  GetGraphId := λ g, Some g;
  GetGraphExecId := λ g, Some g;
  GetGraphNodeId := λ n, Some n;
  Disabled := false;
  ActivityGetNumDroppedRecords := λ _ _, Some 0%N;
  ActivityRecords := λ _ _, [1%N; 2%N; 3%N];
|}.

(** The same, except that another tool already holds the subscription. *)
Definition cupti_no_subscribe : CuptiInterface := {|
  call_result := λ c,
    match c with
    | Subscribe => CUPTI_ERROR_other "CUPTI_ERROR_MAX_LIMIT_REACHED"
    | _ => CUPTI_SUCCESS
    end;
  GetResultString := GetResultString cupti;
  GetTimestamp_result := GetTimestamp_result cupti;
  GetDeviceId := GetDeviceId cupti;
  GetGraphId := GetGraphId cupti;
  GetGraphExecId := GetGraphExecId cupti;
  GetGraphNodeId := GetGraphNodeId cupti;
  Disabled := Disabled cupti;
  ActivityGetNumDroppedRecords := ActivityGetNumDroppedRecords cupti;
  ActivityRecords := ActivityRecords cupti;
|}.

(** A vendor interface that refuses the activity callbacks. *)
Definition cupti_no_activity : CuptiInterface := {|
  call_result := λ c,
    match c with
    | ActivityRegisterCallbacks => CUPTI_ERROR_other "CUPTI_ERROR_UNKNOWN"
    | _ => CUPTI_SUCCESS
    end;
  GetResultString := GetResultString cupti;
  GetTimestamp_result := GetTimestamp_result cupti;
  GetDeviceId := GetDeviceId cupti;
  GetGraphId := GetGraphId cupti;
  GetGraphExecId := GetGraphExecId cupti;
  GetGraphNodeId := GetGraphNodeId cupti;
  Disabled := Disabled cupti;
  ActivityGetNumDroppedRecords := ActivityGetNumDroppedRecords cupti;
  ActivityRecords := ActivityRecords cupti;
|}.

Definition pm : PmSamplerFactory :=
  {| CreatePmSampler_status := OkStatus; StartSampler_status := OkStatus |}.

Definition options : CuptiTracerOptions := {|
  required_callback_api_events := true;
  cbids_selected := [];
  activities_selected := [CUPTI_ACTIVITY_KIND_other 3];
  cupti_finalize := false;
  sync_devices_before_stop := false;
  enable_nvtx_tracking := false;
  pm_sampler_enable := false;
|}.

(** Collector options with the three ceilings given. *)
Definition collector (events activity strings : N)
  : CuptiTracerCollectorOptions := {|
  max_callback_api_events := events;
  max_activity_api_events := activity;
  max_annotation_strings := strings;
|}.

Definition registry : PerThreadRegistry :=
  {| recording := false; instances := [CallbackAnnotationsAndEvents_empty] |}.

(** A tracer on a one-GPU host with a collector attached and nothing
    enabled, as [Enable] leaves it before its first vendor call. *)
Definition attached (c : CuptiTracerCollectorOptions) : CuptiTracer :=
  with_cupti_driver_api_hook_
    (Some {| hook_option_ := options; contexts_ := ∅ |})
    (with_collector_ (Some c) (with_option_ (Some options) (CuptiTracer_new 1))).

(** A freshly made buffer manager, [kBufferSizeInBytes] being 1024. *)
Definition manager : CuptiActivityBufferManager :=
  {| buffer_size_in_bytes := 1024; buffer_pool := []; cached_buffers := [] |}.

(** The tracer after a successful [Enable]: API and activity tracing on,
    [cached] activity events cached so far. *)
Definition active (c : CuptiTracerCollectorOptions) (cached : N) : CuptiTracer :=
  with_num_activity_events_in_cached_buffer_ cached
    (with_activity_tracing_enabled_ true
       (with_activity_buffers_ (Some manager)
          (with_api_tracing_enabled_ true (attached c)))).

Definition no_memory : MemoryDetails := {|
  mem_type := CuptiTracerEventType.Unsupported;
  mem_named := false; mem_source_device := None;
  mem_address := 0; mem_num_bytes := 0; mem_destination := 0;
  mem_flags := 0; mem_async := false;
|}.

(** The callback data of an exit from the driver function [fn]. *)
Definition cbdata (fn : string) (ctx : option CUcontext) : CUpti_CallbackData := {|
  callbackSite := CUPTI_API_EXIT;
  functionName := fn;
  symbolName := None;
  context := ctx;
  contextUid := 1;
  correlationId := 42;
  hGraph := 0%N;
  memory_params := no_memory;
|}.

(** A thread that has seen no callback yet. *)
Definition thread : ThreadLocal := {|
  internalCuCall := 0;
  per_thread_graph_info := GraphResourceCreationInfo_zero;
  annotations_and_events_ := CallbackAnnotationsAndEvents_empty;
  current_thread_id := 5;
  AnnotationStack_Get := "step";
  AnnotationStack_GetScopeRangeIds := [];
  correlationData_cell := 100;
|}.


(** Two events that differ in their annotation. *)
Definition ev_a : CuptiTracerEvent :=
  with_annotations "a" "" CuptiTracerEvent_zero.
Definition ev_b : CuptiTracerEvent :=
  with_annotations "b" "" CuptiTracerEvent_zero.

(** A graph state with two node mappings pending. *)
Definition two_nodes : GraphResourceCreationInfo :=
  {| gi_graph_id := 7; gi_orig_graph_id := 3;
     node_id_map := <[1%N := 11%N]> (<[2%N := 12%N]> ∅) |}.

(** A thread with those two mappings pending. *)
Definition thread_two_nodes : ThreadLocal :=
  with_graph_and_events two_nodes CallbackAnnotationsAndEvents_empty thread.

Definition exit_call (c : CUpti_CallbackId) (fn : string) : ExitCall := {|
  ec_device_id := 0; ec_start_tsc := 100; ec_end_tsc := 200;
  ec_cbid := c; ec_cbdata := cbdata fn (Some 1%N);
|}.

End Ex.

(** ** Further parts of the tracer *)

(** *** Decoding memory operations *)

(** [a * b] on [size_t]. *)
Definition u64_mul (a b : N) : N := ((a * b) mod u64_modulus)%N.

Inductive CUmemorytype :=
| CU_MEMORYTYPE_HOST | CU_MEMORYTYPE_DEVICE
| CU_MEMORYTYPE_ARRAY | CU_MEMORYTYPE_UNIFIED.

#[global] Instance CUmemorytype_eq_dec : EqDecision CUmemorytype.
Proof. solve_decision. Defined.

(** The members of [CUDA_MEMCPY2D] / [CUDA_MEMCPY3D] the decoders read;
    [Depth] belongs to the 3D descriptor only. *)
Record CUDA_MEMCPY := {
  srcMemoryType : CUmemorytype;
  dstMemoryType : CUmemorytype;
  WidthInBytes : N;
  Height : N;
  Depth : N;
}.

(** [Bytes2D]. *)
Definition Bytes2D (p : CUDA_MEMCPY) : N := u64_mul (Height p) (WidthInBytes p).

(** [Bytes3D]. *)
Definition Bytes3D (p : CUDA_MEMCPY) : N :=
  u64_mul (u64_mul (Depth p) (Height p)) (WidthInBytes p).

(** [MemcpyKind]. *)
Definition MemcpyKind (p : CUDA_MEMCPY) : CuptiTracerEventType.t :=
  if decide (srcMemoryType p = CU_MEMORYTYPE_HOST
             ∧ dstMemoryType p = CU_MEMORYTYPE_DEVICE)
  then CuptiTracerEventType.MemcpyH2D
  else if decide (srcMemoryType p = CU_MEMORYTYPE_DEVICE
                  ∧ dstMemoryType p = CU_MEMORYTYPE_HOST)
  then CuptiTracerEventType.MemcpyD2H
  else if decide (srcMemoryType p = CU_MEMORYTYPE_DEVICE
                  ∧ dstMemoryType p = CU_MEMORYTYPE_DEVICE)
  then CuptiTracerEventType.MemcpyD2D
  else CuptiTracerEventType.Unsupported.

(** The identifiers of the memory arms of [SetCallbackEventUponApiExit],
    by name (in [CUpti_CallbackId] they are the [cbid_memory] ones). *)
Inductive DriverMemoryCbid :=
| cuMemcpy | cuMemcpyAsync
| cuMemcpyHtoD_v2 | cuMemcpyHtoDAsync_v2
| cuMemcpyDtoH_v2 | cuMemcpyDtoHAsync_v2
| cuMemcpyDtoD_v2 | cuMemcpyDtoDAsync_v2
| cuMemcpyAtoH_v2 | cuMemcpyAtoHAsync_v2 | cuMemcpyAtoD_v2
| cuMemcpyDtoA_v2 | cuMemcpyAtoA_v2
| cuMemcpy2D_v2 | cuMemcpy2DUnaligned_v2 | cuMemcpy2DAsync_v2
| cuMemcpy3D_v2 | cuMemcpy3DAsync_v2
| cuMemcpyHtoA_v2 | cuMemcpyHtoAAsync_v2
| cuMemcpyPeer | cuMemcpyPeerAsync
| cuMemAlloc_v2 | cuMemAllocPitch_v2 | cuMemAllocManaged
| cuMemAllocHost_v2 | cuMemHostAlloc
| cuMemFree_v2 | cuMemFreeHost
| cuMemHostRegister_v2 | cuMemHostUnregister
| cuMemsetD8_v2 | cuMemsetD16_v2 | cuMemsetD32_v2
| cuMemsetD2D8_v2 | cuMemsetD2D16_v2 | cuMemsetD2D32_v2
| cuMemsetD8Async | cuMemsetD16Async | cuMemsetD32Async
| cuMemsetD2D8Async | cuMemsetD2D16Async | cuMemsetD2D32Async.

#[global] Instance DriverMemoryCbid_eq_dec : EqDecision DriverMemoryCbid.
Proof. solve_decision. Defined.

(** The members of the vendor parameter blocks the memory setters read.
    [functionParams] is an untyped pointer that each setter casts to the
    block of its identifier; the record has the members of all of them, the
    memset ones with a prefix where a copy descriptor has the same name. *)
Record DriverMemoryParams := {
  ByteCount : N;
  pCopy : CUDA_MEMCPY;
  srcContext : CUcontext;
  dstContext : CUcontext;
  memset_N : N;
  memset_dstPitch : N;
  memset_Height : N;
  (** [*params->dptr], [params->dptr], [params->p] or [*params->pp] *)
  address : N;
  bytesize : N;
  (** [*params->pPitch] and [params->Height] of cuMemAllocPitch *)
  pPitch : N;
  alloc_Height : N;
  Flags : N;
}.

(** [DecodeDriverMemcpy]: bytes, kind, async. *)
Definition DecodeDriverMemcpy (c : DriverMemoryCbid) (params : DriverMemoryParams)
  : N * CuptiTracerEventType.t * bool :=
  match c with
  | cuMemcpyHtoD_v2 =>
      (ByteCount params, CuptiTracerEventType.MemcpyH2D, false)
  | cuMemcpyHtoDAsync_v2 =>
      (ByteCount params, CuptiTracerEventType.MemcpyH2D, true)
  | cuMemcpyDtoH_v2 =>
      (ByteCount params, CuptiTracerEventType.MemcpyD2H, false)
  | cuMemcpyDtoHAsync_v2 =>
      (ByteCount params, CuptiTracerEventType.MemcpyD2H, true)
  | cuMemcpyDtoD_v2 =>
      (ByteCount params, CuptiTracerEventType.MemcpyD2D, false)
  | cuMemcpyDtoDAsync_v2 =>
      (ByteCount params, CuptiTracerEventType.MemcpyD2D, true)
  | cuMemcpy =>
      (ByteCount params, CuptiTracerEventType.MemcpyOther, false)
  | cuMemcpyAsync =>
      (ByteCount params, CuptiTracerEventType.MemcpyOther, true)
  | cuMemcpy2D_v2 =>
      (Bytes2D (pCopy params), MemcpyKind (pCopy params), false)
  | cuMemcpy2DAsync_v2 =>
      (Bytes2D (pCopy params), MemcpyKind (pCopy params), true)
  | cuMemcpy3D_v2 =>
      (Bytes3D (pCopy params), MemcpyKind (pCopy params), true)
  | cuMemcpy3DAsync_v2 =>
      (Bytes3D (pCopy params), MemcpyKind (pCopy params), true)
  | cuMemcpyPeer =>
      (ByteCount params, CuptiTracerEventType.MemcpyP2P, false)
  | cuMemcpyPeerAsync =>
      (ByteCount params, CuptiTracerEventType.MemcpyP2P, true)
  | _ => (0%N, CuptiTracerEventType.Unsupported, false)
  end.

(** [DecodeDriverMemset]: bytes, kind, async. *)
Definition DecodeDriverMemset (c : DriverMemoryCbid) (params : DriverMemoryParams)
  : N * CuptiTracerEventType.t * bool :=
  match c with
  | cuMemsetD8_v2 | cuMemsetD16_v2 | cuMemsetD32_v2 =>
      (memset_N params, CuptiTracerEventType.Memset, false)
  | cuMemsetD2D8_v2 | cuMemsetD2D16_v2 | cuMemsetD2D32_v2 =>
      (u64_mul (memset_dstPitch params) (memset_Height params),
       CuptiTracerEventType.Memset, false)
  | cuMemsetD8Async | cuMemsetD16Async | cuMemsetD32Async =>
      (memset_N params, CuptiTracerEventType.Memset, true)
  | cuMemsetD2D8Async | cuMemsetD2D16Async | cuMemsetD2D32Async =>
      (u64_mul (memset_dstPitch params) (memset_Height params),
       CuptiTracerEventType.Memset, true)
  | _ => (0%N, CuptiTracerEventType.Unsupported, false)
  end.

(** The arm of [SetCallbackEventUponApiExit] a memory identifier is
    routed to. *)
Inductive MemoryArm :=
| NormalMemcpyArm | P2PMemcpyArm | MemAllocArm | MemAllocPitchArm
| MemAllocManagedArm | MemAllocHostArm | MemHostAllocArm | MemFreeArm
| MemFreeHostArm | MemHostRegisterArm | MemHostUnregisterArm | MemsetArm.

Definition memory_arm (c : DriverMemoryCbid) : MemoryArm :=
  match c with
  | cuMemcpy | cuMemcpyAsync | cuMemcpyHtoD_v2 | cuMemcpyHtoDAsync_v2
  | cuMemcpyDtoH_v2 | cuMemcpyDtoHAsync_v2 | cuMemcpyDtoD_v2
  | cuMemcpyDtoDAsync_v2 | cuMemcpyAtoH_v2 | cuMemcpyAtoHAsync_v2
  | cuMemcpyAtoD_v2 | cuMemcpyDtoA_v2 | cuMemcpyAtoA_v2 | cuMemcpy2D_v2
  | cuMemcpy2DUnaligned_v2 | cuMemcpy2DAsync_v2 | cuMemcpy3D_v2
  | cuMemcpy3DAsync_v2 | cuMemcpyHtoA_v2 | cuMemcpyHtoAAsync_v2 =>
      NormalMemcpyArm
  | cuMemcpyPeer | cuMemcpyPeerAsync => P2PMemcpyArm
  | cuMemAlloc_v2 => MemAllocArm
  | cuMemAllocPitch_v2 => MemAllocPitchArm
  | cuMemAllocManaged => MemAllocManagedArm
  | cuMemAllocHost_v2 => MemAllocHostArm
  | cuMemHostAlloc => MemHostAllocArm
  | cuMemFree_v2 => MemFreeArm
  | cuMemFreeHost => MemFreeHostArm
  | cuMemHostRegister_v2 => MemHostRegisterArm
  | cuMemHostUnregister => MemHostUnregisterArm
  | cuMemsetD8_v2 | cuMemsetD16_v2 | cuMemsetD32_v2 | cuMemsetD2D8_v2
  | cuMemsetD2D16_v2 | cuMemsetD2D32_v2 | cuMemsetD8Async | cuMemsetD16Async
  | cuMemsetD32Async | cuMemsetD2D8Async | cuMemsetD2D16Async
  | cuMemsetD2D32Async => MemsetArm
  end.

Section memory_setters.
Variable cupti_interface : CuptiInterface.
Variable device_id0 : N.
Variable cbid0 : DriverMemoryCbid.
Variable cbdata : CUpti_CallbackData.
Variable params : DriverMemoryParams.
Variables start_time end_time : N.
Variable tid : N.

(** The fields every memory setter assigns, with the kind, the name
    (assigned or left alone), the device and the kind-specific payload
    given.  The payload is written into a value-initialised event, so the
    members a setter does not assign are zero. *)
Definition memory_event (event : CuptiTracerEvent)
  (ty : CuptiTracerEventType.t) (named : bool) (device : N)
  (addr num_bytes destination flags : N) (async : bool) : CuptiTracerEvent := {|
  type := ty;
  source := CuptiTracerEventSource.DriverCallback;
  name := if named then functionName cbdata else name event;
  annotation := annotation event; nvtx_range := nvtx_range event;
  start_time_ns := start_time; end_time_ns := end_time;
  device_id := device;
  correlation_id := correlationId cbdata;
  thread_id := tid;
  context_id := contextUid cbdata;
  graph_id := graph_id event; graph_node_id := graph_node_id event;
  scope_range_id := scope_range_id event;
  cuda_graph_info := cuda_graph_info event;
  generic_info_cbid := generic_info_cbid event;
  memory_info :=
    Some {| mem_type := ty; mem_named := named;
            mem_source_device := Some device;
            mem_address := addr; mem_num_bytes := num_bytes;
            mem_destination := destination; mem_flags := flags;
            mem_async := async |};
|}.

(** [PopulateMemcpyCallbackEvent]: the name is not assigned. *)
Definition PopulateMemcpyCallbackEvent (event : CuptiTracerEvent)
  (ty : CuptiTracerEventType.t) (num_bytes src_device dst_device : N)
  (async : bool) : CuptiTracerEvent :=
  memory_event event ty false src_device 0 num_bytes dst_device 0 async.

(** [SetNormalMemcpyEventUponApiExit]. *)
Definition SetNormalMemcpyEventUponApiExit (event : CuptiTracerEvent)
  : CuptiTracerEvent :=
  let '(num_bytes, ty, async) := DecodeDriverMemcpy cbid0 params in
  PopulateMemcpyCallbackEvent event ty num_bytes device_id0 device_id0 async.

(** [uint32_t x = -1]. *)
Definition u32_minus_one : N := (u32_modulus - 1)%N.

(** What [GetDeviceId(ctx, &device)] leaves in [device], which starts
    at -1: the vendor's answer on success, -1 otherwise. *)
Definition resolve_device (ctx : CUcontext) : N :=
  match GetDeviceId cupti_interface ctx with
  | (CUPTI_SUCCESS, d) => d
  | _ => u32_minus_one
  end.

(** [SetP2PMemcpyEventUponApiExit]. *)
Definition SetP2PMemcpyEventUponApiExit (event : CuptiTracerEvent)
  : CuptiTracerEvent :=
  let '(num_bytes, ty, async) := DecodeDriverMemcpy cbid0 params in
  let src_device := resolve_device (srcContext params) in
  let dst_device := resolve_device (dstContext params) in
  PopulateMemcpyCallbackEvent event ty num_bytes src_device dst_device async.

(** [SetCuMemsetEventUponApiExit]: the name is not assigned. *)
Definition SetCuMemsetEventUponApiExit (event : CuptiTracerEvent)
  : CuptiTracerEvent :=
  let '(num_bytes, ty, async) := DecodeDriverMemset cbid0 params in
  memory_event event ty false device_id0 0 num_bytes 0 0 async.

(** [SetCuMemAllocEventUponApiExit], and the managed, host and
    host-alloc variants, which store the same members. *)
Definition SetCuMemAllocEventUponApiExit (event : CuptiTracerEvent)
  : CuptiTracerEvent :=
  memory_event event CuptiTracerEventType.MemoryAlloc true device_id0
    (address params) (bytesize params) 0 0 false.

(** [SetCuMemAllocPitchEventUponApiExit]. *)
Definition SetCuMemAllocPitchEventUponApiExit (event : CuptiTracerEvent)
  : CuptiTracerEvent :=
  memory_event event CuptiTracerEventType.MemoryAlloc true device_id0
    (address params) (u64_mul (pPitch params) (alloc_Height params)) 0 0 false.

(** [SetCuMemFreeEventUponApiExit] and [SetCuMemFreeHostEventUponApiExit]. *)
Definition SetCuMemFreeEventUponApiExit (event : CuptiTracerEvent)
  : CuptiTracerEvent :=
  memory_event event CuptiTracerEventType.MemoryFree true device_id0
    (address params) 0 0 0 false.

(** [SetCuMemHostRegisterEventUponApiExit]. *)
Definition SetCuMemHostRegisterEventUponApiExit (event : CuptiTracerEvent)
  : CuptiTracerEvent :=
  memory_event event CuptiTracerEventType.HostRegister true device_id0
    (address params) (bytesize params) 0 (Flags params) false.

(** [SetCuMemHostUnregisterEventUponApiExit]. *)
Definition SetCuMemHostUnregisterEventUponApiExit (event : CuptiTracerEvent)
  : CuptiTracerEvent :=
  memory_event event CuptiTracerEventType.HostUnregister true device_id0
    (address params) 0 0 0 false.

(** The memory arms of the switch of [SetCallbackEventUponApiExit]. *)
Definition SetMemoryCallbackEventUponApiExit (event : CuptiTracerEvent)
  : CuptiTracerEvent :=
  match memory_arm cbid0 with
  | NormalMemcpyArm => SetNormalMemcpyEventUponApiExit event
  | P2PMemcpyArm => SetP2PMemcpyEventUponApiExit event
  | MemAllocArm | MemAllocManagedArm | MemAllocHostArm | MemHostAllocArm =>
      SetCuMemAllocEventUponApiExit event
  | MemAllocPitchArm => SetCuMemAllocPitchEventUponApiExit event
  | MemFreeArm | MemFreeHostArm => SetCuMemFreeEventUponApiExit event
  | MemHostRegisterArm => SetCuMemHostRegisterEventUponApiExit event
  | MemHostUnregisterArm => SetCuMemHostUnregisterEventUponApiExit event
  | MemsetArm => SetCuMemsetEventUponApiExit event
  end.

End memory_setters.

(** *** Availability and diagnostics *)

(** [CuptiTracer::NumGpus]: the count the driver reports, 0 when
    [cuInit] or [cuDeviceGetCount] fails ([None]). *)
Definition NumGpus (cuInit_ok : bool) (cuDeviceGetCount : option Z) : Z :=
  if negb cuInit_ok then 0%Z
  else match cuDeviceGetCount with
       | None => 0%Z
       | Some gpu_count => gpu_count
       end.

(** [CuptiTracer::IsAvailable]; [num_gpus] is what [NumGpus()] returns. *)
Definition IsAvailable (num_gpus : Z) (t : CuptiTracer) : bool :=
  negb (num_gpus =? 0)%Z
  && negb (activity_tracing_enabled_ t)
  && negb (api_tracing_enabled_ t)
  && negb (pm_sampling_enabled_ t).

(** [ErrorWithHostname]; [hostname] is what [tsl::port::Hostname()]
    returns. *)
Definition ErrorWithHostname (hostname error_message : string) : string :=
  String.append hostname (String.append ": " error_message).

(** [CuptiTracer::ErrorIfAny]; [singleton] is the tracer singleton, whose
    [NeedRootAccess()] reads [need_root_access_]. *)
Definition ErrorIfAny (hostname : string) (num_gpus : Z)
  (singleton : CuptiTracer) (cupti : CuptiInterface) : string :=
  if (num_gpus =? 0)%Z then ErrorWithHostname hostname "No GPU detected."
  else if need_root_access_ singleton then
    ErrorWithHostname hostname
      "Insufficient privilege to run libcupti (you need root permission)."
  else if (GetTimestamp cupti =? 0)%N then
    ErrorWithHostname hostname
      "Failed to load libcupti (is it installed and accessible?)"
  else "".

(** *** Lending out activity buffers *)

(** Modelled from the spec: [GetOrCreateBuffer] of the buffer manager
    (cupti_buffer_events.h, not part of the sources) "returns a pointer to
    a fixed-size buffer from a pool, allocating a new one if the pool is
    exhausted"; [fresh] is what the allocation yields, [None] when it
    fails. *)
Definition GetOrCreateBuffer (fresh : option N) (m : CuptiActivityBufferManager)
  : option N * CuptiActivityBufferManager :=
  match buffer_pool m with
  | p :: rest =>
      (Some p, {| buffer_size_in_bytes := buffer_size_in_bytes m;
                  buffer_pool := rest;
                  cached_buffers := cached_buffers m |})
  | [] => (fresh, m)
  end.

(** [CuptiTracer::RequestActivityBuffer]: the buffer and the size handed
    to the vendor, and the tracer afterwards. *)
Definition RequestActivityBuffer (fresh : option N) (t : CuptiTracer)
  : option N * N * CuptiTracer :=
  match activity_buffers_ t with
  | None => (None, 0%N, t)
  | Some m =>
      let '(buffer, m') := GetOrCreateBuffer fresh m in
      let t' := with_activity_buffers_ (Some m') t in
      match buffer with
      | None => (None, 0%N, t')
      | Some p => (Some p, buffer_size_in_bytes m', t')
      end
  end.

(** *** Observations used in the further statements *)

(** The fields every event made for a callback exit carries: where it
    comes from, the callback's correlation id and context uid, the calling
    thread, the innermost scope-range id, and no nvtx range. *)
Definition from_callback (cbdata : CUpti_CallbackData) (th : ThreadLocal)
  (e : CuptiTracerEvent) : Prop :=
  source e = CuptiTracerEventSource.DriverCallback
  ∧ correlation_id e = correlationId cbdata
  ∧ context_id e = contextUid cbdata
  ∧ thread_id e = current_thread_id th
  ∧ scope_range_id e
    = default 0%Z (last (AnnotationStack_GetScopeRangeIds th))
  ∧ nvtx_range e = ""
  ∧ (annotation e = AnnotationStack_Get th ∨ annotation e = "").

(** The same callback data at the other callback site. *)
Definition at_site (site : CUpti_ApiCallbackSite) (cbdata : CUpti_CallbackData)
  : CUpti_CallbackData := {|
  callbackSite := site;
  functionName := functionName cbdata;
  symbolName := symbolName cbdata;
  context := context cbdata;
  contextUid := contextUid cbdata;
  correlationId := correlationId cbdata;
  hGraph := hGraph cbdata;
  memory_params := memory_params cbdata;
|}.

(** The kernel-launch identifiers. *)
Definition is_kernel_launch (c : CUpti_CallbackId) : bool :=
  match c with
  | cuLaunchKernel | cuLaunchKernelEx
  | cuLaunchCooperativeKernel | cuLaunchCooperativeKernelMultiDevice => true
  | _ => false
  end.

(** The graph identifiers handled by [SetCudaGraphEventUponApiExit]
    that do not synthesise node-map events. *)
Definition is_plain_graph_exit (c : CUpti_CallbackId) : bool :=
  match c with
  | cuGraphCreate | cuGraphInstantiate | cuGraphLaunch | cuGraphLaunch_ptsz
  | cuGraphInstantiate_v2 | cuGraphInstantiateWithParams
  | cuGraphInstantiateWithParams_ptsz => true
  | _ => false
  end.

(** A thread's state with another graph correlation state. *)
Definition with_graph_info (g : GraphResourceCreationInfo) (th : ThreadLocal)
  : ThreadLocal :=
  with_graph_and_events g (annotations_and_events_ th) th.

(** A vendor interface on which every status-returning call succeeds. *)
Definition all_calls_succeed (cupti : CuptiInterface) : Prop :=
  ∀ c, call_result cupti c = CUPTI_SUCCESS.


(** The event [AddDriverApiCallbackEvent] starts from: value-initialised,
    then the correlation id, the current annotation, an empty nvtx range and
    the innermost scope-range id. *)
Definition exit_event0 (cbdata : CUpti_CallbackData) (th : ThreadLocal)
  : CuptiTracerEvent := {|
  type := type CuptiTracerEvent_zero;
  source := source CuptiTracerEvent_zero;
  name := name CuptiTracerEvent_zero;
  annotation := AnnotationStack_Get th; nvtx_range := "";
  start_time_ns := 0; end_time_ns := 0; device_id := 0;
  correlation_id := correlationId cbdata;
  thread_id := 0; context_id := 0; graph_id := 0; graph_node_id := 0;
  scope_range_id := default 0%Z (last (AnnotationStack_GetScopeRangeIds th));
  cuda_graph_info := cuda_graph_info CuptiTracerEvent_zero;
  generic_info_cbid := generic_info_cbid CuptiTracerEvent_zero;
  memory_info := memory_info CuptiTracerEvent_zero;
|}.

(** The graph state after the launch step of
    [SetCudaGraphEventUponApiExit]. *)
Definition after_launch_step (cupti : CuptiInterface) (c : CUpti_CallbackId)
  (cbdata : CUpti_CallbackData) (g : GraphResourceCreationInfo)
  : GraphResourceCreationInfo :=
  if decide (c = cuGraphLaunch ∨ c = cuGraphLaunch_ptsz) then
    {| gi_graph_id :=
         default (gi_graph_id g) (GetGraphExecId cupti (hGraph cbdata));
       gi_orig_graph_id := 0;
       node_id_map := node_id_map g |}
  else g.

(** Whether [ProcessActivityBuffer] reaches its caching step for a
    non-null buffer of [size] valid bytes: the four tests before it all
    pass. *)
Definition reaches_caching (cupti : CuptiInterface) (t : CuptiTracer)
  (size : N) : bool :=
  negb (size =? 0)%N
  && activity_tracing_enabled_ t
  && negb (Disabled cupti)
  && match collector_ t with
     | Some opts =>
         negb ((0 <? max_activity_api_events opts)%N
               && (max_activity_api_events opts
                   <=? num_activity_events_in_cached_buffer_ t)%N)
     | None => false
     end.

(** The copies to or from a CUDA array, and the unaligned 2D copy. *)
Definition is_array_or_unaligned_copy (c : DriverMemoryCbid) : bool :=
  match c with
  | cuMemcpyAtoH_v2 | cuMemcpyAtoHAsync_v2 | cuMemcpyAtoD_v2
  | cuMemcpyDtoA_v2 | cuMemcpyAtoA_v2 | cuMemcpy2DUnaligned_v2
  | cuMemcpyHtoA_v2 | cuMemcpyHtoAAsync_v2 => true
  | _ => false
  end.

(** The copies described by a [CUDA_MEMCPY2D] or [CUDA_MEMCPY3D]. *)
Definition uses_copy_descriptor (c : DriverMemoryCbid) : bool :=
  match c with
  | cuMemcpy2D_v2 | cuMemcpy2DAsync_v2 | cuMemcpy3D_v2 | cuMemcpy3DAsync_v2 =>
      true
  | _ => false
  end.

(** *** Further concrete values *)

Module Ex2.

(** A notification about node [n] with origin [o]. *)
Definition graph_data (n o : N) : CUpti_GraphData :=
  {| graph := 1%N; originalGraph := 2%N; graphExec := 3%N;
     node := n; originalNode := o |}.

(** The exit of a launch of the executable graph [g]. *)
Definition launch_call (g : N) : ExitCall := {|
  ec_device_id := 0; ec_start_tsc := 100; ec_end_tsc := 200;
  ec_cbid := cuGraphLaunch;
  ec_cbdata := {|
    callbackSite := CUPTI_API_EXIT;
    functionName := "cuGraphLaunch";
    symbolName := None;
    context := Some 1%N;
    contextUid := 1;
    correlationId := 43;
    hGraph := g;
    memory_params := Ex.no_memory;
  |};
|}.

(** The calling thread after the exit [call], on the attached tracer with
    an unlimited collector. *)
Definition after_exit (th : ThreadLocal) (call : ExitCall) : ThreadLocal :=
  match add_exit Ex.cupti (Ex.attached (Ex.collector 0 0 0)) th call with
  | Some (_, _, th') => th'
  | None => th
  end.

(** The example vendor interface when its clock reads [now]. *)
Definition cupti_at (now : N) : CuptiInterface := {|
  call_result := call_result Ex.cupti;
  GetResultString := GetResultString Ex.cupti;
  GetTimestamp_result := Some now;
  GetDeviceId := GetDeviceId Ex.cupti;
  GetGraphId := GetGraphId Ex.cupti;
  GetGraphExecId := GetGraphExecId Ex.cupti;
  GetGraphNodeId := GetGraphNodeId Ex.cupti;
  Disabled := Disabled Ex.cupti;
  ActivityGetNumDroppedRecords := ActivityGetNumDroppedRecords Ex.cupti;
  ActivityRecords := ActivityRecords Ex.cupti;
|}.

(** The example options with nvtx tracking asked for. *)
Definition options_nvtx : CuptiTracerOptions := {|
  required_callback_api_events := true;
  cbids_selected := [];
  activities_selected := [CUPTI_ACTIVITY_KIND_other 3];
  cupti_finalize := false;
  sync_devices_before_stop := false;
  enable_nvtx_tracking := true;
  pm_sampler_enable := false;
|}.

(** The example session capturing concurrent kernels and one more
    activity kind. *)
Definition capturing_kernels : CuptiTracer :=
  with_option_
    (Some (with_activities_selected
             [CUPTI_ACTIVITY_KIND_CONCURRENT_KERNEL;
              CUPTI_ACTIVITY_KIND_other 3] Ex.options))
    (Ex.active (Ex.collector 0 0 0) 0).

(** The example session with buffer 7 cached, and a registry whose one
    thread has queued two events. *)
Definition busy : CuptiTracer :=
  with_activity_buffers_
    (Some (CacheCuptiFilledActivityBuffer 7 64 Ex.manager))
    (Ex.active (Ex.collector 0 0 0) 3).

Definition busy_registry : PerThreadRegistry :=
  {| recording := true;
     instances :=
       [push_all (Ex.active (Ex.collector 0 0 0) 3) [Ex.ev_a; Ex.ev_b]
          CallbackAnnotationsAndEvents_empty] |}.

(** A hook that synchronises before stop and tracks contexts 1 and 2,
    and the example session with it. *)
Definition syncing_hook : CuptiDriverApiHook := {|
  hook_option_ := {|
    required_callback_api_events := true;
    cbids_selected := [];
    activities_selected := [CUPTI_ACTIVITY_KIND_other 3];
    cupti_finalize := false;
    sync_devices_before_stop := true;
    enable_nvtx_tracking := false;
    pm_sampler_enable := false;
  |};
  contexts_ := {[ 1%N; 2%N ]};
|}.

Definition syncing : CuptiTracer :=
  with_cupti_driver_api_hook_ (Some syncing_hook)
    (Ex.active (Ex.collector 0 0 0) 0).

(** A vendor interface that refuses the forced flush of the activity
    buffers. *)
Definition cupti_no_flush : CuptiInterface := {|
  call_result := λ c,
    match c with
    | ActivityFlushAll _ => CUPTI_ERROR_other "CUPTI_ERROR_UNKNOWN"
    | _ => CUPTI_SUCCESS
    end;
  GetResultString := GetResultString Ex.cupti;
  GetTimestamp_result := GetTimestamp_result Ex.cupti;
  GetDeviceId := GetDeviceId Ex.cupti;
  GetGraphId := GetGraphId Ex.cupti;
  GetGraphExecId := GetGraphExecId Ex.cupti;
  GetGraphNodeId := GetGraphNodeId Ex.cupti;
  Disabled := Disabled Ex.cupti;
  ActivityGetNumDroppedRecords := ActivityGetNumDroppedRecords Ex.cupti;
  ActivityRecords := ActivityRecords Ex.cupti;
|}.

(** The example thread inside the nested scopes 10, 11 and 12. *)
Definition nested_thread : ThreadLocal := {|
  internalCuCall := 0;
  per_thread_graph_info := GraphResourceCreationInfo_zero;
  annotations_and_events_ := CallbackAnnotationsAndEvents_empty;
  current_thread_id := 5;
  AnnotationStack_Get := "step";
  AnnotationStack_GetScopeRangeIds := [10; 11; 12]%Z;
  correlationData_cell := 100;
|}.

(** The example options with sampling asked for, and a sampler that is
    created and cannot be started. *)
Definition options_sampling : CuptiTracerOptions := {|
  required_callback_api_events := true;
  cbids_selected := [];
  activities_selected := [CUPTI_ACTIVITY_KIND_other 3];
  cupti_finalize := false;
  sync_devices_before_stop := false;
  enable_nvtx_tracking := false;
  pm_sampler_enable := true;
|}.

Definition pm_no_start : PmSamplerFactory :=
  {| CreatePmSampler_status := OkStatus;
     StartSampler_status := InternalError "StartSampler failed" |}.

End Ex2.

(** * Properties *)

(** ** Records and machine integers *)

Lemma with_annotations_id (e : CuptiTracerEvent) :
  with_annotations (annotation e) (nvtx_range e) e = e.
Proof. by destruct e. Qed.

Lemma with_activity_tracing_enabled_id (t : CuptiTracer) :
  with_activity_tracing_enabled_ (activity_tracing_enabled_ t) t = t.
Proof. by destruct t. Qed.

Lemma TooManyAnnotationStrings_mono (t : CuptiTracer) (n m : N) :
  (n ≤ m)%N →
  TooManyAnnotationStrings t n = true → TooManyAnnotationStrings t m = true.
Proof.
  unfold TooManyAnnotationStrings. destruct (collector_ t) as [o|]; [|done].
  intros Hle [H0 H1]%andb_prop. apply andb_true_intro. split; [done|].
  apply N.leb_le. apply N.leb_le in H1. lia.
Qed.

(** ** The per-thread buffer: Push and Consume *)

Section push.
Variable tracer : CuptiTracer.
Implicit Types (c : CallbackAnnotationsAndEvents) (e : CuptiTracerEvent).

(** What [Push] appends: the event, stripped when the budget is spent. *)
Lemma Push_event_queue e c :
  event_queue (GuardedCallbackAnnotationsAndEvents.Push tracer e c)
  = event_queue c
    ++ [if TooManyAnnotationStrings tracer (NumAnnotations c)
        then strip_annotations e else e].
Proof.
  unfold GuardedCallbackAnnotationsAndEvents.Push. simpl.
  destruct (TooManyAnnotationStrings tracer (NumAnnotations c)); [done|].
  by rewrite with_annotations_id.
Qed.

(** [Push] touches neither the dropped counter nor the scope tree. *)
Lemma Push_other_fields e c :
  num_dropped_events (GuardedCallbackAnnotationsAndEvents.Push tracer e c)
  = num_dropped_events c
  ∧ scope_range_id_tree (GuardedCallbackAnnotationsAndEvents.Push tracer e c)
    = scope_range_id_tree c.
Proof. done. Qed.

(** The set of annotation strings only grows. *)
Lemma Push_NumAnnotations e c :
  (NumAnnotations c
   ≤ NumAnnotations (GuardedCallbackAnnotationsAndEvents.Push tracer e c))%N.
Proof.
  unfold NumAnnotations, GuardedCallbackAnnotationsAndEvents.Push. simpl.
  match goal with
  | |- (N.of_nat ?a ≤ N.of_nat ?b)%N =>
      assert (a ≤ b) by (apply subseteq_size; set_solver); lia
  end.
Qed.

Lemma Push_stays_over_budget e c :
  TooManyAnnotationStrings tracer (NumAnnotations c) = true →
  TooManyAnnotationStrings tracer
    (NumAnnotations (GuardedCallbackAnnotationsAndEvents.Push tracer e c))
  = true.
Proof. apply TooManyAnnotationStrings_mono, Push_NumAnnotations. Qed.

Lemma push_all_over_budget events c :
  TooManyAnnotationStrings tracer (NumAnnotations c) = true →
  event_queue (push_all tracer events c)
  = event_queue c ++ (strip_annotations <$> events)
  ∧ TooManyAnnotationStrings tracer
      (NumAnnotations (push_all tracer events c)) = true.
Proof.
  revert c. induction events as [|e events IH]; intros c Hc; simpl.
  - by rewrite app_nil_r.
  - destruct (IH (GuardedCallbackAnnotationsAndEvents.Push tracer e c))
      as [Hq Hb]; [by apply Push_stays_over_budget|].
    split; [|done]. rewrite Hq, Push_event_queue, Hc.
    by rewrite <- app_assoc.
Qed.

(** One stored event per pushed event, in the order pushed. *)
Lemma push_all_stored events c :
  ∃ stored, event_queue (push_all tracer events c) = event_queue c ++ stored
            ∧ Forall2 stored_as events stored.
Proof.
  revert c. induction events as [|e events IH]; intros c; simpl.
  - exists []. by rewrite app_nil_r.
  - destruct (IH (GuardedCallbackAnnotationsAndEvents.Push tracer e c))
      as (stored & Hq & Hs).
    rewrite Push_event_queue in Hq. rewrite <- app_assoc in Hq.
    eexists (_ :: stored). split; [exact Hq|]. constructor; [|done].
    unfold stored_as.
    destruct (TooManyAnnotationStrings tracer (NumAnnotations c)); auto.
Qed.

(** Within the budget the event is stored as pushed. *)
Lemma Push_within_budget e c :
  TooManyAnnotationStrings tracer (NumAnnotations c) = false →
  event_queue (GuardedCallbackAnnotationsAndEvents.Push tracer e c)
  = event_queue c ++ [e].
Proof. intros H. by rewrite Push_event_queue, H. Qed.

End push.

(** [Consume] leaves a buffer that holds no annotation string: the
    count the budget is tested against restarts from zero. *)
Lemma Consume_resets_annotation_count
  (tracer : CuptiTracer) (c : CallbackAnnotationsAndEvents) :
  NumAnnotations (GuardedCallbackAnnotationsAndEvents.Consume c).2 = 0%N
  ∧ (is_Some (collector_ tracer) →
     TooManyAnnotationStrings tracer
       (NumAnnotations (GuardedCallbackAnnotationsAndEvents.Consume c).2)
     = false).
Proof.
  split; [reflexivity|]. intros [opts Hc]. unfold TooManyAnnotationStrings.
  rewrite Hc. simpl. by destruct (max_annotation_strings opts).
Qed.



(** The pushes split in two: the first [k], made while the budget is not
    spent, are stored whole; all the later ones are stored stripped. *)
Lemma push_all_split (tracer : CuptiTracer) (events : list CuptiTracerEvent) :
  ∀ c : CallbackAnnotationsAndEvents,
  ∃ k,
    event_queue (push_all tracer events c)
    = event_queue c ++ take k events ++ (strip_annotations <$> drop k events)
    ∧ (∀ j, j < k →
         TooManyAnnotationStrings tracer
           (NumAnnotations (push_all tracer (take j events) c)) = false)
    ∧ (k < length events →
       TooManyAnnotationStrings tracer
         (NumAnnotations (push_all tracer (take k events) c)) = true).
Proof.
  induction events as [|e events IH]; intros c.
  - exists 0. simpl. rewrite app_nil_r. split; [done|]. split; intros; lia.
  - destruct (TooManyAnnotationStrings tracer (NumAnnotations c)) eqn:Hc.
    + exists 0. split; [|split; [intros; lia|done]].
      by destruct (push_all_over_budget tracer (e :: events) c Hc) as [-> _].
    + destruct (IH (GuardedCallbackAnnotationsAndEvents.Push tracer e c))
        as (k & Hq & Hbefore & Hat).
      exists (S k). split; [|split].
      * simpl. rewrite Hq, Push_within_budget by done.
        by rewrite <- app_assoc.
      * intros [|j] Hj; [done|]. simpl. apply Hbefore. lia.
      * simpl. intros Hk. apply Hat. lia.
Qed.

(** C8, as amended.  After any sequence of [Push] calls on an empty
    buffer, [Consume] returns one stored event per pushed event, in the
    order of the pushes: the events pushed before the annotation-string
    budget was spent exactly as pushed, the events pushed after that with
    their annotation and nvtx-range fields emptied.  The buffer left behind
    is the empty one, and the events pushed afterwards accumulate in it from
    nothing. *)
Theorem Consume_returns_stored_events
  (tracer : CuptiTracer) (events later : list CuptiTracerEvent) :
  let c := push_all tracer events CallbackAnnotationsAndEvents_empty in
  let grabbed := fst (GuardedCallbackAnnotationsAndEvents.Consume c) in
  let left := snd (GuardedCallbackAnnotationsAndEvents.Consume c) in
  (∃ k,
     event_queue grabbed
     = take k events ++ (strip_annotations <$> drop k events)
     ∧ (∀ j, j < k →
          TooManyAnnotationStrings tracer
            (NumAnnotations
               (push_all tracer (take j events)
                  CallbackAnnotationsAndEvents_empty)) = false)
     ∧ (k < length events →
        TooManyAnnotationStrings tracer
          (NumAnnotations
             (push_all tracer (take k events)
                CallbackAnnotationsAndEvents_empty)) = true))
  ∧ Forall2 stored_as events (event_queue grabbed)
  ∧ length (event_queue grabbed) = length events
  ∧ left = CallbackAnnotationsAndEvents_empty
  ∧ Forall2 stored_as later (event_queue (push_all tracer later left)).
Proof.
  simpl.
  destruct (push_all_split tracer events CallbackAnnotationsAndEvents_empty)
    as (k & Hk & Hbefore & Hat).
  destruct (push_all_stored tracer events CallbackAnnotationsAndEvents_empty)
    as (stored & Hq & Hs).
  destruct (push_all_stored tracer later CallbackAnnotationsAndEvents_empty)
    as (stored' & Hq' & Hs').
  split; [by exists k|].
  simpl in Hq, Hq'. rewrite Hq, Hq'.
  split; [done|]. split; [|done]. symmetry. by eapply Forall2_length.
Qed.

(** The events of the example below come back as the amended claim
    says: the first whole, the second stripped. *)
Lemma Consume_returns_stored_events_witness :
  event_queue
    (fst (GuardedCallbackAnnotationsAndEvents.Consume
            (push_all (Ex.attached (Ex.collector 0 0 1)) [Ex.ev_a; Ex.ev_b]
               CallbackAnnotationsAndEvents_empty)))
  = [Ex.ev_a; strip_annotations Ex.ev_b]
  ∧ Forall2 stored_as [Ex.ev_a; Ex.ev_b]
      (event_queue
         (fst (GuardedCallbackAnnotationsAndEvents.Consume
                 (push_all (Ex.attached (Ex.collector 0 0 1))
                    [Ex.ev_a; Ex.ev_b] CallbackAnnotationsAndEvents_empty)))).
Proof.
  split; [reflexivity|].
  exact (proj1 (proj2 (Consume_returns_stored_events
                         (Ex.attached (Ex.collector 0 0 1))
                         [Ex.ev_a; Ex.ev_b] []))).
Defined.

(** C8 as stated fails: with a budget of one annotation string, the
    second of two pushed events comes back without its annotation. *)
Lemma Consume_returns_pushed_events_counterexample :
  event_queue
    (fst (GuardedCallbackAnnotationsAndEvents.Consume
            (push_all (Ex.attached (Ex.collector 0 0 1)) [Ex.ev_a; Ex.ev_b]
               CallbackAnnotationsAndEvents_empty)))
  ≠ [Ex.ev_a; Ex.ev_b].
Proof. vm_compute. intros H. discriminate H. Qed.

(** ** The scope-range-id parent tree *)

Section walk_back.
Import GuardedCallbackAnnotationsAndEvents.
Implicit Types (tree : gmap Z Z) (rs : list Z).

(** One round of the loop. *)
Lemma walk_back_step curr prev rest tree :
  walk_back (curr :: prev :: rest) tree
  = if decide (is_Some (tree !! curr)) then tree
    else walk_back (prev :: rest) (<[curr := prev]> tree).
Proof. reflexivity. Qed.

(** Links already in the tree are never changed. *)
Lemma walk_back_keeps rs tree k v :
  tree !! k = Some v → walk_back rs tree !! k = Some v.
Proof.
  revert tree. induction rs as [|curr rest IH]; intros tree Hk; [done|].
  destruct rest as [|prev rest']; [done|].
  rewrite walk_back_step. case_decide as Hknown; [done|].
  apply IH. rewrite lookup_insert_ne; [done|].
  intros ->. apply Hknown. by eexists.
Qed.

(** With two ids or more, the last id of the sequence is known after
    the walk. *)
Lemma walk_back_head_known curr prev rest tree :
  is_Some (walk_back (curr :: prev :: rest) tree !! curr).
Proof.
  rewrite walk_back_step. case_decide as Hknown; [done|].
  exists prev. apply walk_back_keeps, lookup_insert_eq.
Qed.

Lemma walk_back_idempotent rs tree :
  walk_back rs (walk_back rs tree) = walk_back rs tree.
Proof.
  destruct rs as [|curr [|prev rest]]; [done..|].
  pose proof (walk_back_head_known curr prev rest tree) as Hknown.
  set (tree' := walk_back (curr :: prev :: rest) tree) in *.
  rewrite walk_back_step. by rewrite decide_True.
Qed.

(** A new link joins an id to the id next to it (before it in the
    sequence, after it in the reversed sequence). *)
Lemma walk_back_new_link rs tree k v :
  tree !! k = None → walk_back rs tree !! k = Some v →
  ∃ pre suf, rs = pre ++ k :: v :: suf.
Proof.
  revert tree. induction rs as [|curr rest IH]; intros tree Hk Hv;
    [simpl in Hv; congruence|].
  destruct rest as [|prev rest']; [simpl in Hv; congruence|].
  rewrite walk_back_step in Hv. case_decide as Hknown; [congruence|].
  destruct (decide (curr = k)) as [->|Hne].
  - exists [], rest'. simpl.
    pose proof (walk_back_keeps (prev :: rest') (<[k:=prev]> tree) k prev
                  (lookup_insert_eq _ _ _)) as Hp.
    rewrite Hp in Hv. by injection Hv as ->.
  - destruct (IH (<[curr:=prev]> tree)) as (pre & suf & Heq);
      [by rewrite lookup_insert_ne | done |].
    exists (curr :: pre), suf. simpl. by rewrite Heq.
Qed.

(** The walk stops at the first id it knows: new links are for ids it
    met before that one. *)
Lemma walk_back_stops pre x suf tree k :
  is_Some (tree !! x) → tree !! k = None →
  is_Some (walk_back (pre ++ x :: suf) tree !! k) → k ∈ pre.
Proof.
  revert tree. induction pre as [|p pre IH]; intros tree Hx Hk Hnew.
  - simpl in Hnew. destruct suf as [|s suf'].
    + rewrite Hk in Hnew. by destruct Hnew.
    + rewrite decide_True in Hnew by done. rewrite Hk in Hnew.
      by destruct Hnew.
  - change ((p :: pre) ++ x :: suf) with (p :: (pre ++ x :: suf)) in Hnew.
    destruct (pre ++ x :: suf) as [|prev rest'] eqn:Hrest;
      [by destruct pre|].
    rewrite walk_back_step in Hnew. case_decide as Hknown.
    + rewrite Hk in Hnew. by destruct Hnew.
    + destruct (decide (p = k)) as [->|Hne]; [by left|].
      right. apply (IH (<[p:=prev]> tree)).
      * destruct (decide (p = x)) as [->|Hpx].
        -- rewrite lookup_insert_eq. by eexists.
        -- by rewrite lookup_insert_ne.
      * by rewrite lookup_insert_ne.
      * done.
Qed.

End walk_back.

(** C9.  [AddScopeRangeIdSequence] is idempotent: a second call with the
    same sequence changes nothing.  It never changes a link that is already
    in the tree; every link it adds joins an id of the sequence to the id
    just before it; and it stops at the first id, from the tail, that is
    already known, so that new links are only for ids behind that one.  The
    events, strings and dropped counter are left alone. *)
Theorem AddScopeRangeIdSequence_idempotent
  (sequence : list Z) (c : CallbackAnnotationsAndEvents) :
  let c1 := GuardedCallbackAnnotationsAndEvents.AddScopeRangeIdSequence sequence c in
  GuardedCallbackAnnotationsAndEvents.AddScopeRangeIdSequence sequence c1 = c1
  ∧ (∀ k v, scope_range_id_tree c !! k = Some v →
            scope_range_id_tree c1 !! k = Some v)
  ∧ (∀ k v, scope_range_id_tree c !! k = None →
            scope_range_id_tree c1 !! k = Some v →
            ∃ pre suf, sequence = pre ++ v :: k :: suf)
  ∧ (∀ pre x suf k, sequence = pre ++ x :: suf →
            is_Some (scope_range_id_tree c !! x) →
            scope_range_id_tree c !! k = None →
            is_Some (scope_range_id_tree c1 !! k) → k ∈ suf)
  ∧ event_queue c1 = event_queue c
  ∧ annotations c1 = annotations c
  ∧ nvtx_ranges c1 = nvtx_ranges c
  ∧ num_dropped_events c1 = num_dropped_events c.
Proof.
  unfold GuardedCallbackAnnotationsAndEvents.AddScopeRangeIdSequence.
  case_decide as Hlen; simpl.
  - split; [by rewrite walk_back_idempotent|].
    split; [intros k v; apply walk_back_keeps|].
    split.
    { intros k v Hk Hv.
      destruct (walk_back_new_link _ _ _ _ Hk Hv) as (pre & suf & Heq).
      exists (rev suf), (rev pre).
      rewrite <- (rev_involutive sequence), Heq.
      rewrite rev_app_distr. simpl. by rewrite <- !app_assoc. }
    split; [|done].
    intros pre x suf k -> Hx Hk Hnew.
    rewrite rev_app_distr in Hnew. simpl in Hnew. rewrite <- app_assoc in Hnew.
    apply (walk_back_stops (rev suf) x (rev pre)) in Hnew; [|done..].
    by apply list_elem_of_In, in_rev, list_elem_of_In.
  - split; [done|]. split; [done|].
    split; [by intros k v -> ?|].
    split; [|done]. intros pre x suf k _ _ -> [? ?]. done.
Qed.

(** The sequence 1, 2, 3 on an empty tree: two links, and nothing new
    the second time. *)
Lemma AddScopeRangeIdSequence_idempotent_witness :
  let c1 := GuardedCallbackAnnotationsAndEvents.AddScopeRangeIdSequence
              [1; 2; 3]%Z CallbackAnnotationsAndEvents_empty in
  scope_range_id_tree c1 = <[2%Z := 1%Z]> (<[3%Z := 2%Z]> ∅)
  ∧ GuardedCallbackAnnotationsAndEvents.AddScopeRangeIdSequence [1; 2; 3]%Z c1
    = c1.
Proof.
  split; [reflexivity|].
  exact (proj1 (AddScopeRangeIdSequence_idempotent [1; 2; 3]%Z
                  CallbackAnnotationsAndEvents_empty)).
Defined.

(** ** CUDA-graph events *)

Section graph_events.
Variable cupti_interface : CuptiInterface.
Variable tracer : CuptiTracer.
Variable device_id0 : N.
Variable cbid0 : CUpti_CallbackId.
Variable cbdata : CUpti_CallbackData.
Variables start_time end_time tid : N.

(** The loop pushes one node-map event per entry, in iteration order,
    and every one of them gets the window that starts at the time the loop
    was entered with. *)
Lemma node_map_loop_events entries event graph_id_info guarded :
  ∃ pushed,
    event_queue
      (node_map_loop tracer device_id0 cbid0 cbdata tid entries event
         graph_id_info start_time guarded)
    = event_queue guarded ++ pushed
    ∧ graph_node_id <$> pushed = entries.*1
    ∧ Forall (node_map_stored start_time) pushed.
Proof.
  revert guarded. induction entries as [|[node_id orig_node_id] rest IH];
    intros guarded; simpl.
  - exists []. by rewrite app_nil_r.
  - destruct (IH (GuardedCallbackAnnotationsAndEvents.Push tracer
                    (node_map_event device_id0 cbid0 cbdata tid event
                       graph_id_info start_time node_id orig_node_id)
                    guarded)) as (pushed & Hq & Hids & Hall).
    rewrite Push_event_queue, <- app_assoc in Hq.
    eexists (_ :: pushed). split; [exact Hq|].
    split.
    + simpl. f_equal; [|done].
      by destruct (TooManyAnnotationStrings tracer (NumAnnotations guarded)).
    + constructor; [|done].
      by destruct (TooManyAnnotationStrings tracer (NumAnnotations guarded)).
Qed.

(** What a clone or an instantiate-with-flags exit does: as many
    node-map events as the map has entries, then the graph-level event, and
    an empty map. *)
Lemma SetCudaGraphEventUponApiExit_clone event graph_id_info guarded :
  cbid0 = cuGraphClone ∨ cbid0 = cuGraphInstantiateWithFlags →
  ∃ event' graph_id_info' guarded' pushed,
    SetCudaGraphEventUponApiExit cupti_interface tracer device_id0 cbid0
      cbdata start_time end_time tid event graph_id_info guarded
    = (event', graph_id_info', guarded')
    ∧ event_queue guarded' = event_queue guarded ++ pushed
    ∧ length pushed = size (node_id_map graph_id_info)
    ∧ Forall (node_map_stored start_time) pushed
    ∧ type event' = CuptiTracerEventType.CudaGraph
    ∧ start_time_ns event' = start_time
    ∧ node_id_map graph_id_info' = ∅.
Proof.
  intros Hcbid. unfold SetCudaGraphEventUponApiExit.
  rewrite (decide_False (P := cbid0 = cuGraphLaunch ∨ cbid0 = cuGraphLaunch_ptsz))
    by (intros [H1|H1]; destruct Hcbid as [H2|H2]; rewrite H1 in H2;
        discriminate H2).
  rewrite (decide_True _ _ Hcbid).
  destruct (node_map_loop_events (map_to_list (node_id_map graph_id_info))
              event graph_id_info guarded) as (pushed & Hq & Hids & Hall).
  do 3 eexists. exists pushed. split; [reflexivity|]. simpl.
  split; [done|]. split; [|done].
  rewrite <- length_map_to_list, <- (length_fmap fst (map_to_list _)), <- Hids.
  by rewrite length_fmap.
Qed.

(** The single-node setter has a result exactly when the map is not
    empty, and then it reads an entry of the map and clears the map. *)
Lemma SetCudaGraphNodeEventUponApiExit_Some event graph_id_info :
  node_id_map graph_id_info ≠ ∅ →
  ∃ node_id orig_node_id,
    node_id_map graph_id_info !! node_id = Some orig_node_id
    ∧ SetCudaGraphNodeEventUponApiExit device_id0 cbid0 cbdata start_time
        end_time tid event graph_id_info
      = Some (graph_level_event device_id0 cbid0 cbdata start_time end_time
                tid event graph_id_info node_id orig_node_id,
              {| gi_graph_id := gi_graph_id graph_id_info;
                 gi_orig_graph_id := gi_orig_graph_id graph_id_info;
                 node_id_map := ∅ |}).
Proof.
  intros Hne. unfold SetCudaGraphNodeEventUponApiExit.
  destruct (map_to_list (node_id_map graph_id_info))
    as [|[node_id orig_node_id] rest] eqn:Hl.
  - by apply map_to_list_empty_iff in Hl.
  - exists node_id, orig_node_id. split; [|done].
    apply elem_of_map_to_list. rewrite Hl. by left.
Qed.

Lemma SetCudaGraphNodeEventUponApiExit_None event graph_id_info :
  SetCudaGraphNodeEventUponApiExit device_id0 cbid0 cbdata start_time
    end_time tid event graph_id_info = None
  ↔ node_id_map graph_id_info = ∅.
Proof.
  split.
  - intros Hnone. destruct (decide (node_id_map graph_id_info = ∅)) as [|Hne];
      [done|].
    destruct (SetCudaGraphNodeEventUponApiExit_Some event _ Hne)
      as (? & ? & _ & Heq). congruence.
  - intros Hempty. unfold SetCudaGraphNodeEventUponApiExit.
    by rewrite Hempty, map_to_list_empty.
Qed.

End graph_events.

(** A node notification leaves the map with an entry. *)
Lemma HandleResourceCallback_node_non_empty cupti cbid0 graph_data graph_id_info :
  cbid0 = CUPTI_CBID_RESOURCE_GRAPHNODE_CREATED
  ∨ cbid0 = CUPTI_CBID_RESOURCE_GRAPHNODE_CLONED →
  node_id_map (HandleResourceCallback cupti cbid0 graph_data graph_id_info) ≠ ∅.
Proof. intros [-> | ->]; simpl; apply insert_non_empty. Qed.

(** [AddScopeRangeIdSequence] leaves the events alone. *)
Lemma AddScopeRangeIdSequence_event_queue sequence c :
  event_queue
    (GuardedCallbackAnnotationsAndEvents.AddScopeRangeIdSequence sequence c)
  = event_queue c.
Proof.
  unfold GuardedCallbackAnnotationsAndEvents.AddScopeRangeIdSequence.
  by case_decide.
Qed.

(** What the code does on a clone or an instantiate-with-flags exit that
    is within the event ceiling: as many node-map events as the map has
    entries, every one with the window that starts at the call's start
    time, then one graph-level event; the map is empty afterwards. *)
Lemma AddDriverApiCallbackEvent_clone cupti tracer th call :
  TooManyCallbackEvents tracer = false →
  ec_cbid call = cuGraphClone ∨ ec_cbid call = cuGraphInstantiateWithFlags →
  ∃ tracer' th' pushed graph_event,
    add_exit cupti tracer th call = Some (OkStatus, tracer', th')
    ∧ event_queue (annotations_and_events_ th')
      = event_queue (annotations_and_events_ th) ++ pushed ++ [graph_event]
    ∧ length pushed = size (node_id_map (per_thread_graph_info th))
    ∧ Forall (node_map_stored (ec_start_tsc call)) pushed
    ∧ type graph_event = CuptiTracerEventType.CudaGraph
    ∧ node_id_map (per_thread_graph_info th') = ∅.
Proof.
  intros Hroom Hcbid. unfold add_exit, AddDriverApiCallbackEvent.
  rewrite Hroom. unfold SetCallbackEventUponApiExit.
  match goal with
  | |- context [SetCudaGraphEventUponApiExit ?a ?b ?c ?d ?e ?f ?g ?h ?i ?j ?k] =>
      destruct (SetCudaGraphEventUponApiExit_clone a b c d e f g h i j k Hcbid)
        as (event' & gi' & guarded' & pushed & Heq & Hq & Hlen & Hall & Hty
            & _ & Hmap)
  end.
  eexists _, _, pushed, _. split.
  - destruct Hcbid as [Hc | Hc]; rewrite Hc in *; rewrite Heq; reflexivity.
  - cbn [annotations_and_events_ per_thread_graph_info with_graph_and_events].
    rewrite Push_event_queue, Hq, AddScopeRangeIdSequence_event_queue.
    rewrite <- app_assoc. split; [reflexivity|].
    split; [done|]. split; [done|]. split; [|done].
    by destruct (TooManyAnnotationStrings _ _).
Qed.

(** C1.  A cuGraphClone exit entered at 100 ns on a thread whose node-id
    map holds two entries: two node-map events and then one graph-level
    event are pushed and the map is left empty, but both node-map events
    start at 100 ns; their start times are not 100 and 101. *)
Theorem clone_node_map_events_share_one_window :
  ∃ tracer' th',
    add_exit Ex.cupti (Ex.attached (Ex.collector 0 0 0)) Ex.thread_two_nodes
      (Ex.exit_call cuGraphClone "cuGraphClone")
    = Some (OkStatus, tracer', th')
    ∧ type <$> event_queue (annotations_and_events_ th')
      = [CuptiTracerEventType.CudaGraphNodeMap;
         CuptiTracerEventType.CudaGraphNodeMap;
         CuptiTracerEventType.CudaGraph]
    ∧ node_map_start_times (event_queue (annotations_and_events_ th'))
      = [100%N; 100%N]
    ∧ end_time_ns <$> event_queue (annotations_and_events_ th')
      = [101%N; 101%N; 200%N]
    ∧ ¬ consecutive_from 100
          (node_map_start_times (event_queue (annotations_and_events_ th')))
    ∧ node_id_map (per_thread_graph_info th') = ∅.
Proof.
  do 2 eexists. split; [vm_compute; reflexivity|].
  split; [vm_compute; reflexivity|].
  split; [vm_compute; reflexivity|].
  split; [vm_compute; reflexivity|].
  split; [|reflexivity].
  vm_compute. intros (_ & H & _). discriminate H.
Qed.

(** C10.  The single-node-addition setter has a result exactly when the
    thread's node-id map is not empty, and then it takes both node ids from
    an entry of the map and clears the map.  A cuGraphAdd exit that is
    within the event ceiling has no result on a thread whose map is empty,
    as it is in the thread-local initial value; after a node-created or
    node-cloned notification the setter has one. *)
Theorem SetCudaGraphNodeEventUponApiExit_requires_node :
  (∀ device_id0 cbid0 cbdata start_time end_time tid event graph_id_info,
     SetCudaGraphNodeEventUponApiExit device_id0 cbid0 cbdata start_time
       end_time tid event graph_id_info = None
     ↔ node_id_map graph_id_info = ∅)
  ∧ (∀ device_id0 cbid0 cbdata start_time end_time tid event graph_id_info
       event' graph_id_info',
       SetCudaGraphNodeEventUponApiExit device_id0 cbid0 cbdata start_time
         end_time tid event graph_id_info = Some (event', graph_id_info') →
       node_id_map graph_id_info !! graph_node_id event'
       = Some (orig_graph_node_id (cuda_graph_info event'))
       ∧ node_id_map graph_id_info' = ∅)
  ∧ (∀ cupti tracer th call,
       TooManyCallbackEvents tracer = false →
       is_cuGraphAdd (ec_cbid call) = true →
       node_id_map (per_thread_graph_info th) = ∅ →
       add_exit cupti tracer th call = None)
  ∧ node_id_map GraphResourceCreationInfo_zero = ∅
  ∧ (∀ cupti res_cbid graph_data device_id0 cbid0 cbdata start_time end_time
       tid event graph_id_info,
       res_cbid = CUPTI_CBID_RESOURCE_GRAPHNODE_CREATED
       ∨ res_cbid = CUPTI_CBID_RESOURCE_GRAPHNODE_CLONED →
       is_Some
         (SetCudaGraphNodeEventUponApiExit device_id0 cbid0 cbdata start_time
            end_time tid event
            (HandleResourceCallback cupti res_cbid graph_data graph_id_info))).
Proof.
  split; [intros; apply SetCudaGraphNodeEventUponApiExit_None|].
  split.
  { intros d c cb st et tid event gi event' gi' Heq.
    destruct (decide (node_id_map gi = ∅)) as [Hempty|Hne].
    - apply (SetCudaGraphNodeEventUponApiExit_None d c cb st et tid event)
        in Hempty. congruence.
    - destruct (SetCudaGraphNodeEventUponApiExit_Some d c cb st et tid event
                  gi Hne) as (k & v & Hkv & Heq').
      rewrite Heq' in Heq. injection Heq as <- <-. done. }
  split.
  { intros cupti tracer th call Hroom Hadd Hempty.
    unfold add_exit, AddDriverApiCallbackEvent. rewrite Hroom.
    unfold SetCallbackEventUponApiExit.
    destruct (ec_cbid call); try discriminate Hadd;
      by rewrite (proj2 (SetCudaGraphNodeEventUponApiExit_None _ _ _ _ _ _ _ _)
                    Hempty). }
  split; [reflexivity|].
  intros cupti res_cbid gd d c cb st et tid event gi Hres.
  pose proof (HandleResourceCallback_node_non_empty cupti res_cbid gd gi Hres)
    as Hne.
  destruct (SetCudaGraphNodeEventUponApiExit_Some d c cb st et tid event _ Hne)
    as (k & v & _ & Heq).
  rewrite Heq. by eexists.
Qed.

(** A cuGraphAddKernelNode exit on a thread that has seen no node
    notification. *)
Lemma SetCudaGraphNodeEventUponApiExit_requires_node_witness :
  add_exit Ex.cupti (Ex.attached (Ex.collector 0 0 0)) Ex.thread
    (Ex.exit_call cuGraphAddKernelNode "cuGraphAddKernelNode") = None.
Proof.
  apply (proj1 (proj2 (proj2
           SetCudaGraphNodeEventUponApiExit_requires_node)));
    reflexivity.
Defined.

(** ** The ceiling on callback events *)

Lemma node_map_loop_num_dropped tracer d c cb tid entries event gi st guarded :
  num_dropped_events
    (node_map_loop tracer d c cb tid entries event gi st guarded)
  = num_dropped_events guarded.
Proof.
  revert guarded. induction entries as [|[k v] rest IH]; intros guarded;
    [done|].
  simpl. by rewrite IH.
Qed.

Lemma SetCallbackEventUponApiExit_num_dropped
  cupti tracer d c cb st et tid event gi guarded event' gi' guarded' :
  SetCallbackEventUponApiExit cupti tracer d c cb st et tid event gi guarded
  = Some (event', gi', guarded') →
  num_dropped_events guarded' = num_dropped_events guarded.
Proof.
  unfold SetCallbackEventUponApiExit, SetCudaGraphEventUponApiExit.
  destruct c; simpl;
    repeat case_decide;
    try (destruct (SetCudaGraphNodeEventUponApiExit _ _ _ _ _ _ _ _)
           as [[? ?]|]);
    intros Heq; try discriminate Heq; injection Heq as <- <- <-;
    try done; apply node_map_loop_num_dropped.
Qed.

(** At the ceiling: the event is dropped and counted, nothing else
    changes. *)
Lemma add_exit_dropped cupti tracer th call :
  TooManyCallbackEvents tracer = true →
  add_exit cupti tracer th call
  = Some (OkStatus, tracer,
          with_graph_and_events (per_thread_graph_info th)
            (inc_num_dropped_events (annotations_and_events_ th)) th).
Proof.
  intros Hfull. unfold add_exit, AddDriverApiCallbackEvent. by rewrite Hfull.
Qed.

(** Below the ceiling: the event is counted and nothing is dropped. *)
Lemma add_exit_counted cupti tracer th call st tracer' th' :
  TooManyCallbackEvents tracer = false →
  add_exit cupti tracer th call = Some (st, tracer', th') →
  tracer' = IncCallbackEventCount tracer
  ∧ num_dropped_events (annotations_and_events_ th')
    = num_dropped_events (annotations_and_events_ th).
Proof.
  intros Hroom. unfold add_exit, AddDriverApiCallbackEvent. rewrite Hroom.
  destruct (SetCallbackEventUponApiExit _ _ _ _ _ _ _ _ _ _ _)
    as [[[event' gi'] guarded']|] eqn:Hset; [|done].
  intros Heq. injection Heq as <- <- <-. split; [done|].
  apply SetCallbackEventUponApiExit_num_dropped in Hset.
  cbn [annotations_and_events_ with_graph_and_events].
  rewrite (proj1 (Push_other_fields _ _ _)), Hset.
  unfold GuardedCallbackAnnotationsAndEvents.AddScopeRangeIdSequence.
  by case_decide.
Qed.

(** A run that stays within the ceiling counts every callback and drops
    none. *)
Lemma run_exits_counted cupti opts calls : ∀ tracer th tracer' th',
  collector_ tracer = Some opts →
  (num_callback_events_ tracer + N.of_nat (length calls)
   ≤ max_callback_api_events opts)%N →
  run_exits cupti tracer th calls = Some (tracer', th') →
  collector_ tracer' = Some opts
  ∧ num_callback_events_ tracer'
    = (num_callback_events_ tracer + N.of_nat (length calls))%N
  ∧ num_dropped_events (annotations_and_events_ th')
    = num_dropped_events (annotations_and_events_ th).
Proof.
  induction calls as [|call rest IH]; intros tracer th tracer' th' Hc Hle Hrun.
  - simpl in *. injection Hrun as <- <-. split; [done|]. split; [lia|done].
  - cbn [run_exits] in Hrun.
    destruct (add_exit cupti tracer th call) as [[[st t1] th1]|] eqn:Hstep;
      [|done].
    simpl in Hrun.
    assert (TooManyCallbackEvents tracer = false) as Hroom.
    { unfold TooManyCallbackEvents. rewrite Hc.
      apply andb_false_intro2, N.leb_gt. simpl in Hle. lia. }
    destruct (add_exit_counted _ _ _ _ _ _ _ Hroom Hstep) as [-> Hd].
    destruct (IH (IncCallbackEventCount tracer) th1 tracer' th' Hc
                ltac:(simpl in *; lia) Hrun) as (Hc' & Hn & Hd').
    split; [done|]. split; [simpl in *; lia|congruence].
Qed.

(** C4.  With a ceiling of N > 0 callback events and a session that
    starts at a count of zero: after N callback exits the count is N and
    nothing was dropped; at the next exit the handler returns [OkStatus],
    the dropped counter of the thread's buffer goes up by exactly one, no
    event is appended, and the tracer is as it was, so tracing goes on. *)
Theorem AddDriverApiCallbackEvent_drops_beyond_ceiling
  (cupti : CuptiInterface) (tracer tracer' : CuptiTracer)
  (th th' : ThreadLocal) (opts : CuptiTracerCollectorOptions)
  (calls : list ExitCall) (call : ExitCall) :
  collector_ tracer = Some opts →
  (0 < max_callback_api_events opts)%N →
  num_callback_events_ tracer = 0%N →
  N.of_nat (length calls) = max_callback_api_events opts →
  run_exits cupti tracer th calls = Some (tracer', th') →
  num_callback_events_ tracer' = max_callback_api_events opts
  ∧ num_dropped_events (annotations_and_events_ th')
    = num_dropped_events (annotations_and_events_ th)
  ∧ ∃ th'',
      add_exit cupti tracer' th' call = Some (OkStatus, tracer', th'')
      ∧ num_dropped_events (annotations_and_events_ th'')
        = (num_dropped_events (annotations_and_events_ th') + 1)%N
      ∧ event_queue (annotations_and_events_ th'')
        = event_queue (annotations_and_events_ th')
      ∧ per_thread_graph_info th'' = per_thread_graph_info th'.
Proof.
  intros Hc Hpos H0 Hlen Hrun.
  destruct (run_exits_counted cupti opts calls tracer th tracer' th' Hc
              ltac:(lia) Hrun) as (Hc' & Hn & Hd).
  split; [lia|]. split; [done|].
  eexists. split.
  - apply add_exit_dropped. unfold TooManyCallbackEvents. rewrite Hc'.
    apply andb_true_intro. split; [by apply N.ltb_lt|apply N.leb_le; lia].
  - done.
Qed.

(** A ceiling of two: two exits are recorded, the third is dropped and
    counted. *)
Lemma AddDriverApiCallbackEvent_drops_beyond_ceiling_witness :
  ∃ tracer' th' th'',
    run_exits Ex.cupti (Ex.attached (Ex.collector 2 0 0)) Ex.thread
      [Ex.exit_call cuLaunchKernel "cuLaunchKernel";
       Ex.exit_call (cbid_unlisted 7) "cuStreamSynchronize"]
    = Some (tracer', th')
    ∧ length (event_queue (annotations_and_events_ th')) = 2
    ∧ add_exit Ex.cupti tracer' th'
        (Ex.exit_call cuLaunchKernel "cuLaunchKernel")
      = Some (OkStatus, tracer', th'')
    ∧ num_dropped_events (annotations_and_events_ th'') = 1%N
    ∧ length (event_queue (annotations_and_events_ th'')) = 2.
Proof.
  eexists _, _.
  destruct (AddDriverApiCallbackEvent_drops_beyond_ceiling Ex.cupti
              (Ex.attached (Ex.collector 2 0 0)) _ Ex.thread _
              (Ex.collector 2 0 0)
              [Ex.exit_call cuLaunchKernel "cuLaunchKernel";
               Ex.exit_call (cbid_unlisted 7) "cuStreamSynchronize"]
              (Ex.exit_call cuLaunchKernel "cuLaunchKernel")
              eq_refl eq_refl eq_refl eq_refl eq_refl)
    as (_ & _ & th'' & Hstep & Hd & Hq & _).
  exists th''. split; [reflexivity|]. split; [reflexivity|].
  split; [exact Hstep|]. split; [rewrite Hd; reflexivity|].
  rewrite Hq. reflexivity.
Defined.

(** ** Back-pressure on activity buffers *)


(** The count of cached events is not taken back when the cached
    buffers are handed to the collector by a flush; it restarts from zero
    only in [PrepareActivityStart]. *)
Lemma FlushEventsToCollector_keeps_cached_count t reg st t' reg' es :
  FlushEventsToCollector t reg = Some (st, t', reg', es) →
  num_activity_events_in_cached_buffer_ t'
  = num_activity_events_in_cached_buffer_ t
  ∧ (activity_tracing_enabled_ t = true →
     cached_buffers <$> activity_buffers_ t' = Some []).
Proof.
  unfold FlushEventsToCollector.
  destruct (api_tracing_enabled_ t) eqn:Hapi,
           (activity_tracing_enabled_ t) eqn:Hact; simpl;
    try (destruct (activity_buffers_ t) as [m|]; simpl; [|done]);
    rewrite ?Hapi; simpl;
    try (destruct (collector_ t) as [c|]; simpl; [|done]);
    intros Heq; injection Heq as <- <- <- <-; done.
Qed.



(** ** Callbacks without a usable context *)





(** ** Life cycle: what Disable and FlushEventsToCollector emit *)

Lemma cupti_calls_kinds cupti steps k :
  Forall (λ s, call_kind (step_call s) = k) steps →
  Forall (λ e, effect_kind e = k) (cupti_calls cupti steps).2.
Proof.
  induction 1 as [|s steps Hs _ IH]; [by constructor|].
  destruct s as [c|c]; simpl.
  - destruct (cupti_error cupti (call_result cupti c)); simpl.
    + by repeat constructor.
    + destruct (cupti_calls cupti steps) as [st es]. simpl in *.
      by constructor.
  - destruct (cupti_calls cupti steps) as [st es]. simpl in *.
    by constructor.
Qed.

#[local] Arguments cupti_calls : simpl never.

Lemma with_api_tracing_enabled_id (t : CuptiTracer) :
  with_api_tracing_enabled_ (api_tracing_enabled_ t) t = t.
Proof. by destruct t. Qed.

(** [DisableApiTracing] issues calls on the subscription only, none when
    API tracing is off, and clears the flag. *)
Lemma DisableApiTracing_spec cupti t st t' es :
  DisableApiTracing cupti t = Some (st, t', es) →
  t' = with_api_tracing_enabled_ false t
  ∧ Forall (λ e, effect_kind e = ApiTracingEffect) es
  ∧ (api_tracing_enabled_ t = false → st = OkStatus ∧ t' = t ∧ es = []).
Proof.
  unfold DisableApiTracing.
  destruct (api_tracing_enabled_ t) eqn:Hflag; simpl.
  - pose proof (cupti_calls_kinds cupti
                  ((λ c, Checked (EnableResourceCallback false c))
                     <$> GetCudaGraphTracingResourceCbids) ApiTracingEffect
                  ltac:(apply Forall_fmap, Forall_true; by intros ?)) as H1.
    destruct (cupti_calls cupti _) as [st1 es1]. simpl in H1.
    destruct (ok st1); simpl.
    + destruct (option_ t) as [o|]; [|done].
      assert (Forall (λ s, call_kind (step_call s) = ApiTracingEffect)
                match cbids_selected o with
                | [] => [Checked (EnableDomain false CUPTI_CB_DOMAIN_DRIVER_API)]
                | c :: l =>
                    (λ c, Checked (EnableDriverCallback false c)) <$> c :: l
                end) as Hsteps.
      { destruct (cbids_selected o); [by repeat constructor|].
        apply Forall_fmap, Forall_true. by intros c'. }
      pose proof (cupti_calls_kinds cupti _ ApiTracingEffect Hsteps) as H2.
      destruct (cupti_calls cupti _) as [st2 es2]. simpl in H2.
      destruct (ok st2); simpl.
      * pose proof (cupti_calls_kinds cupti [Checked Unsubscribe]
                      ApiTracingEffect ltac:(by repeat constructor)) as H3.
        destruct (cupti_calls cupti [Checked Unsubscribe]) as [st3 es3].
        simpl in H3. intros Heq. injection Heq as <- <- <-.
        split; [done|]. split; [|done]. by rewrite !Forall_app.
      * intros Heq. injection Heq as <- <- <-.
        split; [done|]. split; [|done]. by rewrite Forall_app.
    + intros Heq. injection Heq as <- <- <-. done.
  - intros Heq. injection Heq as <- <- <-.
    split; [by rewrite <- Hflag, with_api_tracing_enabled_id|].
    split; [by constructor|done].
Qed.

Lemma disable_activity_steps_kinds activities :
  Forall (λ s, call_kind (step_call s) = ActivityTracingEffect)
    (mjoin (disable_activity_steps <$> activities)).
Proof.
  induction activities as [|a rest IH]; [by constructor|].
  simpl. apply Forall_app. split; [|done].
  unfold disable_activity_steps. repeat case_decide; by repeat constructor.
Qed.

(** [DisableActivityTracing] issues calls on the activity capture only,
    none when activity tracing is off; it leaves the collector, the hook
    and the other flags alone and keeps the options attached. *)
Lemma DisableActivityTracing_spec cupti t st t' es :
  DisableActivityTracing cupti t = Some (st, t', es) →
  Forall (λ e, effect_kind e = ActivityTracingEffect) es
  ∧ (activity_tracing_enabled_ t = false → st = OkStatus ∧ t' = t ∧ es = [])
  ∧ collector_ t' = collector_ t
  ∧ cupti_driver_api_hook_ t' = cupti_driver_api_hook_ t
  ∧ (is_Some (option_ t) → is_Some (option_ t'))
  ∧ ((cupti_finalize <$> option_ t') = (cupti_finalize <$> option_ t))
  ∧ api_tracing_enabled_ t' = api_tracing_enabled_ t
  ∧ pm_sampling_enabled_ t' = pm_sampling_enabled_ t.
Proof.
  unfold DisableActivityTracing.
  destruct (activity_tracing_enabled_ t) eqn:Hflag; simpl.
  - destruct (option_ t) as [o|] eqn:Ho; [|done].
    pose proof (cupti_calls_kinds cupti _ ActivityTracingEffect
                  (disable_activity_steps_kinds (activities_selected o)))
      as H1.
    destruct (cupti_calls cupti _) as [st1 es1]. simpl in H1.
    destruct (ok st1); simpl.
    + pose proof (cupti_calls_kinds cupti [Checked (ActivityFlushAll true)]
                    ActivityTracingEffect ltac:(by repeat constructor)) as H2.
      destruct (cupti_calls cupti [Checked (ActivityFlushAll true)])
        as [st2 es2]. simpl in H2.
      destruct (ok st2); simpl; intros Heq; injection Heq as <- <- <-;
        simpl; rewrite Forall_app; repeat split; try done; eauto.
    + intros Heq. injection Heq as <- <- <-. rewrite Ho. simpl.
      repeat split; try done; eauto.
  - intros Heq. injection Heq as <- <- <-.
    rewrite <- Hflag, with_activity_tracing_enabled_id.
    split; [by constructor|]. done.
Qed.

Lemma Finalize_spec cupti t st t' es :
  Finalize cupti t = Some (st, t', es) →
  t' = t ∧ Forall (λ e, effect_kind e = OtherEffect) es.
Proof.
  unfold Finalize. destruct (option_ t) as [o|]; [|done].
  destruct (cupti_finalize o).
  - pose proof (cupti_calls_kinds cupti [Checked CuptiFinalize] OtherEffect
                  ltac:(by repeat constructor)) as H.
    destruct (cupti_calls cupti [Checked CuptiFinalize]) as [st1 es1].
    simpl in H. intros Heq. by injection Heq as <- <- <-.
  - intros Heq. injection Heq as <- <- <-. split; [done|by constructor].
Qed.

Lemma SyncAndFlush_kinds h :
  Forall (λ e, effect_kind e = OtherEffect)
    (CuptiDriverApiHookWithActivityApi.SyncAndFlush h).
Proof.
  unfold CuptiDriverApiHookWithActivityApi.SyncAndFlush.
  destruct (sync_devices_before_stop (hook_option_ h)); [|by constructor].
  apply Forall_fmap, Forall_true. by intros c.
Qed.

Lemma with_pm_sampling_enabled_id (t : CuptiTracer) :
  with_pm_sampling_enabled_ (pm_sampling_enabled_ t) t = t.
Proof. by destruct t. Qed.

(** The tail of [Disable] detaches the collector, the options and the
    hook, delivers no callback data and ends with the flush. *)
Lemma Disable_deliver_activity_spec t :
  collector_ (Disable_deliver_activity t).1 = None
  ∧ option_ (Disable_deliver_activity t).1 = None
  ∧ cupti_driver_api_hook_ (Disable_deliver_activity t).1 = None
  ∧ Forall (λ c, is_callback_data c = false)
      (collector_calls (Disable_deliver_activity t).2)
  ∧ CollectorFlush ∈ collector_calls (Disable_deliver_activity t).2.
Proof.
  unfold Disable_deliver_activity.
  destruct (activity_buffers_ t) as [m|]; simpl;
    repeat match goal with
           | |- context [(0 <? ?x)%N] => destruct (0 <? x)%N
           end; simpl;
    (split; [done|]); (split; [done|]); (split; [done|]);
    (split; [by repeat constructor|]); set_solver.
Qed.

(** Shifting a kind hypothesis on a list of effects to a different kind. *)
Lemma Forall_kind_ne (k k' : EffectKind) (es : list Effect) :
  k ≠ k' →
  Forall (λ e, effect_kind e = k) es → Forall (λ e, effect_kind e ≠ k') es.
Proof.
  intros Hne Hall. eapply Forall_impl; [exact Hall|]. by intros e ->.
Qed.

(** The shape of what [Disable] emits: first the disabling steps, none
    of them a call on the collector and each one kept to the sub-state that
    is on; then the end time and the callback data; then the tail. *)
Lemma Disable_effects cupti t reg t' reg' es :
  Disable cupti t reg = Some (t', reg', es) →
  ∃ pre t5,
    es = pre
         ++ [Collector (SetTracingEndTimeNs (GetTimestamp cupti));
             Collector (OnTracerCollectedCallbackData
                          (GatherCallbackAnnotationsAndEvents true reg).1
                          (IsCallbackApiEventsRequired t5))]
         ++ (Disable_deliver_activity t5).2
    ∧ t' = (Disable_deliver_activity t5).1
    ∧ reg' = (GatherCallbackAnnotationsAndEvents true reg).2
    ∧ is_Some (collector_ t)
    ∧ Forall (λ e, effect_kind e ≠ CollectorEffect) pre
    ∧ (pm_sampling_enabled_ t = false →
       Forall (λ e, effect_kind e ≠ PmSamplingEffect) pre)
    ∧ (api_tracing_enabled_ t = false →
       Forall (λ e, effect_kind e ≠ ApiTracingEffect) pre)
    ∧ (activity_tracing_enabled_ t = false →
       Forall (λ e, effect_kind e ≠ ActivityTracingEffect) pre).
Proof.
  unfold Disable. intros Hrun.
  set (step1 := if pm_sampling_enabled_ t
                then if pm_sampler_ t
                     then Some (with_pm_sampling_enabled_ false t,
                                [PmStopSampler; PmDeinitialize])
                     else None
                else Some (t, [])) in Hrun.
  destruct step1 as [[t1 es1]|] eqn:H1; [|done]. subst step1.
  assert (t1 = with_pm_sampling_enabled_ false t
          ∧ Forall (λ e, effect_kind e = PmSamplingEffect) es1
          ∧ (pm_sampling_enabled_ t = false → es1 = [])) as (-> & Hk1 & Hoff1).
  { destruct (pm_sampling_enabled_ t) eqn:Hpm.
    - destruct (pm_sampler_ t); [|done]. injection H1 as <- <-.
      split; [done|]. split; [by repeat constructor|done].
    - injection H1 as <- <-.
      split; [by rewrite <- Hpm, with_pm_sampling_enabled_id|].
      split; [by constructor|done]. }
  cbn [mbind option_bind] in Hrun.
  destruct (DisableApiTracing cupti _) as [[[st2 t2] es2]|] eqn:H2; [|done].
  apply DisableApiTracing_spec in H2 as (-> & Hk2 & Hoff2).
  cbn [mbind option_bind] in Hrun.
  destruct (DisableActivityTracing cupti _) as [[[st3 t3] es3]|] eqn:H3;
    [|done].
  apply DisableActivityTracing_spec in H3
    as (Hk3 & Hoff3 & Hc3 & Hh3 & _ & _ & _ & _).
  cbn [mbind option_bind] in Hrun.
  destruct (Finalize cupti t3) as [[[st5 t5] es5]|] eqn:H5; [|done].
  apply Finalize_spec in H5 as (-> & Hk5).
  cbn [mbind option_bind] in Hrun.
  destruct (cupti_driver_api_hook_ t3) as [h|]; [|done].
  cbn [mbind option_bind] in Hrun.
  destruct (collector_ t3) as [copts|] eqn:Hc; [|done].
  cbn [mbind option_bind] in Hrun.
  destruct (GatherCallbackAnnotationsAndEvents true reg) as [batches reg1]
    eqn:Hg.
  destruct (Disable_deliver_activity t3) as [t9 es9] eqn:H9.
  injection Hrun as <- <- <-.
  pose proof (SyncAndFlush_kinds h) as Hk6.
  exists (es1 ++ es2 ++ es3 ++ [Vendor CleanUp] ++ es5
          ++ CuptiDriverApiHookWithActivityApi.SyncAndFlush h), t3.
  rewrite H9. cbn [fst snd].
  split; [rewrite <- !app_assoc; reflexivity|]. split; [done|]. split; [done|].
  split; [simpl in Hc3; by rewrite <- Hc3|].
  assert (Forall (λ e, effect_kind e = OtherEffect) [Vendor CleanUp]) as Hk4
    by by repeat constructor.
  split; [|split; [|split]].
  - rewrite !Forall_app. repeat split;
      by eapply Forall_kind_ne; [|eassumption].
  - intros Hoff. rewrite (Hoff1 Hoff). rewrite !Forall_app.
    repeat split; try by constructor.
    all: by eapply Forall_kind_ne; [|eassumption].
  - intros Hoff. destruct (Hoff2 Hoff) as (_ & _ & ->). rewrite !Forall_app.
    repeat split; try by constructor.
    all: by eapply Forall_kind_ne; [|eassumption].
  - intros Hoff. destruct (Hoff3 Hoff) as (_ & _ & ->). rewrite !Forall_app.
    repeat split; try by constructor.
    all: by eapply Forall_kind_ne; [|eassumption].
Qed.

(** With the options attached every disabling step has a result. *)
Lemma DisableApiTracing_total cupti t :
  is_Some (option_ t) → is_Some (DisableApiTracing cupti t).
Proof.
  intros [o Ho]. unfold DisableApiTracing.
  destruct (api_tracing_enabled_ t); simpl; [|by eexists].
  destruct (cupti_calls cupti _) as [st1 es1].
  destruct (ok st1); simpl; [|by eexists].
  rewrite Ho. destruct (cupti_calls cupti _) as [st2 es2].
  destruct (ok st2); simpl; [|by eexists].
  destruct (cupti_calls cupti _) as [st3 es3]. by eexists.
Qed.

Lemma DisableActivityTracing_total cupti t :
  is_Some (option_ t) → is_Some (DisableActivityTracing cupti t).
Proof.
  intros [o Ho]. unfold DisableActivityTracing.
  destruct (activity_tracing_enabled_ t); simpl; [|by eexists].
  rewrite Ho. destruct (cupti_calls cupti _) as [st1 es1].
  destruct (ok st1); simpl; [|by eexists].
  destruct (cupti_calls cupti _) as [st2 es2].
  destruct (ok st2); simpl; by eexists.
Qed.

Lemma Finalize_total cupti t :
  is_Some (option_ t) → is_Some (Finalize cupti t).
Proof.
  intros [o Ho]. unfold Finalize. rewrite Ho.
  destruct (cupti_finalize o); [|by eexists].
  destruct (cupti_calls cupti _) as [st1 es1]. by eexists.
Qed.

(** [Disable] has a result on a tracer that has its options, hook and
    collector attached (and its sampler, if sampling is on). *)
Lemma Disable_total cupti t reg :
  is_Some (option_ t) →
  is_Some (cupti_driver_api_hook_ t) →
  is_Some (collector_ t) →
  (pm_sampling_enabled_ t = true → pm_sampler_ t = true) →
  is_Some (Disable cupti t reg).
Proof.
  intros Ho Hh Hc Hpm. unfold Disable.
  set (step1 := if pm_sampling_enabled_ t
                then if pm_sampler_ t
                     then Some (with_pm_sampling_enabled_ false t,
                                [PmStopSampler; PmDeinitialize])
                     else None
                else Some (t, [])).
  assert (∃ es1, step1 = Some (with_pm_sampling_enabled_ false t, es1))
    as [es1 ->].
  { subst step1. destruct (pm_sampling_enabled_ t) eqn:Hflag.
    - rewrite Hpm by done. by eexists.
    - exists []. do 2 f_equal.
      by rewrite <- Hflag, with_pm_sampling_enabled_id. }
  cbn [mbind option_bind].
  destruct (DisableApiTracing_total cupti (with_pm_sampling_enabled_ false t)
              Ho) as [[[st2 t2] es2] H2].
  rewrite H2. cbn [mbind option_bind].
  apply DisableApiTracing_spec in H2 as (-> & _ & _).
  destruct (DisableActivityTracing_total cupti
              (with_api_tracing_enabled_ false
                 (with_pm_sampling_enabled_ false t)) Ho)
    as [[[st3 t3] es3] H3].
  rewrite H3. cbn [mbind option_bind].
  apply DisableActivityTracing_spec in H3
    as (_ & _ & Hc3 & Hh3 & Ho3 & _ & _ & _).
  destruct (Finalize_total cupti t3 (Ho3 Ho)) as [[[st5 t5] es5] H5].
  rewrite H5. cbn [mbind option_bind].
  apply Finalize_spec in H5 as (-> & _).
  destruct Hh as [h Hh]. destruct Hc as [c Hc]. simpl in Hc3, Hh3.
  rewrite Hh3, Hh, Hc3, Hc. cbn [mbind option_bind].
  destruct (GatherCallbackAnnotationsAndEvents true reg) as [batches reg1].
  destruct (Disable_deliver_activity t3) as [t9 es9]. by eexists.
Qed.

(** Without a collector attached [Disable] has no result. *)
Lemma Disable_without_collector cupti t reg :
  collector_ t = None → Disable cupti t reg = None.
Proof.
  intros Hc. destruct (Disable cupti t reg) as [[[t' reg'] es]|] eqn:Hrun;
    [|done].
  apply Disable_effects in Hrun as (_ & _ & _ & _ & _ & [c Hc'] & _).
  congruence.
Qed.

(** The calls on the collector of a list of effects none of which is
    one. *)
Lemma collector_calls_none es :
  Forall (λ e, effect_kind e ≠ CollectorEffect) es → collector_calls es = [].
Proof.
  induction 1 as [|e es He _ IH]; [done|].
  destruct e; first [exact IH | by destruct He].
Qed.

Lemma collector_calls_app es1 es2 :
  collector_calls (es1 ++ es2) = collector_calls es1 ++ collector_calls es2.
Proof. apply omap_app. Qed.






(** ** Disabling what is enabled *)

(** The tracer of the examples is the one [Enable] makes. *)
Lemma Enable_reaches_active (c : CuptiTracerCollectorOptions) :
  ∃ es,
    Enable 1024 Ex.cupti Ex.pm Ex.options c (CuptiTracer_new 1) Ex.registry
    = Some ((OkStatus, Ex.active c 0, es),
            {| recording := true;
               instances := [CallbackAnnotationsAndEvents_empty] |}).
Proof. by eexists. Qed.

Lemma Disable_deliver_activity_kinds t :
  Forall (λ e, effect_kind e = CollectorEffect ∨ effect_kind e = OtherEffect)
    (Disable_deliver_activity t).2.
Proof.
  unfold Disable_deliver_activity.
  destruct (activity_buffers_ t) as [m|]; simpl;
    repeat match goal with
           | |- context [(0 <? ?x)%N] => destruct (0 <? x)%N
           end; simpl;
    repeat (apply List.Forall_cons; [simpl; auto|]); apply List.Forall_nil.
Qed.

(** C2, as amended.  Each disabling step of [Disable] is guarded by the
    flag of its sub-state: with that sub-state off the step is a no-op, so
    after a partial enable [Disable] stops the sampler, the callback
    subscription and the activity capture only where they are on.
    [Disable] as a whole is not a no-op on a disabled tracer: whenever it
    has a result it has notified the collector of the end time, the callback
    data and the flush, and has detached the collector, the options and the
    hook, so that a second [Disable] in a row has no result; without a
    collector attached it has none either. *)
Theorem Disable_disables_what_is_enabled
  (cupti : CuptiInterface) (t : CuptiTracer) (reg : PerThreadRegistry) :
  (api_tracing_enabled_ t = false →
   DisableApiTracing cupti t = Some (OkStatus, t, []))
  ∧ (activity_tracing_enabled_ t = false →
     DisableActivityTracing cupti t = Some (OkStatus, t, []))
  ∧ (∀ t' reg' es,
       Disable cupti t reg = Some (t', reg', es) →
       (pm_sampling_enabled_ t = false →
        Forall (λ e, effect_kind e ≠ PmSamplingEffect) es)
       ∧ (api_tracing_enabled_ t = false →
          Forall (λ e, effect_kind e ≠ ApiTracingEffect) es)
       ∧ (activity_tracing_enabled_ t = false →
          Forall (λ e, effect_kind e ≠ ActivityTracingEffect) es)
       ∧ (∃ required rest,
            collector_calls es
            = SetTracingEndTimeNs (GetTimestamp cupti)
              :: OnTracerCollectedCallbackData
                   (GatherCallbackAnnotationsAndEvents true reg).1 required
              :: rest
            ∧ CollectorFlush ∈ rest)
       ∧ collector_ t' = None
       ∧ option_ t' = None
       ∧ cupti_driver_api_hook_ t' = None
       ∧ Disable cupti t' reg' = None)
  ∧ (collector_ t = None → Disable cupti t reg = None)
  ∧ (is_Some (option_ t) → is_Some (cupti_driver_api_hook_ t) →
     is_Some (collector_ t) →
     (pm_sampling_enabled_ t = true → pm_sampler_ t = true) →
     is_Some (Disable cupti t reg)).
Proof.
  split; [|split; [|split; [|split]]].
  - intros Hoff. unfold DisableApiTracing. by rewrite Hoff.
  - intros Hoff. unfold DisableActivityTracing. rewrite Hoff.
    by rewrite <- Hoff, with_activity_tracing_enabled_id.
  - intros t' reg' es Hrun.
    apply Disable_effects in Hrun
      as (pre & t5 & -> & -> & -> & _ & Hpre & Hpm & Hapi & Hact).
    destruct (Disable_deliver_activity_spec t5)
      as (Hc & Ho & Hh & _ & Hflush).
    pose proof (Disable_deliver_activity_kinds t5) as Htail.
    assert (∀ k, k ≠ CollectorEffect → k ≠ OtherEffect →
                 Forall (λ e, effect_kind e ≠ k) pre →
                 Forall (λ e, effect_kind e ≠ k)
                   (pre
                    ++ [Collector (SetTracingEndTimeNs (GetTimestamp cupti));
                        Collector
                          (OnTracerCollectedCallbackData
                             (GatherCallbackAnnotationsAndEvents true reg).1
                             (IsCallbackApiEventsRequired t5))]
                    ++ (Disable_deliver_activity t5).2)) as Hall.
    { intros k Hk1 Hk2 Hk. rewrite !Forall_app. split; [done|].
      split; [by repeat constructor|].
      eapply Forall_impl; [exact Htail|]. intros e [-> | ->]; done. }
    split; [intros; by apply Hall, Hpm|].
    split; [intros; by apply Hall, Hapi|].
    split; [intros; by apply Hall, Hact|].
    split.
    + rewrite !collector_calls_app, (collector_calls_none pre Hpre).
      by eexists _, _.
    + split; [done|]. split; [done|]. split; [done|].
      by apply Disable_without_collector.
  - apply Disable_without_collector.
  - apply Disable_total.
Qed.

(** After an [Enable] whose activity capture failed, [Disable] undoes
    the subscription and issues no activity or sampler call. *)
Lemma Disable_disables_what_is_enabled_witness :
  ∃ st t1 es1 reg1 t2 reg2 es2,
    Enable 1024 Ex.cupti_no_activity Ex.pm Ex.options (Ex.collector 0 0 0)
      (CuptiTracer_new 1) Ex.registry = Some ((st, t1, es1), reg1)
    ∧ api_tracing_enabled_ t1 = true
    ∧ activity_tracing_enabled_ t1 = false
    ∧ Disable Ex.cupti_no_activity t1 reg1 = Some (t2, reg2, es2)
    ∧ Forall (λ e, effect_kind e ≠ ActivityTracingEffect) es2
    ∧ Forall (λ e, effect_kind e ≠ PmSamplingEffect) es2
    ∧ Vendor Unsubscribe ∈ es2
    ∧ Disable Ex.cupti_no_activity t2 reg2 = None.
Proof.
  eexists _, _, _, _, _, _, _.
  split; [vm_compute; reflexivity|].
  split; [reflexivity|]. split; [reflexivity|].
  match goal with
  | |- Disable ?c ?t ?r = Some (?t', ?r', ?es) ∧ _ =>
      assert (Disable c t r = Some (t', r', es)) as Hrun
        by (vm_compute; reflexivity);
      destruct (proj1 (proj2 (proj2
                  (Disable_disables_what_is_enabled c t r))) _ _ _ Hrun)
        as (Hpm & _ & Hact & _ & _ & _ & _ & Hagain)
  end.
  split; [exact Hrun|].
  split; [apply Hact; reflexivity|].
  split; [apply Hpm; reflexivity|].
  split; [|exact Hagain].
  vm_compute. do 6 right. left.
Defined.

(** C2 as stated fails.  After an [Enable] that could not subscribe,
    every sub-state of the tracer is off, and [Disable] still notifies the
    collector three times; and a second [Disable] right after it has no
    result, for the collector is no longer attached. *)
Lemma Disable_when_disabled_counterexample :
  ∃ st t1 es1 reg1 t2 reg2 es2,
    Enable 1024 Ex.cupti_no_subscribe Ex.pm Ex.options (Ex.collector 0 0 0)
      (CuptiTracer_new 1) Ex.registry = Some ((st, t1, es1), reg1)
    ∧ api_tracing_enabled_ t1 = false
    ∧ activity_tracing_enabled_ t1 = false
    ∧ pm_sampling_enabled_ t1 = false
    ∧ Disable Ex.cupti_no_subscribe t1 reg1 = Some (t2, reg2, es2)
    ∧ collector_calls es2
      = [SetTracingEndTimeNs 1000;
         OnTracerCollectedCallbackData [CallbackAnnotationsAndEvents_empty]
           true;
         CollectorFlush]
    ∧ Disable Ex.cupti_no_subscribe t2 reg2 = None.
Proof.
  eexists _, _, _, _, _, _, _.
  split; [vm_compute; reflexivity|].
  split; [reflexivity|]. split; [reflexivity|]. split; [reflexivity|].
  split; [vm_compute; reflexivity|].
  split; [vm_compute; reflexivity|].
  vm_compute. reflexivity.
Qed.

(** * Further properties *)

(** ** Graph resource tracking *)

(** X1.  A node-created notification files the new node under origin 0
    and a node-cloned notification files it under its origin's id,
    overwriting what the map held for that node and nothing else; when the
    vendor cannot tell the node's id the entry is filed under id 0.  Node
    notifications leave the graph ids alone, graph notifications leave the
    node map alone, and a graph-created notification resets the origin graph
    id to 0. *)
Theorem HandleResourceCallback_node_map
  (cupti : CuptiInterface) (graph_data : CUpti_GraphData)
  (graph_id_info : GraphResourceCreationInfo) :
  let created :=
    HandleResourceCallback cupti CUPTI_CBID_RESOURCE_GRAPHNODE_CREATED
      graph_data graph_id_info in
  let cloned :=
    HandleResourceCallback cupti CUPTI_CBID_RESOURCE_GRAPHNODE_CLONED
      graph_data graph_id_info in
  let k := default 0%N (GetGraphNodeId cupti (node graph_data)) in
  let o := default 0%N (GetGraphNodeId cupti (originalNode graph_data)) in
  node_id_map created !! k = Some 0%N
  ∧ node_id_map cloned !! k = Some o
  ∧ (∀ k', k' ≠ k →
       node_id_map created !! k' = node_id_map graph_id_info !! k'
       ∧ node_id_map cloned !! k' = node_id_map graph_id_info !! k')
  ∧ gi_graph_id created = gi_graph_id graph_id_info
  ∧ gi_orig_graph_id created = gi_orig_graph_id graph_id_info
  ∧ gi_graph_id cloned = gi_graph_id graph_id_info
  ∧ gi_orig_graph_id cloned = gi_orig_graph_id graph_id_info
  ∧ (∀ c, c = CUPTI_CBID_RESOURCE_GRAPH_CREATED
          ∨ c = CUPTI_CBID_RESOURCE_GRAPH_CLONED
          ∨ c = CUPTI_CBID_RESOURCE_GRAPHEXEC_CREATED →
          node_id_map (HandleResourceCallback cupti c graph_data graph_id_info)
          = node_id_map graph_id_info)
  ∧ gi_orig_graph_id
      (HandleResourceCallback cupti CUPTI_CBID_RESOURCE_GRAPH_CREATED
         graph_data graph_id_info) = 0%N.
Proof.
  simpl. split; [apply lookup_insert_eq|]. split; [apply lookup_insert_eq|].
  split; [intros k' Hne; by rewrite !lookup_insert_ne|].
  do 4 (split; [done|]). split; [|done].
  by intros c [-> | [-> | ->]].
Qed.

(** A node created and then reported as a clone: the origin replaces
    the 0. *)
Lemma HandleResourceCallback_node_map_witness :
  node_id_map
    (HandleResourceCallback Ex.cupti CUPTI_CBID_RESOURCE_GRAPHNODE_CLONED
       (Ex2.graph_data 8 5)
       (HandleResourceCallback Ex.cupti CUPTI_CBID_RESOURCE_GRAPHNODE_CREATED
          (Ex2.graph_data 8 0) GraphResourceCreationInfo_zero)) !! 8%N
  = Some 5%N.
Proof.
  exact (proj1 (proj2 (HandleResourceCallback_node_map Ex.cupti
                         (Ex2.graph_data 8 5)
                         (HandleResourceCallback Ex.cupti
                            CUPTI_CBID_RESOURCE_GRAPHNODE_CREATED
                            (Ex2.graph_data 8 0)
                            GraphResourceCreationInfo_zero)))).
Defined.

(** ** What a callback exit appends *)

(** An exit within the ceiling: the count goes up, the scope ranges are
    recorded, the setter of the identifier runs and its event is pushed. *)
Lemma add_exit_accepted cupti tracer th call :
  TooManyCallbackEvents tracer = false →
  add_exit cupti tracer th call
  = match SetCallbackEventUponApiExit cupti (IncCallbackEventCount tracer)
            (ec_device_id call) (ec_cbid call) (ec_cbdata call)
            (ec_start_tsc call) (ec_end_tsc call) (current_thread_id th)
            (exit_event0 (ec_cbdata call) th) (per_thread_graph_info th)
            (GuardedCallbackAnnotationsAndEvents.AddScopeRangeIdSequence
               (AnnotationStack_GetScopeRangeIds th)
               (annotations_and_events_ th)) with
    | None => None
    | Some (event', graph_id_info', guarded2) =>
        Some (OkStatus, IncCallbackEventCount tracer,
              with_graph_and_events graph_id_info'
                (GuardedCallbackAnnotationsAndEvents.Push
                   (IncCallbackEventCount tracer) event' guarded2) th)
    end.
Proof.
  intros Hroom. unfold add_exit, AddDriverApiCallbackEvent. by rewrite Hroom.
Qed.

(** The graph setter on an identifier that is neither a clone nor an
    instantiate-with-flags: one event, no push. *)
Lemma SetCudaGraphEventUponApiExit_plain
  cupti tracer d c cb st et tid event gi guarded :
  ¬ (c = cuGraphClone ∨ c = cuGraphInstantiateWithFlags) →
  SetCudaGraphEventUponApiExit cupti tracer d c cb st et tid event gi guarded
  = (graph_level_event d c cb st et tid event (after_launch_step cupti c cb gi)
       (graph_node_id event) (orig_graph_node_id (cuda_graph_info event)),
     after_launch_step cupti c cb gi, guarded).
Proof.
  intros Hplain. unfold SetCudaGraphEventUponApiExit, after_launch_step.
  rewrite (decide_False (P := c = cuGraphClone
                              ∨ c = cuGraphInstantiateWithFlags)) by done.
  done.
Qed.

Lemma is_plain_graph_exit_not_clone c :
  is_plain_graph_exit c = true →
  ¬ (c = cuGraphClone ∨ c = cuGraphInstantiateWithFlags).
Proof. intros Hc [-> | ->]; discriminate Hc. Qed.

(** X3.  The exit of cuGraphCreate, of cuGraphLaunch and of every
    cuGraphInstantiate other than the with-flags one, within the event
    ceiling, appends exactly one graph-level event and synthesises no
    node-map event; the pending node mappings stay in the thread's map.  A
    launch takes the graph id from the vendor's id of the launched
    executable graph (keeping the old id when the vendor fails) and resets
    the origin graph id to 0; the others report the ids last recorded by the
    resource notifications. *)
Theorem plain_graph_exit_appends_one_event
  (cupti : CuptiInterface) (tracer : CuptiTracer) (th : ThreadLocal)
  (call : ExitCall) :
  TooManyCallbackEvents tracer = false →
  is_plain_graph_exit (ec_cbid call) = true →
  let g := per_thread_graph_info th in
  let g1 := after_launch_step cupti (ec_cbid call) (ec_cbdata call) g in
  ∃ th' e,
    add_exit cupti tracer th call
    = Some (OkStatus, IncCallbackEventCount tracer, th')
    ∧ event_queue (annotations_and_events_ th')
      = event_queue (annotations_and_events_ th) ++ [e]
    ∧ type e = CuptiTracerEventType.CudaGraph
    ∧ graph_id e = gi_graph_id g1
    ∧ orig_graph_id (cuda_graph_info e) = gi_orig_graph_id g1
    ∧ graph_node_id e = 0%N
    ∧ per_thread_graph_info th' = g1
    ∧ node_id_map g1 = node_id_map g
    ∧ (ec_cbid call = cuGraphLaunch ∨ ec_cbid call = cuGraphLaunch_ptsz →
       gi_orig_graph_id g1 = 0%N
       ∧ gi_graph_id g1
         = default (gi_graph_id g)
             (GetGraphExecId cupti (hGraph (ec_cbdata call))))
    ∧ (¬ (ec_cbid call = cuGraphLaunch ∨ ec_cbid call = cuGraphLaunch_ptsz) →
       g1 = g).
Proof.
  intros Hroom Hplain g g1. subst g1 g.
  assert (SetCallbackEventUponApiExit cupti (IncCallbackEventCount tracer)
            (ec_device_id call) (ec_cbid call) (ec_cbdata call)
            (ec_start_tsc call) (ec_end_tsc call) (current_thread_id th)
            (exit_event0 (ec_cbdata call) th) (per_thread_graph_info th)
            (GuardedCallbackAnnotationsAndEvents.AddScopeRangeIdSequence
               (AnnotationStack_GetScopeRangeIds th)
               (annotations_and_events_ th))
          = Some (SetCudaGraphEventUponApiExit cupti
                    (IncCallbackEventCount tracer)
                    (ec_device_id call) (ec_cbid call) (ec_cbdata call)
                    (ec_start_tsc call) (ec_end_tsc call)
                    (current_thread_id th)
                    (exit_event0 (ec_cbdata call) th)
                    (per_thread_graph_info th)
                    (GuardedCallbackAnnotationsAndEvents.AddScopeRangeIdSequence
                       (AnnotationStack_GetScopeRangeIds th)
                       (annotations_and_events_ th)))) as Hset.
  { unfold SetCallbackEventUponApiExit.
    destruct (ec_cbid call); try discriminate Hplain; reflexivity. }
  rewrite add_exit_accepted, Hset by done.
  rewrite SetCudaGraphEventUponApiExit_plain
    by by apply is_plain_graph_exit_not_clone.
  eexists _, _. split; [reflexivity|].
  cbn [annotations_and_events_ per_thread_graph_info with_graph_and_events].
  rewrite Push_event_queue, AddScopeRangeIdSequence_event_queue.
  split; [reflexivity|].
  split; [by destruct (TooManyAnnotationStrings _ _)|].
  split; [by destruct (TooManyAnnotationStrings _ _)|].
  split; [by destruct (TooManyAnnotationStrings _ _)|].
  split; [by destruct (TooManyAnnotationStrings _ _)|].
  split; [done|].
  unfold after_launch_step.
  case_decide as Hlaunch; simpl; (split; [done|]); split; done.
Qed.

(** A launch of executable graph 9 on the thread with two pending node
    mappings. *)
Lemma plain_graph_exit_appends_one_event_witness :
  ∃ th' e,
    add_exit Ex.cupti (Ex.attached (Ex.collector 0 0 0)) Ex.thread_two_nodes
      (Ex2.launch_call 9)
    = Some (OkStatus,
            IncCallbackEventCount (Ex.attached (Ex.collector 0 0 0)), th')
    ∧ event_queue (annotations_and_events_ th') = [e]
    ∧ graph_id e = 9%N
    ∧ orig_graph_id (cuda_graph_info e) = 0%N
    ∧ size (node_id_map (per_thread_graph_info th')) = 2.
Proof.
  destruct (plain_graph_exit_appends_one_event Ex.cupti
              (Ex.attached (Ex.collector 0 0 0)) Ex.thread_two_nodes
              (Ex2.launch_call 9) eq_refl eq_refl)
    as (th' & e & Hrun & Hq & _ & Hid & Horig & _ & Hg & _ & _ & _).
  exists th', e. split; [exact Hrun|]. split; [exact Hq|].
  split; [rewrite Hid; reflexivity|]. split; [rewrite Horig; reflexivity|].
  rewrite Hg. reflexivity.
Defined.



(** ** Node notifications and node exits together *)

(** X2.  A node notification followed by the exit of the cuGraphAdd call
    that caused it: starting from an empty node map and within the event
    ceiling, the exit appends exactly one graph event, which carries the id
    the vendor gave the new node (0 when the vendor failed) and, as origin
    node, 0 for a created node and the id of the original node for a cloned
    one; the exit leaves the node map empty again. *)
Theorem node_notification_then_add_exit
  (cupti : CuptiInterface) (tracer : CuptiTracer) (th : ThreadLocal)
  (call : ExitCall) (graph_data : CUpti_GraphData) (cloned : bool) :
  TooManyCallbackEvents tracer = false →
  is_cuGraphAdd (ec_cbid call) = true →
  node_id_map (per_thread_graph_info th) = ∅ →
  let notification :=
    if cloned then CUPTI_CBID_RESOURCE_GRAPHNODE_CLONED
    else CUPTI_CBID_RESOURCE_GRAPHNODE_CREATED in
  let g := HandleResourceCallback cupti notification graph_data
             (per_thread_graph_info th) in
  ∃ th' e,
    add_exit cupti tracer (with_graph_info g th) call
    = Some (OkStatus, IncCallbackEventCount tracer, th')
    ∧ event_queue (annotations_and_events_ th')
      = event_queue (annotations_and_events_ th) ++ [e]
    ∧ type e = CuptiTracerEventType.CudaGraph
    ∧ graph_node_id e = default 0%N (GetGraphNodeId cupti (node graph_data))
    ∧ orig_graph_node_id (cuda_graph_info e)
      = (if cloned
         then default 0%N (GetGraphNodeId cupti (originalNode graph_data))
         else 0%N)
    ∧ graph_id e = gi_graph_id (per_thread_graph_info th)
    ∧ node_id_map (per_thread_graph_info th') = ∅.
Proof.
  intros Hroom Hadd Hempty notification g.
  set (k := default 0%N (GetGraphNodeId cupti (node graph_data))).
  set (o := if cloned
            then default 0%N (GetGraphNodeId cupti (originalNode graph_data))
            else 0%N).
  assert (map_to_list (node_id_map g) = [(k, o)]) as Hlist.
  { subst g notification k o. destruct cloned; simpl;
      rewrite Hempty, insert_empty; apply map_to_list_singleton. }
  assert (gi_graph_id g = gi_graph_id (per_thread_graph_info th)) as Hgid
    by (subst g notification; by destruct cloned).
  rewrite add_exit_accepted by done.
  cbn [with_graph_info per_thread_graph_info annotations_and_events_
       with_graph_and_events current_thread_id AnnotationStack_GetScopeRangeIds].
  unfold with_graph_info.
  cbn [per_thread_graph_info annotations_and_events_
       with_graph_and_events current_thread_id AnnotationStack_GetScopeRangeIds].
  assert (∀ tr d c cb st et tid event guarded,
            is_cuGraphAdd c = true →
            SetCallbackEventUponApiExit cupti tr d c cb st et tid event g guarded
            = Some (graph_level_event d c cb st et tid event g k o,
                    {| gi_graph_id := gi_graph_id g;
                       gi_orig_graph_id := gi_orig_graph_id g;
                       node_id_map := ∅ |}, guarded)) as Hset.
  { intros tr d c cb st et tid event guarded Hc.
    unfold SetCallbackEventUponApiExit, SetCudaGraphNodeEventUponApiExit.
    rewrite Hlist. destruct c; try discriminate Hc; reflexivity. }
  rewrite Hset by done.
  eexists _, _. split; [reflexivity|].
  cbn [annotations_and_events_ per_thread_graph_info with_graph_and_events].
  rewrite Push_event_queue, AddScopeRangeIdSequence_event_queue.
  split; [reflexivity|].
  split; [by destruct (TooManyAnnotationStrings _ _)|].
  split; [by destruct (TooManyAnnotationStrings _ _)|].
  split; [by destruct (TooManyAnnotationStrings _ _)|].
  split; [by destruct (TooManyAnnotationStrings _ _)|].
  done.
Qed.

(** Node 8 cloned from node 5, then the exit of cuGraphAddKernelNode. *)
Lemma node_notification_then_add_exit_witness :
  ∃ th' e,
    add_exit Ex.cupti (Ex.attached (Ex.collector 0 0 0))
      (with_graph_info
         (HandleResourceCallback Ex.cupti CUPTI_CBID_RESOURCE_GRAPHNODE_CLONED
            (Ex2.graph_data 8 5) (per_thread_graph_info Ex.thread))
         Ex.thread)
      (Ex.exit_call cuGraphAddKernelNode "cuGraphAddKernelNode")
    = Some (OkStatus,
            IncCallbackEventCount (Ex.attached (Ex.collector 0 0 0)), th')
    ∧ event_queue (annotations_and_events_ th') = [e]
    ∧ graph_node_id e = 8%N
    ∧ orig_graph_node_id (cuda_graph_info e) = 5%N
    ∧ node_id_map (per_thread_graph_info th') = ∅.
Proof.
  destruct (node_notification_then_add_exit Ex.cupti
              (Ex.attached (Ex.collector 0 0 0)) Ex.thread
              (Ex.exit_call cuGraphAddKernelNode "cuGraphAddKernelNode")
              (Ex2.graph_data 8 5) true eq_refl eq_refl eq_refl)
    as (th' & e & Hrun & Hq & _ & Hk & Ho & _ & Hmap).
  exists th', e. split; [exact Hrun|]. split; [exact Hq|].
  split; [rewrite Hk; reflexivity|]. split; [rewrite Ho; reflexivity|].
  exact Hmap.
Defined.

(** ** The identity of the events of a callback exit *)

Lemma from_callback_stored cbdata th e :
  from_callback cbdata th e →
  from_callback cbdata th (strip_annotations e).
Proof.
  intros (? & ? & ? & ? & ? & ? & ?). unfold from_callback. simpl. auto 10.
Qed.

Lemma Push_appends tracer e guarded :
  event_queue (GuardedCallbackAnnotationsAndEvents.Push tracer e guarded)
  = event_queue guarded
    ++ [if TooManyAnnotationStrings tracer (NumAnnotations guarded)
        then strip_annotations e else e].
Proof.
  rewrite Push_event_queue.
  by destruct (TooManyAnnotationStrings tracer (NumAnnotations guarded)).
Qed.

(** The events pushed by the node-map loop all satisfy what every
    [node_map_event] satisfies, when storing keeps it. *)
Lemma node_map_loop_Forall (P : CuptiTracerEvent → Prop)
  tracer d c cb tid entries event gi st guarded :
  (∀ k o, P (node_map_event d c cb tid event gi st k o)) →
  (∀ e, P e → P (strip_annotations e)) →
  ∃ pushed,
    event_queue (node_map_loop tracer d c cb tid entries event gi st guarded)
    = event_queue guarded ++ pushed
    ∧ Forall P pushed.
Proof.
  intros Hevent Hstrip. revert guarded.
  induction entries as [|[k o] rest IH]; intros guarded; simpl.
  - exists []. by rewrite app_nil_r.
  - destruct (IH (GuardedCallbackAnnotationsAndEvents.Push tracer
                    (node_map_event d c cb tid event gi st k o) guarded))
      as (pushed & Hq & Hall).
    rewrite Push_appends, <- app_assoc in Hq.
    eexists (_ :: pushed). split; [exact Hq|].
    constructor; [|done].
    destruct (TooManyAnnotationStrings tracer (NumAnnotations guarded)); auto.
Qed.

Lemma SetCallbackEventUponApiExit_from_callback
  cupti tracer d c cb st et th gi guarded e' gi' guarded' :
  SetCallbackEventUponApiExit cupti tracer d c cb st et (current_thread_id th)
    (exit_event0 cb th) gi guarded = Some (e', gi', guarded') →
  from_callback cb th e'
  ∧ ∃ pushed,
      event_queue guarded' = event_queue guarded ++ pushed
      ∧ Forall (from_callback cb th) pushed.
Proof.
  assert (∀ e g, from_callback cb th e →
                 from_callback cb th e
                 ∧ ∃ pushed, event_queue g = event_queue g ++ pushed
                             ∧ Forall (from_callback cb th) pushed)
    as Hnothing.
  { intros e g He. split; [done|]. exists []. by rewrite app_nil_r. }
  assert (∀ k o g,
            from_callback cb th
              (graph_level_event d c cb st et (current_thread_id th)
                 (exit_event0 cb th) g k o)) as Hgraph.
  { intros k o g. unfold from_callback. simpl. auto 10. }
  unfold SetCallbackEventUponApiExit.
  destruct c;
    try (intros [= <- <- <-]; apply Hnothing;
         unfold from_callback; simpl; by auto 10);
    try (unfold SetCudaGraphNodeEventUponApiExit;
         destruct (map_to_list (node_id_map gi)) as [|[k o] rest];
         [discriminate|]; intros [= <- <- <-]; by apply Hnothing, Hgraph);
    unfold SetCudaGraphEventUponApiExit;
    (case_decide as Hlaunch; case_decide as Hclone;
     try (destruct Hclone as [Hclone|Hclone]; discriminate Hclone);
     try (destruct Hlaunch as [Hlaunch|Hlaunch]; discriminate Hlaunch));
    intros [= <- <- <-];
    try (by apply Hnothing, Hgraph);
    (split; [by apply Hgraph|];
     apply node_map_loop_Forall;
     [ intros k o; unfold from_callback; simpl; by auto 10
     | apply from_callback_stored ]).
Qed.

(** X5.  Every event a callback exit appends to the thread's queue, the
    event of the call itself and the node-map events a graph clone or
    instantiate-with-flags synthesises before it, is marked as coming from a
    driver callback and carries the callback's correlation id and context
    uid, the calling thread's id, the innermost scope-range id (0 outside
    any scope), an empty nvtx range, and as annotation the thread's current
    annotation or, when it was stored beyond the annotation budget, the
    empty string.  At least one event is appended. *)
Theorem callback_exit_events_carry_callback_identity
  (cupti : CuptiInterface) (tracer : CuptiTracer) (th : ThreadLocal)
  (call : ExitCall) (r : CallbackResult) :
  TooManyCallbackEvents tracer = false →
  add_exit cupti tracer th call = Some r →
  ∃ appended,
    event_queue (annotations_and_events_ r.2)
    = event_queue (annotations_and_events_ th) ++ appended
    ∧ appended ≠ []
    ∧ Forall (from_callback (ec_cbdata call) th) appended.
Proof.
  intros Hroom. rewrite add_exit_accepted by done.
  destruct (SetCallbackEventUponApiExit _ _ _ _ _ _ _ _ _ _ _)
    as [[[e gi'] g2]|] eqn:Hset; [|discriminate].
  intros [= <-].
  apply SetCallbackEventUponApiExit_from_callback in Hset
    as (He & pushed & Hq & Hall).
  cbn [snd annotations_and_events_ with_graph_and_events].
  rewrite Push_appends, Hq, AddScopeRangeIdSequence_event_queue, <- app_assoc.
  eexists. split; [reflexivity|]. split.
  - intros Hnil. by apply app_eq_nil in Hnil as [_ ?].
  - apply Forall_app. split; [done|]. constructor; [|done].
    destruct (TooManyAnnotationStrings _ _); [|done].
    by apply from_callback_stored.
Qed.

(** A graph clone on the thread with two pending node mappings: three
    events, all from the one callback. *)
Lemma callback_exit_events_carry_callback_identity_witness :
  ∃ appended,
    event_queue
      (annotations_and_events_
         (Ex2.after_exit Ex.thread_two_nodes
            (Ex.exit_call cuGraphClone "cuGraphClone")))
    = appended
    ∧ length appended = 3
    ∧ Forall (from_callback (Ex.cbdata "cuGraphClone" (Some 1%N))
                Ex.thread_two_nodes) appended.
Proof.
  destruct (callback_exit_events_carry_callback_identity Ex.cupti
              (Ex.attached (Ex.collector 0 0 0)) Ex.thread_two_nodes
              (Ex.exit_call cuGraphClone "cuGraphClone")
              (OkStatus,
               IncCallbackEventCount (Ex.attached (Ex.collector 0 0 0)),
               Ex2.after_exit Ex.thread_two_nodes
                 (Ex.exit_call cuGraphClone "cuGraphClone"))
              eq_refl)
    as (appended & Hq & _ & Hall).
  - vm_compute. reflexivity.
  - exists appended. split; [exact Hq|]. split; [|exact Hall].
    simpl in Hq. rewrite <- Hq. vm_compute. reflexivity.
Defined.

(** ** A driver call from entry to exit *)

Lemma TooManyCallbackEvents_with_hook h tracer :
  TooManyCallbackEvents (with_cupti_driver_api_hook_ h tracer)
  = TooManyCallbackEvents tracer.
Proof. reflexivity. Qed.

(** The driver callback of a thread outside the tracer's own calls, with
    a context on a known device: the hook runs. *)
Lemma HandleDriverApiCallback_dispatch tracer cupti c cb th ctx dev h :
  internalCuCall th = 0%Z →
  context cb = Some ctx →
  GetDeviceId cupti ctx = (CUPTI_SUCCESS, dev) →
  (dev < int_to_u32 (num_gpus_ tracer))%N →
  cupti_driver_api_hook_ tracer = Some h →
  HandleDriverApiCallback tracer cupti c cb th
  = match callbackSite cb with
    | CUPTI_API_ENTER =>
        CuptiDriverApiHookWithActivityApi.OnDriverApiEnter h cupti tracer th
    | CUPTI_API_EXIT =>
        CuptiDriverApiHookWithActivityApi.OnDriverApiExit h cupti tracer dev
          c cb th
    | CUPTI_API_other => Some (OkStatus, tracer, th)
    end.
Proof.
  intros Hint Hctx Hdev Hlt Hhook. unfold HandleDriverApiCallback.
  rewrite decide_False by (intros H; by apply H).
  rewrite Hctx, Hdev. simpl.
  apply N.leb_gt in Hlt. rewrite Hlt, Hhook. done.
Qed.

(** X6.  A kernel launch seen at entry and at exit by a thread outside
    the tracer's own driver calls, on a context of a known device, within
    the event ceiling: the entry callback only stashes the vendor timestamp
    (0 when callback events are not required), and the exit callback appends
    exactly one kernel event, named after the kernel symbol when the
    callback has one and after the driver function otherwise, that starts at
    the stashed value, ends at the vendor timestamp read at exit, and is on
    the device of the callback's context; the event count goes up by one. *)
Theorem kernel_launch_enter_then_exit
  (cupti_in cupti_out : CuptiInterface) (tracer : CuptiTracer)
  (h : CuptiDriverApiHook) (c : CUpti_CallbackId) (cb : CUpti_CallbackData)
  (th : ThreadLocal) (ctx : CUcontext) (dev : N) :
  internalCuCall th = 0%Z →
  context cb = Some ctx →
  GetDeviceId cupti_in ctx = (CUPTI_SUCCESS, dev) →
  GetDeviceId cupti_out ctx = (CUPTI_SUCCESS, dev) →
  (dev < int_to_u32 (num_gpus_ tracer))%N →
  cupti_driver_api_hook_ tracer = Some h →
  TooManyCallbackEvents tracer = false →
  is_kernel_launch c = true →
  ∃ th1 tracer2 th2 e,
    HandleDriverApiCallback tracer cupti_in c (at_site CUPTI_API_ENTER cb) th
    = Some (OkStatus, tracer, th1)
    ∧ annotations_and_events_ th1 = annotations_and_events_ th
    ∧ HandleDriverApiCallback tracer cupti_out c (at_site CUPTI_API_EXIT cb) th1
      = Some (OkStatus, tracer2, th2)
    ∧ event_queue (annotations_and_events_ th2)
      = event_queue (annotations_and_events_ th) ++ [e]
    ∧ type e = CuptiTracerEventType.Kernel
    ∧ name e = default (functionName cb) (symbolName cb)
    ∧ start_time_ns e
      = (if required_callback_api_events (hook_option_ h)
         then GetTimestamp cupti_in else 0%N)
    ∧ end_time_ns e = GetTimestamp cupti_out
    ∧ device_id e = dev
    ∧ num_callback_events_ tracer2
      = num_callback_events_ (IncCallbackEventCount tracer).
Proof.
  intros Hint Hctx Hin Hout Hlt Hhook Hroom Hkernel.
  rewrite (HandleDriverApiCallback_dispatch tracer cupti_in c
             (at_site CUPTI_API_ENTER cb) th ctx dev h) by done.
  cbn [callbackSite at_site].
  unfold CuptiDriverApiHookWithActivityApi.OnDriverApiEnter.
  eexists _, _, _, _. split; [reflexivity|]. split; [reflexivity|].
  rewrite (HandleDriverApiCallback_dispatch tracer cupti_out c
             (at_site CUPTI_API_EXIT cb) _ ctx dev h) by done.
  cbn [callbackSite at_site].
  unfold CuptiDriverApiHookWithActivityApi.OnDriverApiExit,
    AddDriverApiCallbackEvent.
  rewrite TooManyCallbackEvents_with_hook, Hroom.
  assert (∀ tr d st et tid event gi guarded,
            SetCallbackEventUponApiExit cupti_out tr d c
              (at_site CUPTI_API_EXIT cb) st et tid event gi guarded
            = Some (SetKernelEventUponApiExit d (at_site CUPTI_API_EXIT cb)
                      st et tid event, gi, guarded)) as Hset.
  { intros. unfold SetCallbackEventUponApiExit.
    destruct c; try discriminate Hkernel; reflexivity. }
  rewrite Hset.
  split; [reflexivity|].
  cbn [annotations_and_events_ with_graph_and_events with_correlationData
       AnnotationStack_GetScopeRangeIds].
  rewrite Push_appends, AddScopeRangeIdSequence_event_queue.
  split; [reflexivity|].
  destruct (TooManyAnnotationStrings _ _); simpl;
    by destruct (symbolName cb).
Qed.

(** cuLaunchKernel on the example thread. *)
Lemma kernel_launch_enter_then_exit_witness :
  ∃ th1 tracer2 th2 e,
    HandleDriverApiCallback (Ex.attached (Ex.collector 0 0 0)) Ex.cupti
      cuLaunchKernel
      (at_site CUPTI_API_ENTER (Ex.cbdata "cuLaunchKernel" (Some 1%N)))
      Ex.thread
    = Some (OkStatus, Ex.attached (Ex.collector 0 0 0), th1)
    ∧ HandleDriverApiCallback (Ex.attached (Ex.collector 0 0 0))
        (Ex2.cupti_at 1500) cuLaunchKernel
        (at_site CUPTI_API_EXIT (Ex.cbdata "cuLaunchKernel" (Some 1%N))) th1
      = Some (OkStatus, tracer2, th2)
    ∧ event_queue (annotations_and_events_ th2) = [e]
    ∧ name e = "cuLaunchKernel"
    ∧ start_time_ns e = 1000%N
    ∧ end_time_ns e = 1500%N.
Proof.
  destruct (kernel_launch_enter_then_exit Ex.cupti (Ex2.cupti_at 1500)
              (Ex.attached (Ex.collector 0 0 0))
              {| hook_option_ := Ex.options; contexts_ := ∅ |}
              cuLaunchKernel (Ex.cbdata "cuLaunchKernel" (Some 1%N))
              Ex.thread 1%N 0%N
              eq_refl eq_refl eq_refl eq_refl eq_refl eq_refl eq_refl eq_refl)
    as (th1 & tracer2 & th2 & e & Hin & _ & Hout & Hq & _ & Hname & Hst
        & Het & _).
  exists th1, tracer2, th2, e. repeat split; assumption.
Defined.

(** ** The tracer after [Disable] *)

Lemma Disable_deliver_activity_flags t :
  api_tracing_enabled_ (Disable_deliver_activity t).1 = api_tracing_enabled_ t
  ∧ activity_tracing_enabled_ (Disable_deliver_activity t).1
    = activity_tracing_enabled_ t
  ∧ pm_sampling_enabled_ (Disable_deliver_activity t).1
    = pm_sampling_enabled_ t
  ∧ activity_buffers_ (Disable_deliver_activity t).1 = None.
Proof.
  unfold Disable_deliver_activity.
  by destruct (activity_buffers_ t) as [m|] eqn:Hm.
Qed.

(** What [DisableActivityTracing] does to the flag: it stays on exactly
    when a tested vendor call failed. *)
Lemma DisableActivityTracing_flag cupti t st t' es :
  DisableActivityTracing cupti t = Some (st, t', es) →
  activity_tracing_enabled_ t'
  = activity_tracing_enabled_ t && negb (ok st).
Proof.
  unfold DisableActivityTracing.
  destruct (activity_tracing_enabled_ t) eqn:Hflag; simpl.
  - destruct (option_ t) as [o|]; [|done].
    destruct (cupti_calls cupti _) as [st1 es1].
    destruct (ok st1) eqn:Hok1; simpl.
    + destruct (cupti_calls cupti _) as [st2 es2].
      destruct (ok st2) eqn:Hok2; simpl; intros [= <- <- <-]; simpl;
        by rewrite ?Hok2.
    + intros [= <- <- <-]. by rewrite Hflag, Hok1.
  - by intros [= <- <- <-].
Qed.

(** Its status depends on the activity flag and the options only. *)
Lemma DisableActivityTracing_status cupti t1 t2 :
  activity_tracing_enabled_ t1 = activity_tracing_enabled_ t2 →
  option_ t1 = option_ t2 →
  (λ r : TracerResult, r.1.1) <$> DisableActivityTracing cupti t1
  = (λ r : TracerResult, r.1.1) <$> DisableActivityTracing cupti t2.
Proof.
  intros Hflag Hopt. unfold DisableActivityTracing. rewrite Hflag, Hopt.
  destruct (activity_tracing_enabled_ t2); [|done].
  destruct (option_ t2) as [o|]; [|done].
  destruct (cupti_calls cupti _) as [st1 es1].
  destruct (ok st1); [|done]. simpl.
  destruct (cupti_calls cupti _) as [st2 es2].
  by destruct (ok st2).
Qed.

(** [Disable] up to its tail. *)
Lemma Disable_state cupti t reg t' reg' es :
  Disable cupti t reg = Some (t', reg', es) →
  ∃ st3 t3 es3,
    DisableActivityTracing cupti
      (with_api_tracing_enabled_ false (with_pm_sampling_enabled_ false t))
    = Some (st3, t3, es3)
    ∧ t' = (Disable_deliver_activity t3).1
    ∧ reg' = (GatherCallbackAnnotationsAndEvents true reg).2.
Proof.
  unfold Disable. intros Hrun.
  set (step1 := if pm_sampling_enabled_ t
                then if pm_sampler_ t
                     then Some (with_pm_sampling_enabled_ false t,
                                [PmStopSampler; PmDeinitialize])
                     else None
                else Some (t, [])) in Hrun.
  destruct step1 as [[t1 es1]|] eqn:H1; [|done]. subst step1.
  assert (t1 = with_pm_sampling_enabled_ false t) as ->.
  { destruct (pm_sampling_enabled_ t) eqn:Hpm.
    - destruct (pm_sampler_ t); [|done]. by injection H1 as <- <-.
    - injection H1 as <- <-.
      by rewrite <- Hpm, with_pm_sampling_enabled_id. }
  cbn [mbind option_bind] in Hrun.
  destruct (DisableApiTracing cupti _) as [[[st2 t2] es2]|] eqn:H2; [|done].
  apply DisableApiTracing_spec in H2 as (-> & _ & _).
  cbn [mbind option_bind] in Hrun.
  destruct (DisableActivityTracing cupti _) as [[[st3 t3] es3]|] eqn:H3;
    [|done].
  cbn [mbind option_bind] in Hrun.
  destruct (Finalize cupti t3) as [[[st5 t5] es5]|] eqn:H5; [|done].
  apply Finalize_spec in H5 as (-> & _).
  cbn [mbind option_bind] in Hrun.
  destruct (cupti_driver_api_hook_ t3) as [h|]; [|done].
  cbn [mbind option_bind] in Hrun.
  destruct (collector_ t3) as [copts|] eqn:Hc; [|done].
  cbn [mbind option_bind] in Hrun.
  destruct (GatherCallbackAnnotationsAndEvents true reg) as [batches reg1]
    eqn:Hg.
  destruct (Disable_deliver_activity t3) as [t9 es9] eqn:H9.
  injection Hrun as <- <- <-.
  exists st3, t3, es3. by rewrite H9.
Qed.

(** X8.  Whenever [Disable] returns, the tracer is detached and its
    callback and sampling flags are off: no collector, no options, no hook,
    no buffer manager, recording stopped on every thread.  The activity flag
    alone may survive: it is still on exactly when activity tracing was on
    and a tested vendor call of [DisableActivityTracing] failed, and then
    the tracer does not report itself available although [Disable] has
    completed; in every other case it is available again on a host with a
    GPU. *)
Theorem Disable_leaves_tracer_detached
  (cupti : CuptiInterface) (t : CuptiTracer) (reg : PerThreadRegistry)
  (t' : CuptiTracer) (reg' : PerThreadRegistry) (es : list Effect) :
  Disable cupti t reg = Some (t', reg', es) →
  api_tracing_enabled_ t' = false
  ∧ pm_sampling_enabled_ t' = false
  ∧ collector_ t' = None ∧ option_ t' = None
  ∧ cupti_driver_api_hook_ t' = None
  ∧ activity_buffers_ t' = None
  ∧ recording reg' = false
  ∧ ∃ st,
      (λ r : TracerResult, r.1.1) <$> DisableActivityTracing cupti t = Some st
      ∧ activity_tracing_enabled_ t'
        = activity_tracing_enabled_ t && negb (ok st)
      ∧ ∀ num_gpus,
          IsAvailable num_gpus t'
          = negb (num_gpus =? 0)%Z
            && negb (activity_tracing_enabled_ t && negb (ok st)).
Proof.
  intros Hrun.
  apply Disable_state in Hrun as (st3 & t3 & es3 & H3 & -> & ->).
  destruct (Disable_deliver_activity_spec t3) as (Hc & Ho & Hh & _).
  destruct (Disable_deliver_activity_flags t3) as (Hapi & Hact & Hpm & Hbuf).
  pose proof (DisableActivityTracing_flag _ _ _ _ _ H3) as Hflag.
  pose proof (DisableActivityTracing_spec _ _ _ _ _ H3)
    as (_ & _ & _ & _ & _ & _ & Hapi3 & Hpm3).
  pose proof (DisableActivityTracing_status cupti
                (with_api_tracing_enabled_ false
                   (with_pm_sampling_enabled_ false t)) t eq_refl eq_refl)
    as Hst.
  rewrite H3 in Hst. simpl in Hst, Hflag, Hapi3, Hpm3.
  rewrite Hapi, Hapi3, Hpm, Hpm3.
  repeat (split; [done|]).
  exists st3. split; [done|]. split; [by rewrite Hact|].
  intros num_gpus. unfold IsAvailable.
  rewrite Hapi, Hapi3, Hpm, Hpm3, Hact, Hflag. simpl.
  by rewrite !andb_true_r.
Qed.

(** A session on the example host, disabled again: available. *)
Lemma Disable_leaves_tracer_detached_witness :
  ∃ t' reg' es,
    Disable Ex.cupti (Ex.active (Ex.collector 0 0 0) 0) Ex.registry
    = Some (t', reg', es)
    ∧ IsAvailable 1 t' = true.
Proof.
  destruct (Disable Ex.cupti (Ex.active (Ex.collector 0 0 0) 0) Ex.registry)
    as [[[t' reg'] es]|] eqn:Hrun; [|vm_compute in Hrun; discriminate Hrun].
  exists t', reg', es. split; [reflexivity|].
  destruct (Disable_leaves_tracer_detached _ _ _ _ _ _ Hrun)
    as (_ & _ & _ & _ & _ & _ & _ & st & Hst & _ & Havail).
  rewrite Havail. vm_compute in Hst. injection Hst as <-. reflexivity.
Defined.

(** X7.  After [Disable] has returned, every callback the vendor library
    still delivers, of whatever domain, identifier and site and on whatever
    thread, is answered with an OK status and changes neither the tracer nor
    the thread's state: no event is counted, recorded or dropped. *)
Theorem callbacks_after_Disable_are_ignored
  (cupti : CuptiInterface) (t : CuptiTracer) (reg : PerThreadRegistry)
  (t' : CuptiTracer) (reg' : PerThreadRegistry) (es : list Effect)
  (cupti' : CuptiInterface) (domain : CUpti_CallbackDomain)
  (cbid0 : CUpti_CallbackId) (res_cbid : CUpti_ResourceCbid)
  (cbdata : CUpti_CallbackData) (graph_data : CUpti_GraphData)
  (th : ThreadLocal) :
  Disable cupti t reg = Some (t', reg', es) →
  HandleCallback t' cupti' domain cbid0 res_cbid cbdata graph_data th
  = Some (OkStatus, t', th)
  ∧ ApiCallback t' cupti' domain cbid0 res_cbid cbdata graph_data th
    = Some (t', th).
Proof.
  intros Hrun.
  apply Disable_state in Hrun as (st3 & t3 & es3 & H3 & -> & ->).
  destruct (Disable_deliver_activity_spec t3) as (_ & _ & Hh & _).
  assert (HandleCallback (Disable_deliver_activity t3).1 cupti' domain cbid0
            res_cbid cbdata graph_data th
          = Some (OkStatus, (Disable_deliver_activity t3).1, th)) as Hcb.
  { unfold HandleCallback. rewrite Hh.
    by destruct (api_tracing_enabled_ _). }
  split; [done|]. unfold ApiCallback. by rewrite Hcb.
Qed.

(** A kernel-launch exit delivered after the example session was
    disabled. *)
Lemma callbacks_after_Disable_are_ignored_witness :
  ∃ t' reg' es,
    Disable Ex.cupti (Ex.active (Ex.collector 0 0 0) 0) Ex.registry
    = Some (t', reg', es)
    ∧ HandleCallback t' Ex.cupti CUPTI_CB_DOMAIN_DRIVER_API cuLaunchKernel
        CUPTI_CBID_RESOURCE_GRAPH_CREATED
        (Ex.cbdata "cuLaunchKernel" (Some 1%N)) (Ex2.graph_data 0 0) Ex.thread
      = Some (OkStatus, t', Ex.thread).
Proof.
  destruct (Disable Ex.cupti (Ex.active (Ex.collector 0 0 0) 0) Ex.registry)
    as [[[t' reg'] es]|] eqn:Hrun; [|vm_compute in Hrun; discriminate Hrun].
  exists t', reg', es. split; [reflexivity|].
  exact (proj1 (callbacks_after_Disable_are_ignored Ex.cupti _ _ _ _ _
                  Ex.cupti CUPTI_CB_DOMAIN_DRIVER_API cuLaunchKernel
                  CUPTI_CBID_RESOURCE_GRAPH_CREATED
                  (Ex.cbdata "cuLaunchKernel" (Some 1%N))
                  (Ex2.graph_data 0 0) Ex.thread Hrun)).
Defined.

(** ** Activity buffers *)

(** X9.  A non-null activity buffer handed to [ProcessActivityBuffer] of
    a tracer with a buffer manager and a collector ends up in exactly one
    place: appended, with its valid size, to the cached buffers when the
    size is not 0, activity tracing is on, the vendor library is not
    disabled and the cached-event ceiling is not reached; pushed back to the
    pool in every other case.  Nothing else moves in the manager, the count
    of cached events grows (by the number of records in the buffer, modulo
    2^64) only when the buffer is cached, and an error status is returned
    only for a disabled vendor library.  Without a buffer manager the
    call is undefined. *)
Theorem ProcessActivityBuffer_buffer_is_cached_or_reclaimed
  (cupti : CuptiInterface) (t : CuptiTracer) (context0 : CUcontext)
  (stream_id p size : N) (m : CuptiActivityBufferManager) :
  activity_buffers_ t = Some m →
  is_Some (collector_ t) →
  (∃ st t' m',
     ProcessActivityBuffer cupti t context0 stream_id (Some p) size
     = Some (st, t')
     ∧ activity_buffers_ t' = Some m'
     ∧ buffer_size_in_bytes m' = buffer_size_in_bytes m
     ∧ (if reaches_caching cupti t size
        then buffer_pool m' = buffer_pool m
             ∧ cached_buffers m' = cached_buffers m ++ [(p, size)]
             ∧ num_activity_events_in_cached_buffer_ t'
               = u64_add (num_activity_events_in_cached_buffer_ t)
                   (CountCuptiActivityEvent cupti (Some p) size)
             ∧ num_activity_events_in_dropped_buffer_ t'
               = num_activity_events_in_dropped_buffer_ t
        else buffer_pool m' = p :: buffer_pool m
             ∧ cached_buffers m' = cached_buffers m
             ∧ num_activity_events_in_cached_buffer_ t'
               = num_activity_events_in_cached_buffer_ t)
     ∧ (st ≠ OkStatus ↔
        size ≠ 0%N ∧ activity_tracing_enabled_ t = true
        ∧ Disabled cupti = true))
  ∧ (∀ t0, activity_buffers_ t0 = None →
           ProcessActivityBuffer cupti t0 context0 stream_id (Some p) size
           = None).
Proof.
  intros Hm [opts Hc]. split.
  - unfold ProcessActivityBuffer, reaches_caching. rewrite Hc.
    destruct (size =? 0)%N eqn:Hsize; simpl.
    { rewrite Hm. simpl. eexists _, _, _. split; [reflexivity|]. simpl.
      apply N.eqb_eq in Hsize. repeat split; try done.
      by intros (? & _). }
    apply N.eqb_neq in Hsize.
    destruct (activity_tracing_enabled_ t) eqn:Hact; simpl.
    2: { rewrite Hm. simpl. eexists _, _, _. split; [reflexivity|]. simpl.
         repeat split; try done. by intros (_ & ? & _). }
    destruct (Disabled cupti) eqn:Hdis; simpl.
    { rewrite Hm. simpl. eexists _, _, _. split; [reflexivity|]. simpl.
      repeat split; done. }
    set (t1 := match ActivityGetNumDroppedRecords cupti context0 stream_id with
               | Some dropped =>
                   with_cupti_dropped_activity_event_count_
                     (u64_add (cupti_dropped_activity_event_count_ t) dropped) t
               | None => t
               end).
    assert (collector_ t1 = Some opts
            ∧ activity_buffers_ t1 = Some m
            ∧ num_activity_events_in_cached_buffer_ t1
              = num_activity_events_in_cached_buffer_ t
            ∧ num_activity_events_in_dropped_buffer_ t1
              = num_activity_events_in_dropped_buffer_ t)
      as (Hc1 & Hm1 & Hn1 & Hd1).
    { subst t1. by destruct (ActivityGetNumDroppedRecords cupti _ _). }
    rewrite Hc1, Hn1.
    destruct ((0 <? max_activity_api_events opts)%N
              && (max_activity_api_events opts
                  <=? num_activity_events_in_cached_buffer_ t)%N); simpl.
    + rewrite Hm1. simpl. eexists _, _, _. split; [reflexivity|]. simpl.
      repeat split; try done. by intros (_ & _ & ?).
    + rewrite Hm1. simpl. eexists _, _, _. split; [reflexivity|]. simpl.
      rewrite ?Hn1, ?Hd1. repeat split; try done. by intros (_ & _ & ?).
  - intros t0 H0. unfold ProcessActivityBuffer.
    destruct (size =? 0)%N; simpl; [by rewrite H0|].
    destruct (activity_tracing_enabled_ t0); simpl; [|by rewrite H0].
    destruct (Disabled cupti); simpl; [by rewrite H0|].
    set (t1 := match ActivityGetNumDroppedRecords cupti context0 stream_id with
               | Some dropped =>
                   with_cupti_dropped_activity_event_count_
                     (u64_add (cupti_dropped_activity_event_count_ t0) dropped)
                     t0
               | None => t0
               end).
    assert (activity_buffers_ t1 = None) as H1
      by (subst t1; by destruct (ActivityGetNumDroppedRecords cupti _ _)).
    destruct (collector_ t1) as [o|]; [|done].
    destruct (_ && _); simpl; by rewrite H1.
Qed.

(** Buffer 7 with 64 valid bytes and three records, on the example
    session: cached, three more events counted. *)
Lemma ProcessActivityBuffer_buffer_is_cached_or_reclaimed_witness :
  ∃ st t' m',
    ProcessActivityBuffer Ex.cupti (Ex.active (Ex.collector 0 0 0) 0) 1%N 0
      (Some 7%N) 64
    = Some (st, t')
    ∧ activity_buffers_ t' = Some m'
    ∧ buffer_pool m' = []
    ∧ cached_buffers m' = [(7%N, 64%N)]
    ∧ num_activity_events_in_cached_buffer_ t' = 3%N.
Proof.
  destruct (proj1 (ProcessActivityBuffer_buffer_is_cached_or_reclaimed
                     Ex.cupti (Ex.active (Ex.collector 0 0 0) 0) 1%N 0 7 64
                     Ex.manager eq_refl (mk_is_Some _ _ eq_refl)))
    as (st & t' & m' & Hrun & Hm & _ & Hplace & _).
  exists st, t', m'. split; [exact Hrun|]. split; [exact Hm|].
  change (reaches_caching Ex.cupti (Ex.active (Ex.collector 0 0 0) 0) 64)
    with true in Hplace.
  destruct Hplace as (Hpool & Hcached & Hcount & _).
  split; [exact Hpool|]. split; [exact Hcached|]. exact Hcount.
Defined.

(** ** Vendor calls *)

(** The calls issued are calls of the steps. *)
Lemma cupti_calls_issued cupti steps e :
  e ∈ (cupti_calls cupti steps).2 →
  ∃ s, s ∈ steps ∧ e = Vendor (step_call s).
Proof.
  induction steps as [|s steps IH]; unfold cupti_calls; fold cupti_calls.
  - by intros ?%elem_of_nil.
  - destruct s as [c|c].
    + destruct (cupti_error cupti (call_result cupti c)).
      * intros ->%list_elem_of_singleton. exists (Checked c).
        split; [by left|done].
      * destruct (cupti_calls cupti steps) as [st es]. simpl in *.
        intros [->|He]%elem_of_cons.
        -- exists (Checked c). split; [by left|done].
        -- destruct (IH He) as (s & Hs & ->). exists s.
           split; [by right|done].
    + destruct (cupti_calls cupti steps) as [st es]. simpl in *.
      intros [->|He]%elem_of_cons.
      * exists (Unchecked c). split; [by left|done].
      * destruct (IH He) as (s & Hs & ->). exists s. split; [by right|done].
Qed.

(** With every call succeeding all the steps are issued. *)
Lemma cupti_calls_all_succeed cupti steps :
  all_calls_succeed cupti →
  cupti_calls cupti steps = (OkStatus, Vendor ∘ step_call <$> steps).
Proof.
  intros Hall. induction steps as [|s steps IH]; [done|].
  unfold cupti_calls; fold cupti_calls.
  destruct s as [c|c]; rewrite ?Hall; simpl; by rewrite IH.
Qed.

(** A tested call that fails is the only one issued. *)
Lemma cupti_calls_fails_first cupti c rest st :
  cupti_error cupti (call_result cupti c) = Some st →
  cupti_calls cupti (Checked c :: rest) = (st, [Vendor c]).
Proof. intros Hfail. unfold cupti_calls. by rewrite Hfail. Qed.

Lemma cupti_error_not_ok cupti r st :
  cupti_error cupti r = Some st → ok st = false.
Proof. destruct r; intros [= <-]; done. Qed.

(** ** Enabling *)

(** X10.  [Enable] on a tracer whose callback tracing is off, when the
    vendor refuses the subscription: the vendor's error is returned and
    Subscribe is the only thing done to the outside world; neither resource
    nor driver callbacks are enabled, activity tracing is not started and
    the annotation stack is not switched on.  The tracer stays attached to
    the collector, the options and a hook, its callback flag stays off and
    its activity and sampling state are as before, but the callback count
    has been reset and recording has been started.  The root-access mark is
    set when the refusal was for insufficient privileges, and from then on
    [ErrorIfAny] on a host with a GPU reports the missing privilege. *)
Theorem Enable_fails_at_Subscribe
  (kBufferSizeInBytes : N) (cupti : CuptiInterface) (pm : PmSamplerFactory)
  (option0 : CuptiTracerOptions) (collector : CuptiTracerCollectorOptions)
  (t : CuptiTracer) (reg : PerThreadRegistry) (st : Status) :
  api_tracing_enabled_ t = false →
  cupti_error cupti (call_result cupti Subscribe) = Some st →
  ∃ t' reg',
    Enable kBufferSizeInBytes cupti pm option0 collector t reg
    = Some ((st, t', [Vendor Subscribe]), reg')
    ∧ ok st = false
    ∧ api_tracing_enabled_ t' = false
    ∧ activity_tracing_enabled_ t' = activity_tracing_enabled_ t
    ∧ pm_sampling_enabled_ t' = pm_sampling_enabled_ t
    ∧ activity_buffers_ t' = activity_buffers_ t
    ∧ collector_ t' = Some collector
    ∧ is_Some (option_ t') ∧ is_Some (cupti_driver_api_hook_ t')
    ∧ num_callback_events_ t' = 0%N
    ∧ recording reg' = true
    ∧ need_root_access_ t' = need_root_access_ t || is_permission_denied st
    ∧ (call_result cupti Subscribe = CUPTI_ERROR_INSUFFICIENT_PRIVILEGES →
       ∀ hostname num_gpus cupti',
         num_gpus ≠ 0%Z →
         ErrorIfAny hostname num_gpus t' cupti'
         = ErrorWithHostname hostname
             "Insufficient privilege to run libcupti (you need root permission).").
Proof.
  intros Hoff Hfail. unfold Enable, EnableApiTracing.
  cbn [api_tracing_enabled_ with_cupti_driver_api_hook_ with_collector_
       with_option_].
  rewrite Hoff. unfold PrepareCallbackStart.
  rewrite (cupti_calls_fails_first cupti Subscribe [] st Hfail).
  rewrite (cupti_error_not_ok _ _ _ Hfail). simpl.
  rewrite (cupti_error_not_ok _ _ _ Hfail). simpl.
  eexists _, _. split; [reflexivity|]. simpl.
  repeat (split; [done|]).
  intros Hpriv hostname num_gpus cupti' Hgpus.
  rewrite Hpriv in Hfail. injection Hfail as <-.
  unfold ErrorIfAny. apply Z.eqb_neq in Hgpus. rewrite Hgpus. simpl.
  by rewrite orb_true_r.
Qed.

(** Another tool holds the subscription on the example host. *)
Lemma Enable_fails_at_Subscribe_witness :
  ∃ t' reg',
    Enable 1024 Ex.cupti_no_subscribe Ex.pm Ex.options (Ex.collector 0 0 0)
      (CuptiTracer_new 1) Ex.registry
    = Some ((InternalError "CUPTI call error: CUPTI_ERROR_MAX_LIMIT_REACHED",
             t', [Vendor Subscribe]), reg')
    ∧ api_tracing_enabled_ t' = false
    ∧ collector_ t' = Some (Ex.collector 0 0 0)
    ∧ need_root_access_ t' = false.
Proof.
  destruct (Enable_fails_at_Subscribe 1024 Ex.cupti_no_subscribe Ex.pm
              Ex.options (Ex.collector 0 0 0) (CuptiTracer_new 1) Ex.registry
              (InternalError "CUPTI call error: CUPTI_ERROR_MAX_LIMIT_REACHED")
              eq_refl eq_refl)
    as (t' & reg' & Hrun & _ & Hapi & _ & _ & _ & Hc & _ & _ & _ & _ & Hroot
        & _).
  exists t', reg'. split; [exact Hrun|]. split; [exact Hapi|].
  split; [exact Hc|]. exact Hroot.
Defined.

Lemma EnableApiTracing_all_succeed cupti t reg o :
  all_calls_succeed cupti →
  api_tracing_enabled_ t = false →
  option_ t = Some o →
  ∃ es,
    EnableApiTracing cupti t reg
    = Some ((OkStatus,
             with_api_tracing_enabled_ true (with_num_callback_events_ 0 t),
             es),
            (PrepareCallbackStart t reg).2).
Proof.
  intros Hall Hoff Ho. unfold EnableApiTracing. rewrite Hoff.
  unfold PrepareCallbackStart. rewrite !cupti_calls_all_succeed by done.
  cbn [ok negb option_ with_api_tracing_enabled_ with_num_callback_events_].
  rewrite Ho, cupti_calls_all_succeed by done. by eexists.
Qed.

Lemma EnableActivityTracing_all_succeed kBufferSizeInBytes cupti t o :
  all_calls_succeed cupti →
  activity_tracing_enabled_ t = false →
  option_ t = Some o →
  ∃ es,
    EnableActivityTracing kBufferSizeInBytes cupti t
    = Some (OkStatus,
            with_activity_tracing_enabled_ true
              (PrepareActivityStart kBufferSizeInBytes t), es)
    ∧ ∀ a, a ∈ activities_selected o → Vendor (ActivityEnable a) ∈ es.
Proof.
  intros Hall Hoff Ho. unfold EnableActivityTracing. rewrite Hoff.
  assert (option_ (PrepareActivityStart kBufferSizeInBytes t) = Some o) as ->
    by done.
  rewrite cupti_calls_all_succeed by done.
  cbn [ok negb]. eexists. split; [reflexivity|].
  intros a Ha. destruct (activities_selected o) as [|a0 rest] eqn:Hacts;
    [by apply elem_of_nil in Ha|].
  rewrite <- Hacts in *. clear Hacts.
  apply (list_elem_of_fmap_2 (Vendor ∘ step_call) _ (Checked (ActivityEnable a))).
  apply elem_of_app. right.
  apply list_elem_of_join. exists (enable_activity_steps a).
  split; [|by apply list_elem_of_fmap_2].
  unfold enable_activity_steps. apply elem_of_app. right. by left.
Qed.

Lemma DisableActivityTracing_all_succeed cupti t st t' es :
  all_calls_succeed cupti →
  DisableActivityTracing cupti t = Some (st, t', es) → st = OkStatus.
Proof.
  intros Hall. unfold DisableActivityTracing.
  destruct (activity_tracing_enabled_ t); [|by intros [= <- _ _]].
  destruct (option_ t) as [o|]; [|done].
  rewrite !cupti_calls_all_succeed by done. cbn [ok negb].
  by intros [= <- _ _].
Qed.

(** ** A whole session *)

(** X11.  A session from [Enable] to [Disable] on a vendor library whose
    calls all succeed and with a sampler that can be created and started:
    [Enable] on a tracer with nothing enabled returns OK with callback
    tracing and activity tracing on and sampling on exactly when the options
    ask for it; every selected activity kind is enabled at the vendor, and
    with nvtx tracking requested so is the marker kind, selected or not.
    [Disable] then returns and gives back a tracer with all three flags off,
    which reports itself available again on a host with a GPU. *)
Theorem Enable_then_Disable_round_trip
  (kBufferSizeInBytes : N) (cupti : CuptiInterface) (pm : PmSamplerFactory)
  (option0 : CuptiTracerOptions) (collector : CuptiTracerCollectorOptions)
  (t : CuptiTracer) (reg : PerThreadRegistry) :
  all_calls_succeed cupti →
  ok (CreatePmSampler_status pm) = true →
  ok (StartSampler_status pm) = true →
  api_tracing_enabled_ t = false →
  activity_tracing_enabled_ t = false →
  pm_sampling_enabled_ t = false →
  ∃ t1 reg1 es1 t2 reg2 es2,
    Enable kBufferSizeInBytes cupti pm option0 collector t reg
    = Some ((OkStatus, t1, es1), reg1)
    ∧ api_tracing_enabled_ t1 = true
    ∧ activity_tracing_enabled_ t1 = true
    ∧ pm_sampling_enabled_ t1 = pm_sampler_enable option0
    ∧ IsAvailable (num_gpus_ t) t1 = false
    ∧ (∀ a, a ∈ activities_selected option0 ∨
            (enable_nvtx_tracking option0 = true
             ∧ a = CUPTI_ACTIVITY_KIND_MARKER) →
            Vendor (ActivityEnable a) ∈ es1)
    ∧ Disable cupti t1 reg1 = Some (t2, reg2, es2)
    ∧ api_tracing_enabled_ t2 = false
    ∧ activity_tracing_enabled_ t2 = false
    ∧ pm_sampling_enabled_ t2 = false
    ∧ ∀ num_gpus, IsAvailable num_gpus t2 = negb (num_gpus =? 0)%Z.
Proof.
  intros Hall Hcreate Hstart Hapi Hact Hpm.
  unfold Enable.
  set (option1 :=
         if enable_nvtx_tracking option0 then
           if decide (CUPTI_ACTIVITY_KIND_MARKER ∈ activities_selected option0)
           then option0
           else with_activities_selected
                  (activities_selected option0 ++ [CUPTI_ACTIVITY_KIND_MARKER])
                  option0
         else option0).
  assert (pm_sampler_enable option1 = pm_sampler_enable option0) as Hpm1.
  { subst option1. destruct (enable_nvtx_tracking option0); [|done].
    by case_decide. }
  assert (∀ a, a ∈ activities_selected option0 ∨
               (enable_nvtx_tracking option0 = true
                ∧ a = CUPTI_ACTIVITY_KIND_MARKER) →
               a ∈ activities_selected option1) as Hsel.
  { subst option1. intros a [Ha|[Hnvtx ->]].
    - destruct (enable_nvtx_tracking option0); [|done].
      case_decide; [done|]. simpl. apply elem_of_app. by left.
    - rewrite Hnvtx. case_decide; [done|]. simpl. apply elem_of_app.
      right. by left. }
  set (t0 := with_cupti_driver_api_hook_
               (Some {| hook_option_ := option1; contexts_ := ∅ |})
               (with_collector_ (Some collector)
                  (with_option_ (Some option1) t))).
  destruct (EnableApiTracing_all_succeed cupti t0 reg option1 Hall Hapi eq_refl)
    as [es2 ->].
  cbn [ok negb].
  set (t3 := with_need_root_access_ _ _).
  destruct (EnableActivityTracing_all_succeed kBufferSizeInBytes cupti t3
              option1 Hall Hact eq_refl) as (es4 & -> & Hissued).
  rewrite Hpm1.
  set (t4 := with_activity_tracing_enabled_ true
               (PrepareActivityStart kBufferSizeInBytes t3)).
  set (t5 := if pm_sampler_enable option0
             then with_pm_sampling_enabled_ true (with_pm_sampler_ true t4)
             else t4).
  assert (api_tracing_enabled_ t5 = true
          ∧ activity_tracing_enabled_ t5 = true
          ∧ pm_sampling_enabled_ t5 = pm_sampler_enable option0
          ∧ (pm_sampling_enabled_ t5 = true → pm_sampler_ t5 = true)
          ∧ is_Some (option_ t5) ∧ is_Some (cupti_driver_api_hook_ t5)
          ∧ is_Some (collector_ t5))
    as (Hapi5 & Hact5 & Hpm5 & Hsampler5 & Ho5 & Hh5 & Hc5).
  { subst t5. destruct (pm_sampler_enable option0) eqn:Hen; simpl;
      repeat split; try done; try by eexists.
    intros Hon. by rewrite Hpm in Hon. }
  destruct (Disable_total cupti t5 (PrepareCallbackStart t0 reg).2
              Ho5 Hh5 Hc5 Hsampler5) as [[[t2 reg2] es6] Hdis].
  exists t5, (PrepareCallbackStart t0 reg).2,
    (es2 ++ es4 ++ [AnnotationStackEnable true]), t2, reg2, es6.
  split.
  { subst t5. destruct (pm_sampler_enable option0); [|done].
    by rewrite Hcreate, Hstart. }
  split; [done|]. split; [done|]. split; [done|].
  split.
  { unfold IsAvailable. rewrite Hact5. by rewrite andb_false_r. }
  split.
  { intros a Ha. apply elem_of_app. right. apply elem_of_app. left.
    apply Hissued, Hsel, Ha. }
  split; [done|].
  apply Disable_state in Hdis as (st3 & t6 & es3 & H3 & -> & _).
  destruct (Disable_deliver_activity_flags t6) as (Hapi6 & Hact6 & Hpm6 & _).
  pose proof (DisableActivityTracing_flag _ _ _ _ _ H3) as Hflag.
  pose proof (DisableActivityTracing_spec _ _ _ _ _ H3)
    as (_ & _ & _ & _ & _ & _ & Hapi3 & Hpm3).
  rewrite (DisableActivityTracing_all_succeed _ _ _ _ _ Hall H3) in Hflag.
  simpl in Hflag, Hapi3, Hpm3. rewrite andb_false_r in Hflag.
  assert (api_tracing_enabled_ (Disable_deliver_activity t6).1 = false)
    as Hapi' by by rewrite Hapi6.
  assert (activity_tracing_enabled_ (Disable_deliver_activity t6).1 = false)
    as Hact' by by rewrite Hact6.
  assert (pm_sampling_enabled_ (Disable_deliver_activity t6).1 = false)
    as Hpm' by by rewrite Hpm6.
  split; [done|]. split; [done|]. split; [done|].
  intros num_gpus. unfold IsAvailable. rewrite Hapi', Hact', Hpm'. simpl.
  by rewrite !andb_true_r.
Qed.

(** The example session with nvtx tracking asked for. *)
Lemma Enable_then_Disable_round_trip_witness :
  ∃ t1 reg1 es1 t2 reg2 es2,
    Enable 1024 Ex.cupti Ex.pm Ex2.options_nvtx (Ex.collector 0 0 0)
      (CuptiTracer_new 1) Ex.registry
    = Some ((OkStatus, t1, es1), reg1)
    ∧ Vendor (ActivityEnable CUPTI_ACTIVITY_KIND_MARKER) ∈ es1
    ∧ Disable Ex.cupti t1 reg1 = Some (t2, reg2, es2)
    ∧ IsAvailable 1 t2 = true.
Proof.
  destruct (Enable_then_Disable_round_trip 1024 Ex.cupti Ex.pm
              Ex2.options_nvtx (Ex.collector 0 0 0) (CuptiTracer_new 1)
              Ex.registry (λ _, eq_refl) eq_refl eq_refl eq_refl eq_refl
              eq_refl)
    as (t1 & reg1 & es1 & t2 & reg2 & es2 & Hen & _ & _ & _ & _ & Hissued
        & Hdis & _ & _ & _ & Havail).
  exists t1, reg1, es1, t2, reg2, es2.
  split; [exact Hen|].
  split; [apply Hissued; right; split; reflexivity|].
  split; [exact Hdis|]. exact (Havail 1%Z).
Defined.

(** ** Stopping the activity capture *)

Lemma disable_activity_steps_calls activities s :
  s ∈ mjoin (disable_activity_steps <$> activities) →
  step_call s = ActivityConfigureUnifiedMemoryCounter false
  ∨ ∃ a, a ∈ activities ∧ a ≠ CUPTI_ACTIVITY_KIND_CONCURRENT_KERNEL
         ∧ s = Checked (ActivityDisable a).
Proof.
  intros (steps & Hs & (a & -> & Ha)%list_elem_of_fmap)%list_elem_of_join.
  unfold disable_activity_steps in Hs.
  apply elem_of_app in Hs as [Hs|Hs].
  - case_decide; [|by apply elem_of_nil in Hs].
    apply list_elem_of_singleton in Hs as ->. by left.
  - case_decide as Hkind; [by apply elem_of_nil in Hs|].
    apply list_elem_of_singleton in Hs as ->. right. by exists a.
Qed.

(** X12.  Whatever [DisableActivityTracing] asks of the vendor, it never
    asks it to disable the concurrent-kernel activity kind, selected or not;
    every kind it does disable is one of the selected ones.  It reports
    success only after the forced flush of the activity buffers, which is
    then the last thing done, and by then the list of selected activities
    has been emptied; on a failure the activity flag is still on. *)
Theorem DisableActivityTracing_skips_concurrent_kernel
  (cupti : CuptiInterface) (t : CuptiTracer) (o : CuptiTracerOptions)
  (st : Status) (t' : CuptiTracer) (es : list Effect) :
  activity_tracing_enabled_ t = true →
  option_ t = Some o →
  DisableActivityTracing cupti t = Some (st, t', es) →
  ¬ Vendor (ActivityDisable CUPTI_ACTIVITY_KIND_CONCURRENT_KERNEL) ∈ es
  ∧ (∀ a, Vendor (ActivityDisable a) ∈ es → a ∈ activities_selected o)
  ∧ (ok st = true →
     last es = Some (Vendor (ActivityFlushAll true))
     ∧ (activities_selected <$> option_ t') = Some []
     ∧ activity_tracing_enabled_ t' = false)
  ∧ (ok st = false → activity_tracing_enabled_ t' = true).
Proof.
  intros Hon Ho Hrun.
  pose proof (DisableActivityTracing_flag _ _ _ _ _ Hrun) as Hflag.
  rewrite Hon in Hflag. simpl in Hflag.
  unfold DisableActivityTracing in Hrun. rewrite Hon, Ho in Hrun.
  pose proof (cupti_calls_issued cupti
                (mjoin (disable_activity_steps <$> activities_selected o)))
    as Hissued1.
  pose proof (cupti_calls_issued cupti [Checked (ActivityFlushAll true)])
    as Hissued2.
  assert (∀ e, e ∈ es →
               e ∈ (cupti_calls cupti
                      (mjoin (disable_activity_steps
                                <$> activities_selected o))).2
               ∨ e = Vendor (ActivityFlushAll true)) as Hes.
  { destruct (cupti_calls cupti (mjoin _)) as [st1 es1].
    destruct (ok st1); simpl in Hrun.
    - destruct (cupti_calls cupti [_]) as [st2 es2].
      assert (es = es1 ++ es2) as ->
        by (destruct (ok st2); simpl in Hrun; by injection Hrun as <- <- <-).
      intros e [He|He]%elem_of_app; [by left|]. right.
      destruct (Hissued2 e He) as (s & ->%list_elem_of_singleton & ->). done.
    - injection Hrun as <- <- <-. intros e He. by left. }
  assert (∀ a, Vendor (ActivityDisable a) ∈ es →
               a ∈ activities_selected o
               ∧ a ≠ CUPTI_ACTIVITY_KIND_CONCURRENT_KERNEL) as Hdisabled.
  { intros a [He|He]%Hes; [|discriminate He].
    destruct (Hissued1 _ He) as (s & Hs & Heq).
    apply disable_activity_steps_calls in Hs as [Hs|(a' & Ha' & Hne & ->)].
    - rewrite Hs in Heq. discriminate Heq.
    - injection Heq as ->. done. }
  split; [intros (_ & Hne)%Hdisabled; by apply Hne|].
  split; [intros a Ha; by apply Hdisabled|].
  split; [|intros Hfail; by rewrite Hflag, Hfail].
  intros Hok.
  destruct (cupti_calls cupti (mjoin _)) as [st1 es1].
  destruct (ok st1) eqn:Hok1; simpl in Hrun;
    [|injection Hrun as <- <- <-; congruence].
  unfold cupti_calls in Hrun.
  destruct (cupti_error cupti (call_result cupti (ActivityFlushAll true)))
    as [st2|] eqn:Hflush; simpl in Hrun.
  - rewrite (cupti_error_not_ok _ _ _ Hflush) in Hrun. simpl in Hrun.
    injection Hrun as <- <- <-.
    by rewrite (cupti_error_not_ok _ _ _ Hflush) in Hok.
  - injection Hrun as <- <- <-. split; [by rewrite last_snoc|]. done.
Qed.

(** Kernels and one more kind selected, every vendor call succeeding. *)
Lemma DisableActivityTracing_skips_concurrent_kernel_witness :
  ∃ t' es,
    DisableActivityTracing Ex.cupti Ex2.capturing_kernels
    = Some (OkStatus, t', es)
    ∧ ¬ Vendor (ActivityDisable CUPTI_ACTIVITY_KIND_CONCURRENT_KERNEL) ∈ es
    ∧ last es = Some (Vendor (ActivityFlushAll true)).
Proof.
  destruct (DisableActivityTracing Ex.cupti Ex2.capturing_kernels)
    as [[[st t'] es]|] eqn:Hrun; [|vm_compute in Hrun; discriminate Hrun].
  assert (st = OkStatus) as ->
    by (vm_compute in Hrun; by injection Hrun as <- _ _).
  exists t', es. split; [reflexivity|].
  destruct (DisableActivityTracing_skips_concurrent_kernel Ex.cupti
              Ex2.capturing_kernels
              (with_activities_selected
                 [CUPTI_ACTIVITY_KIND_CONCURRENT_KERNEL;
                  CUPTI_ACTIVITY_KIND_other 3] Ex.options)
              OkStatus t' es eq_refl eq_refl Hrun)
    as (Hskip & _ & Hok & _).
  split; [exact Hskip|]. exact (proj1 (Hok eq_refl)).
Defined.

(** ** Memory operations *)

(** X13.  The switch of [SetCallbackEventUponApiExit] and the two
    decoders agree on the memset and the peer-copy identifiers, and not on
    the plain copies.  Every identifier routed to the memset setter is
    decoded as a memset, and [DecodeDriverMemset] decodes no other; every
    one routed to the peer-copy setter is decoded as a peer copy.  Of the
    twenty identifiers routed to the plain-copy setter, the eight copies to
    or from an array and the unaligned 2D copy are not decoded: their event
    is of the unsupported kind, with 0 bytes and not asynchronous.  The
    others are of the unsupported kind only when a 2D or 3D descriptor is
    neither host-to-device, device-to-host nor device-to-device.  Whatever
    the identifier, the event of a plain copy keeps the name it had, and
    names the calling device as source and as destination. *)
Theorem memory_switch_and_decoders
  (cupti : CuptiInterface) (device_id0 : N) (c : DriverMemoryCbid)
  (cb : CUpti_CallbackData) (params : DriverMemoryParams)
  (start_time end_time tid : N) (event : CuptiTracerEvent) :
  let e := SetMemoryCallbackEventUponApiExit cupti device_id0 c cb params
             start_time end_time tid event in
  ((DecodeDriverMemset c params).1.2 = CuptiTracerEventType.Memset
   ↔ memory_arm c = MemsetArm)
  ∧ ((DecodeDriverMemset c params).1.2 = CuptiTracerEventType.Unsupported
     ↔ memory_arm c ≠ MemsetArm)
  ∧ (memory_arm c = MemsetArm → type e = CuptiTracerEventType.Memset)
  ∧ (memory_arm c = P2PMemcpyArm → type e = CuptiTracerEventType.MemcpyP2P)
  ∧ (memory_arm c = NormalMemcpyArm →
     name e = name event
     ∧ device_id e = device_id0
     ∧ (mem_destination <$> memory_info e) = Some device_id0
     ∧ (is_array_or_unaligned_copy c = true →
        type e = CuptiTracerEventType.Unsupported
        ∧ (mem_num_bytes <$> memory_info e) = Some 0%N
        ∧ (mem_async <$> memory_info e) = Some false)
     ∧ (type e = CuptiTracerEventType.Unsupported ↔
        is_array_or_unaligned_copy c = true
        ∨ (uses_copy_descriptor c = true
           ∧ ¬ (srcMemoryType (pCopy params) = CU_MEMORYTYPE_HOST
                ∧ dstMemoryType (pCopy params) = CU_MEMORYTYPE_DEVICE)
           ∧ ¬ (srcMemoryType (pCopy params) = CU_MEMORYTYPE_DEVICE
                ∧ dstMemoryType (pCopy params) = CU_MEMORYTYPE_HOST)
           ∧ ¬ (srcMemoryType (pCopy params) = CU_MEMORYTYPE_DEVICE
                ∧ dstMemoryType (pCopy params) = CU_MEMORYTYPE_DEVICE)))).
Proof.
  assert (MemcpyKind (pCopy params) = CuptiTracerEventType.Unsupported
          ↔ ¬ (srcMemoryType (pCopy params) = CU_MEMORYTYPE_HOST
               ∧ dstMemoryType (pCopy params) = CU_MEMORYTYPE_DEVICE)
            ∧ ¬ (srcMemoryType (pCopy params) = CU_MEMORYTYPE_DEVICE
                 ∧ dstMemoryType (pCopy params) = CU_MEMORYTYPE_HOST)
            ∧ ¬ (srcMemoryType (pCopy params) = CU_MEMORYTYPE_DEVICE
                 ∧ dstMemoryType (pCopy params) = CU_MEMORYTYPE_DEVICE))
    as Hkind.
  { unfold MemcpyKind. repeat case_decide; split; try done; tauto. }
  intros e. subst e.
  unfold SetMemoryCallbackEventUponApiExit, SetNormalMemcpyEventUponApiExit,
    SetP2PMemcpyEventUponApiExit, SetCuMemsetEventUponApiExit,
    PopulateMemcpyCallbackEvent.
  split; [destruct c; simpl; split; (done || discriminate)|].
  split; [destruct c; simpl; split; try done; try discriminate;
          intros H; by destruct H|].
  split; [destruct c; simpl; (done || discriminate)|].
  split; [destruct c; simpl; (done || discriminate)|].
  intros Harm.
  destruct c; try discriminate Harm; simpl;
    (split; [done|]); (split; [done|]); (split; [done|]);
    (split; [done || discriminate|]);
    try (split; [discriminate | intros [?|[? _]]; discriminate]);
    try (split; [by left | done]);
    (rewrite Hkind; split; [intros ?; by right | by intros [?|[_ ?]]]).
Qed.

(** ** Flushing in mid-session *)

Lemma Gather_batches stop_recording reg :
  (GatherCallbackAnnotationsAndEvents stop_recording reg).1 = instances reg
  ∧ instances (GatherCallbackAnnotationsAndEvents stop_recording reg).2
    = replicate (length (instances reg)) CallbackAnnotationsAndEvents_empty
  ∧ recording (GatherCallbackAnnotationsAndEvents stop_recording reg).2
    = negb stop_recording.
Proof.
  unfold GatherCallbackAnnotationsAndEvents. cbn [fst snd instances recording].
  rewrite <- !list_fmap_compose.
  split; [|split; [|by destruct stop_recording]].
  - induction (instances reg) as [|c l IH]; [done|]. cbn. by f_equal.
  - induction (instances reg) as [|c l IH]; [done|]. cbn. by f_equal.
Qed.

(** X14.  A flush in mid-session, with callback tracing on, hands the
    collector every registered thread's collection whole and in registry
    order, then the cached activity buffers, and leaves recording on and
    both tracing flags as they were.  Nothing is delivered twice: a second
    flush right after it returns, and hands over one empty collection per
    registered thread and an empty list of buffers. *)
Theorem FlushEventsToCollector_delivers_once
  (t : CuptiTracer) (reg : PerThreadRegistry) (st : Status)
  (t1 : CuptiTracer) (reg1 : PerThreadRegistry) (es1 : list Effect) :
  api_tracing_enabled_ t = true →
  FlushEventsToCollector t reg = Some (st, t1, reg1, es1) →
  (∃ buffers,
     es1 = [Collector (OnTracerCollectedCallbackData (instances reg)
                         (IsCallbackApiEventsRequired t));
            Collector (OnTracerCachedActivityBuffers buffers)]
     ∧ (activity_tracing_enabled_ t = true →
        (cached_buffers <$> activity_buffers_ t) = Some buffers)
     ∧ (activity_tracing_enabled_ t = false → buffers = []))
  ∧ recording reg1 = true
  ∧ api_tracing_enabled_ t1 = true
  ∧ activity_tracing_enabled_ t1 = activity_tracing_enabled_ t
  ∧ ∃ reg2,
      FlushEventsToCollector t1 reg1
      = Some (OkStatus, t1, reg2,
              [Collector (OnTracerCollectedCallbackData
                            (replicate (length (instances reg))
                               CallbackAnnotationsAndEvents_empty)
                            (IsCallbackApiEventsRequired t));
               Collector (OnTracerCachedActivityBuffers [])])
      ∧ instances reg2 = instances reg1.
Proof.
  intros Hapi. unfold FlushEventsToCollector at 1. rewrite Hapi.
  destruct (Gather_batches false reg) as (Hbatches & Hleft & Hrec).
  destruct (GatherCallbackAnnotationsAndEvents false reg) as [batches regA]
    eqn:Hgather.
  simpl in Hbatches, Hleft, Hrec. subst batches.
  destruct (activity_tracing_enabled_ t) eqn:Hact; simpl.
  - destruct (activity_buffers_ t) as [m|] eqn:Hm; [|done]. simpl.
    rewrite Hapi. destruct (collector_ t) as [c|] eqn:Hc; [|done]. simpl.
    intros [= <- <- <- <-].
    split; [by eexists|]. split; [done|]. split; [done|]. split; [done|].
    unfold FlushEventsToCollector.
    cbn -[GatherCallbackAnnotationsAndEvents]. rewrite Hapi, Hact.
    cbn -[GatherCallbackAnnotationsAndEvents]. rewrite Hapi, Hc.
    cbn -[GatherCallbackAnnotationsAndEvents].
    destruct (Gather_batches false regA) as (Hbatches2 & Hleft2 & _).
    destruct (GatherCallbackAnnotationsAndEvents false regA)
      as [batches2 reg2]. simpl in Hbatches2, Hleft2. subst batches2.
    exists reg2. rewrite Hleft. split; [done|].
    by rewrite Hleft2, Hleft, length_replicate.
  - rewrite Hapi. destruct (collector_ t) as [c|] eqn:Hc; [|done]. simpl.
    intros [= <- <- <- <-].
    split; [by eexists|]. split; [done|]. split; [done|]. split; [done|].
    unfold FlushEventsToCollector. rewrite Hapi, Hact.
    cbn -[GatherCallbackAnnotationsAndEvents]. rewrite Hapi, Hc.
    cbn -[GatherCallbackAnnotationsAndEvents].
    destruct (Gather_batches false regA) as (Hbatches2 & Hleft2 & _).
    destruct (GatherCallbackAnnotationsAndEvents false regA)
      as [batches2 reg2]. simpl in Hbatches2, Hleft2. subst batches2.
    exists reg2. rewrite Hleft. split; [done|].
    by rewrite Hleft2, Hleft, length_replicate.
Qed.

(** One thread with two events queued and buffer 7 cached. *)
Lemma FlushEventsToCollector_delivers_once_witness :
  ∃ st t1 reg1 es1 reg2 es2,
    FlushEventsToCollector Ex2.busy Ex2.busy_registry
    = Some (st, t1, reg1, es1)
    ∧ collector_calls es1
      = [OnTracerCollectedCallbackData (instances Ex2.busy_registry) true;
         OnTracerCachedActivityBuffers [(7%N, 64%N)]]
    ∧ FlushEventsToCollector t1 reg1 = Some (OkStatus, t1, reg2, es2)
    ∧ collector_calls es2
      = [OnTracerCollectedCallbackData [CallbackAnnotationsAndEvents_empty]
           true;
         OnTracerCachedActivityBuffers []].
Proof.
  destruct (FlushEventsToCollector Ex2.busy Ex2.busy_registry)
    as [[[[st t1] reg1] es1]|] eqn:Hrun;
    [|vm_compute in Hrun; discriminate Hrun].
  destruct (FlushEventsToCollector_delivers_once Ex2.busy Ex2.busy_registry
              st t1 reg1 es1 eq_refl Hrun)
    as ((buffers & -> & Hbuf & _) & _ & _ & _ & reg2 & Hsecond & _).
  specialize (Hbuf eq_refl). injection Hbuf as <-.
  eexists st, t1, reg1, _, reg2, _. split; [reflexivity|].
  split; [reflexivity|]. split; [exact Hsecond|]. reflexivity.
Defined.

(** ** The contexts synchronised at the end *)

Lemma AddDriverApiCallbackEvent_hook
  tracer cupti d st et c cb th status tracer' th' :
  AddDriverApiCallbackEvent tracer cupti d st et c cb th
  = Some (status, tracer', th') →
  cupti_driver_api_hook_ tracer' = cupti_driver_api_hook_ tracer.
Proof.
  unfold AddDriverApiCallbackEvent.
  destruct (TooManyCallbackEvents tracer); [by intros [= _ <- _]|].
  destruct (SetCallbackEventUponApiExit _ _ _ _ _ _ _ _ _ _ _)
    as [[[e gi'] g2]|]; [|done].
  by intros [= _ <- _].
Qed.

Lemma SyncAndFlush_synchronises h x :
  ContextSynchronize x ∈ CuptiDriverApiHookWithActivityApi.SyncAndFlush h
  ↔ sync_devices_before_stop (hook_option_ h) = true ∧ x ∈ contexts_ h.
Proof.
  unfold CuptiDriverApiHookWithActivityApi.SyncAndFlush.
  destruct (sync_devices_before_stop (hook_option_ h)).
  - rewrite list_elem_of_fmap. split.
    + intros (y & [= ->] & Hy). split; [done|]. by apply elem_of_elements.
    + intros [_ Hx]. exists x. split; [done|]. by apply elem_of_elements.
  - split; [by intros ?%elem_of_nil | by intros [? _]].
Qed.

(** X15.  The exit callback of a driver call, on a thread outside the
    tracer's own calls and a context of a known device, updates the set of
    contexts that [SyncAndFlush] will synchronise when the tracer stops,
    whether or not the event itself is recorded or dropped at the ceiling:
    with synchronisation before stop asked for, the exit of cuCtxDestroy or
    cuCtxDestroy_v2 takes the callback's context out of the set and the exit
    of any other call puts it in, the other contexts staying as they were;
    without it nothing is ever synchronised. *)
Theorem exit_callback_tracks_context
  (tracer : CuptiTracer) (cupti : CuptiInterface) (c : CUpti_CallbackId)
  (cb : CUpti_CallbackData) (th : ThreadLocal) (ctx : CUcontext) (dev : N)
  (h : CuptiDriverApiHook) (r : CallbackResult) :
  internalCuCall th = 0%Z →
  context cb = Some ctx →
  GetDeviceId cupti ctx = (CUPTI_SUCCESS, dev) →
  (dev < int_to_u32 (num_gpus_ tracer))%N →
  cupti_driver_api_hook_ tracer = Some h →
  callbackSite cb = CUPTI_API_EXIT →
  HandleDriverApiCallback tracer cupti c cb th = Some r →
  ∃ h',
    cupti_driver_api_hook_ r.1.2 = Some h'
    ∧ hook_option_ h' = hook_option_ h
    ∧ ∀ x,
        ContextSynchronize x
        ∈ CuptiDriverApiHookWithActivityApi.SyncAndFlush h'
        ↔ sync_devices_before_stop (hook_option_ h) = true
          ∧ (if decide (c = cuCtxDestroy_v2 ∨ c = cuCtxDestroy)
             then x ∈ contexts_ h ∧ x ≠ ctx
             else x = ctx ∨ x ∈ contexts_ h).
Proof.
  intros Hint Hctx Hdev Hlt Hhook Hsite.
  rewrite (HandleDriverApiCallback_dispatch tracer cupti c cb th ctx dev h)
    by done.
  rewrite Hsite. unfold CuptiDriverApiHookWithActivityApi.OnDriverApiExit.
  destruct r as [[status tracer'] th']. intros Hrun.
  apply AddDriverApiCallbackEvent_hook in Hrun. simpl in Hrun.
  rewrite Hctx in Hrun.
  exists (CuptiDriverApiHookWithActivityApi.TrackContext c (Some ctx) h).
  split; [done|].
  unfold CuptiDriverApiHookWithActivityApi.TrackContext.
  destruct (sync_devices_before_stop (hook_option_ h)) eqn:Hsync; simpl.
  - case_decide; simpl; (split; [done|]); intros x;
      rewrite SyncAndFlush_synchronises; simpl; rewrite Hsync; set_solver.
  - split; [done|]. intros x. rewrite SyncAndFlush_synchronises, Hsync.
    split; by intros [? _].
Qed.

(** Context 1 is destroyed on the example session that synchronises
    before stop and already tracks contexts 1 and 2: only 2 is left. *)
Lemma exit_callback_tracks_context_witness :
  ∃ r h',
    HandleDriverApiCallback Ex2.syncing Ex.cupti cuCtxDestroy_v2
      (Ex.cbdata "cuCtxDestroy_v2" (Some 1%N)) Ex.thread = Some r
    ∧ cupti_driver_api_hook_ r.1.2 = Some h'
    ∧ ContextSynchronize 2 ∈ CuptiDriverApiHookWithActivityApi.SyncAndFlush h'
    ∧ ¬ ContextSynchronize 1
        ∈ CuptiDriverApiHookWithActivityApi.SyncAndFlush h'.
Proof.
  destruct (HandleDriverApiCallback Ex2.syncing Ex.cupti cuCtxDestroy_v2
              (Ex.cbdata "cuCtxDestroy_v2" (Some 1%N)) Ex.thread)
    as [r|] eqn:Hrun; [|vm_compute in Hrun; discriminate Hrun].
  destruct (exit_callback_tracks_context Ex2.syncing Ex.cupti cuCtxDestroy_v2
              (Ex.cbdata "cuCtxDestroy_v2" (Some 1%N)) Ex.thread 1%N 0%N
              Ex2.syncing_hook r eq_refl eq_refl eq_refl eq_refl eq_refl
              eq_refl Hrun)
    as (h' & Hh & _ & Hsync).
  exists r, h'. split; [reflexivity|]. split; [exact Hh|].
  split.
  - apply Hsync. split; [reflexivity|]. simpl.
    split; [unfold Ex2.syncing_hook; simpl; set_solver | discriminate].
  - intros [_ [_ Hne]]%Hsync. by apply Hne.
Defined.

(** ** Counting and lending activity buffers *)

Lemma count_records_length records total_event_count :
  (total_event_count < u64_modulus)%N →
  count_records records total_event_count
  = ((total_event_count + N.of_nat (length records)) mod u64_modulus)%N.
Proof.
  revert total_event_count.
  induction records as [|r rest IH]; intros total Hlt; simpl count_records.
  - simpl. rewrite N.add_0_r. symmetry. by apply N.mod_small.
  - rewrite IH by (unfold u64_add; by apply N.mod_upper_bound).
    unfold u64_add. rewrite N.Div0.add_mod_idemp_l. f_equal.
    cbn [length]. lia.
Qed.

(** X16.  [CountCuptiActivityEvent] returns the number of records the
    vendor library reads out of the buffer, modulo 2^64, and 0 for a null
    buffer or a size of 0. *)
Theorem CountCuptiActivityEvent_counts_records
  (cupti : CuptiInterface) (buffer : option N) (size : N) :
  CountCuptiActivityEvent cupti buffer size
  = match buffer with
    | Some p =>
        if (size =? 0)%N then 0%N
        else (N.of_nat (length (ActivityRecords cupti p size))
              mod u64_modulus)%N
    | None => 0%N
    end.
Proof.
  unfold CountCuptiActivityEvent. destruct buffer as [p|]; [|done].
  destruct (size =? 0)%N; [done|].
  by rewrite count_records_length.
Qed.

(** X17.  [RequestActivityBuffer] never reports a size without a buffer.
    A buffer that [ProcessActivityBuffer] did not cache is available again:
    the next request is served from the pool, with the manager's buffer
    size, also when no new buffer can be allocated, and leaves as many
    buffers pooled as before the buffer came back.  Once [Disable] has
    returned, every request is answered with no buffer and size 0 and leaves
    the tracer as it is. *)
Theorem RequestActivityBuffer_serves_reclaimed_buffer
  (cupti : CuptiInterface) (t : CuptiTracer) (context0 : CUcontext)
  (stream_id p size : N) (m : CuptiActivityBufferManager)
  (st : Status) (t' : CuptiTracer) (fresh : option N) :
  activity_buffers_ t = Some m →
  reaches_caching cupti t size = false →
  ProcessActivityBuffer cupti t context0 stream_id (Some p) size
  = Some (st, t') →
  (∃ p' t'' m'',
     RequestActivityBuffer fresh t' = (Some p', buffer_size_in_bytes m, t'')
     ∧ activity_buffers_ t'' = Some m''
     ∧ length (buffer_pool m'') = length (buffer_pool m)
     ∧ cached_buffers m'' = cached_buffers m)
  ∧ (∀ fresh0 t0,
       (RequestActivityBuffer fresh0 t0).1.1 = None →
       (RequestActivityBuffer fresh0 t0).1.2 = 0%N)
  ∧ (∀ cupti0 t0 reg0 t1 reg1 es fresh0,
       Disable cupti0 t0 reg0 = Some (t1, reg1, es) →
       RequestActivityBuffer fresh0 t1 = (None, 0%N, t1)).
Proof.
  intros Hm Hnot Hrun. split; [|split].
  - assert (∃ m', activity_buffers_ t' = Some m'
                  ∧ buffer_size_in_bytes m' = buffer_size_in_bytes m
                  ∧ buffer_pool m' = p :: buffer_pool m
                  ∧ cached_buffers m' = cached_buffers m)
      as (m' & Hm' & Hsize & Hpool & Hcached).
    { revert Hrun Hnot. unfold ProcessActivityBuffer, reaches_caching.
      destruct (size =? 0)%N; simpl.
      { rewrite Hm. simpl. intros [= <- <-] _. by eexists. }
      destruct (activity_tracing_enabled_ t); simpl.
      2: { rewrite Hm. simpl. intros [= <- <-] _. by eexists. }
      destruct (Disabled cupti); simpl.
      { rewrite Hm. simpl. intros [= <- <-] _. by eexists. }
      set (t1 := match ActivityGetNumDroppedRecords cupti context0 stream_id
                 with
                 | Some dropped =>
                     with_cupti_dropped_activity_event_count_
                       (u64_add (cupti_dropped_activity_event_count_ t)
                          dropped) t
                 | None => t
                 end).
      assert (collector_ t1 = collector_ t
              ∧ activity_buffers_ t1 = Some m
              ∧ num_activity_events_in_cached_buffer_ t1
                = num_activity_events_in_cached_buffer_ t)
        as (Hc1 & Hm1 & Hn1)
        by (subst t1; by destruct (ActivityGetNumDroppedRecords cupti _ _)).
      rewrite Hc1, Hn1. destruct (collector_ t) as [opts|]; [|done].
      destruct (_ && _); simpl; [|done].
      rewrite Hm1. simpl. intros [= <- <-] _. by eexists. }
    unfold RequestActivityBuffer, GetOrCreateBuffer. rewrite Hm', Hpool.
    eexists _, _, _. split; [by rewrite <- Hsize|]. simpl.
    split; [reflexivity|]. done.
  - intros fresh0 t0. unfold RequestActivityBuffer.
    destruct (activity_buffers_ t0) as [m0|]; [|done].
    destruct (GetOrCreateBuffer fresh0 m0) as [[p0|] m0']; [discriminate|done].
  - intros cupti0 t0 reg0 t1 reg1 es fresh0 Hdis.
    apply Disable_state in Hdis as (st3 & t3 & es3 & _ & -> & _).
    destruct (Disable_deliver_activity_flags t3) as (_ & _ & _ & Hnone).
    unfold RequestActivityBuffer. by rewrite Hnone.
Qed.

(** A buffer handed back with no valid bytes on the example session. *)
Lemma RequestActivityBuffer_serves_reclaimed_buffer_witness :
  ∃ st t' p' t'',
    ProcessActivityBuffer Ex.cupti (Ex.active (Ex.collector 0 0 0) 0) 1%N 0
      (Some 7%N) 0
    = Some (st, t')
    ∧ RequestActivityBuffer None t' = (Some p', 1024%N, t'').
Proof.
  destruct (ProcessActivityBuffer Ex.cupti (Ex.active (Ex.collector 0 0 0) 0)
              1%N 0 (Some 7%N) 0)
    as [[st t']|] eqn:Hrun; [|vm_compute in Hrun; discriminate Hrun].
  destruct (proj1 (RequestActivityBuffer_serves_reclaimed_buffer Ex.cupti
                     (Ex.active (Ex.collector 0 0 0) 0) 1%N 0 7 0 Ex.manager
                     st t' None eq_refl eq_refl Hrun))
    as (p' & t'' & m'' & Hreq & _).
  exists st, t', p', t''. split; [reflexivity|]. exact Hreq.
Defined.

(** ** A session after a failed stop of the activity capture *)

Lemma EnableApiTracing_activity_untouched cupti t reg st t' es reg' :
  EnableApiTracing cupti t reg = Some ((st, t', es), reg') →
  activity_tracing_enabled_ t' = activity_tracing_enabled_ t
  ∧ activity_buffers_ t' = activity_buffers_ t
  ∧ Forall (λ e, effect_kind e = ApiTracingEffect) es.
Proof.
  unfold EnableApiTracing.
  destruct (api_tracing_enabled_ t); [by intros [= <- <- <- <-]|].
  unfold PrepareCallbackStart.
  pose proof (cupti_calls_kinds cupti [Checked Subscribe] ApiTracingEffect
                ltac:(by repeat constructor)) as H1.
  destruct (cupti_calls cupti [Checked Subscribe]) as [st1 es1].
  simpl in H1.
  destruct (ok st1); cbn [negb]; [|by intros [= <- <- <- <-]].
  pose proof (cupti_calls_kinds cupti
                ((λ c, Checked (EnableResourceCallback true c))
                   <$> GetCudaGraphTracingResourceCbids) ApiTracingEffect
                ltac:(apply Forall_fmap, Forall_true; by intros ?)) as H2.
  destruct (cupti_calls cupti _) as [st2 es2]. simpl in H2.
  destruct (ok st2); cbn [negb].
  2: { intros [= <- <- <- <-]. repeat split; try done.
       by apply Forall_app. }
  cbn [option_ with_api_tracing_enabled_ with_num_callback_events_].
  destruct (option_ t) as [o|]; [|done].
  set (steps := match cbids_selected o with
                | [] => [Checked (EnableDomain true CUPTI_CB_DOMAIN_DRIVER_API)]
                | cbids => (λ c, Checked (EnableDriverCallback true c)) <$> cbids
                end).
  assert (Forall (λ s, call_kind (step_call s) = ApiTracingEffect) steps)
    as Hsteps.
  { subst steps. destruct (cbids_selected o); [by repeat constructor|].
    apply Forall_fmap, Forall_true. by intros ?. }
  pose proof (cupti_calls_kinds cupti steps ApiTracingEffect Hsteps) as H3.
  destruct (cupti_calls cupti steps) as [st3 es3]. simpl in H3.
  intros [= <- <- <- <-]. repeat split; try done.
  rewrite !Forall_app. done.
Qed.

(** X18.  When [Disable] has left the activity flag on, because the
    vendor refused to stop the capture, the next session runs without
    activity buffers: an [Enable] that returns OK, whatever the vendor
    library answers by then, issues no call on the activity capture at all,
    leaves the tracer with the activity flag on and no buffer manager, and
    from then on every buffer request of the vendor library is answered with
    no buffer and size 0. *)
Theorem Enable_after_failed_activity_stop
  (cupti : CuptiInterface) (t : CuptiTracer) (reg : PerThreadRegistry)
  (t1 : CuptiTracer) (reg1 : PerThreadRegistry) (es1 : list Effect)
  (kBufferSizeInBytes : N) (cupti' : CuptiInterface) (pm : PmSamplerFactory)
  (option0 : CuptiTracerOptions) (collector : CuptiTracerCollectorOptions)
  (st : Status) (t2 : CuptiTracer) (es2 : list Effect)
  (reg2 : PerThreadRegistry) :
  Disable cupti t reg = Some (t1, reg1, es1) →
  activity_tracing_enabled_ t1 = true →
  Enable kBufferSizeInBytes cupti' pm option0 collector t1 reg1
  = Some ((st, t2, es2), reg2) →
  ok st = true →
  activity_tracing_enabled_ t2 = true
  ∧ api_tracing_enabled_ t2 = true
  ∧ activity_buffers_ t2 = None
  ∧ Forall (λ e, effect_kind e ≠ ActivityTracingEffect) es2
  ∧ ∀ fresh, RequestActivityBuffer fresh t2 = (None, 0%N, t2).
Proof.
  intros Hdis Hon Hen Hok.
  apply Disable_state in Hdis as (st3 & t3 & es3 & _ & -> & _).
  destruct (Disable_deliver_activity_flags t3) as (Hapi1 & _ & _ & Hnone).
  revert Hen. unfold Enable.
  set (option1 :=
         if enable_nvtx_tracking option0 then
           if decide (CUPTI_ACTIVITY_KIND_MARKER ∈ activities_selected option0)
           then option0
           else with_activities_selected
                  (activities_selected option0 ++ [CUPTI_ACTIVITY_KIND_MARKER])
                  option0
         else option0).
  set (t0 := with_cupti_driver_api_hook_ _ _).
  destruct (EnableApiTracing cupti' t0 reg1) as [[[[stA tA] esA] regA]|]
    eqn:Hapi; [|done].
  pose proof (EnableApiTracing_activity_untouched _ _ _ _ _ _ _ Hapi)
    as (HactA & HbufA & HkindA).
  assert (ok stA = true → api_tracing_enabled_ tA = true) as HapiA.
  { revert Hapi. unfold EnableApiTracing.
    destruct (api_tracing_enabled_ t0) eqn:Hflag;
      [intros [= <- <- <- <-]; done|].
    unfold PrepareCallbackStart.
    destruct (cupti_calls cupti' [Checked Subscribe]) as [sa ea].
    destruct (ok sa) eqn:Hsa; simpl;
      [|intros [= <- <- <- <-] Hok'; congruence].
    destruct (cupti_calls cupti' _) as [sb eb].
    destruct (ok sb); simpl; [|by intros [= <- <- <- <-]].
    destruct (cupti_calls cupti' _) as [sc ec]. by intros [= <- <- <- <-]. }
  simpl in HactA, HbufA. rewrite Hon in HactA. rewrite Hnone in HbufA.
  destruct (ok stA) eqn:HokA; simpl.
  2: { intros [= <- <- <- <-]. congruence. }
  unfold EnableActivityTracing.
  cbn [activity_tracing_enabled_ with_need_root_access_]. rewrite HactA.
  set (tB := with_need_root_access_ _ tA).
  assert (Forall (λ e, effect_kind e ≠ ActivityTracingEffect)
            (esA ++ [] ++ [AnnotationStackEnable true])) as Hkinds.
  { rewrite !Forall_app. split; [|split].
    - by eapply Forall_kind_ne; [|eassumption].
    - constructor.
    - by repeat constructor. }
  assert (∀ tC,
            activity_tracing_enabled_ tC = true →
            api_tracing_enabled_ tC = true →
            activity_buffers_ tC = None →
            activity_tracing_enabled_ tC = true
            ∧ api_tracing_enabled_ tC = true
            ∧ activity_buffers_ tC = None
            ∧ Forall (λ e, effect_kind e ≠ ActivityTracingEffect)
                (esA ++ [] ++ [AnnotationStackEnable true])
            ∧ ∀ fresh, RequestActivityBuffer fresh tC = (None, 0%N, tC))
    as Hfinal.
  { intros tC H1 H2 H3. repeat split; try done.
    intros fresh. unfold RequestActivityBuffer. by rewrite H3. }
  destruct (pm_sampler_enable option1).
  - destruct (ok (CreatePmSampler_status pm)); simpl;
      [|intros [= <- <- <- <-]; by apply Hfinal; auto].
    destruct (ok (StartSampler_status pm)); simpl;
      intros [= <- <- <- <-]; by apply Hfinal; auto.
  - intros [= <- <- <- <-]. by apply Hfinal; auto.
Qed.

(** The vendor refuses the forced flush at the end of the first session;
    the second session is enabled on a vendor library that accepts
    everything. *)
Lemma Enable_after_failed_activity_stop_witness :
  ∃ t1 reg1 es1 t2 es2 reg2,
    Disable Ex2.cupti_no_flush (Ex.active (Ex.collector 0 0 0) 0) Ex.registry
    = Some (t1, reg1, es1)
    ∧ Enable 1024 Ex.cupti Ex.pm Ex.options (Ex.collector 0 0 0) t1 reg1
      = Some ((OkStatus, t2, es2), reg2)
    ∧ activity_tracing_enabled_ t2 = true
    ∧ activity_buffers_ t2 = None
    ∧ RequestActivityBuffer (Some 9%N) t2 = (None, 0%N, t2).
Proof.
  destruct (Disable Ex2.cupti_no_flush (Ex.active (Ex.collector 0 0 0) 0)
              Ex.registry)
    as [[[t1 reg1] es1]|] eqn:Hdis; [|vm_compute in Hdis; discriminate Hdis].
  assert (activity_tracing_enabled_ t1 = true) as Hon
    by (vm_compute in Hdis; by injection Hdis as <- _ _).
  destruct (Enable 1024 Ex.cupti Ex.pm Ex.options (Ex.collector 0 0 0) t1 reg1)
    as [[[[st t2] es2] reg2]|] eqn:Hen.
  2: { vm_compute in Hdis. injection Hdis as <- <- _.
       vm_compute in Hen. discriminate Hen. }
  assert (st = OkStatus) as ->.
  { vm_compute in Hdis. injection Hdis as <- <- _.
    vm_compute in Hen. by injection Hen as <- _ _ _. }
  destruct (Enable_after_failed_activity_stop Ex2.cupti_no_flush
              (Ex.active (Ex.collector 0 0 0) 0) Ex.registry t1 reg1 es1
              1024 Ex.cupti Ex.pm Ex.options (Ex.collector 0 0 0)
              OkStatus t2 es2 reg2 Hdis Hon Hen eq_refl)
    as (Hact & _ & Hbuf & _ & Hreq).
  exists t1, reg1, es1, t2, es2, reg2.
  split; [reflexivity|]. split; [exact Hen|].
  split; [exact Hact|]. split; [exact Hbuf|]. exact (Hreq (Some 9%N)).
Defined.

(** ** Events and the scope-range tree *)

Lemma node_map_loop_scope_tree tracer d c cb tid entries event gi st guarded :
  scope_range_id_tree
    (node_map_loop tracer d c cb tid entries event gi st guarded)
  = scope_range_id_tree guarded.
Proof.
  revert guarded. induction entries as [|[k v] rest IH]; intros guarded;
    [done|].
  simpl. by rewrite IH.
Qed.

Lemma SetCallbackEventUponApiExit_scope_tree
  cupti tracer d c cb st et tid event gi guarded event' gi' guarded' :
  SetCallbackEventUponApiExit cupti tracer d c cb st et tid event gi guarded
  = Some (event', gi', guarded') →
  scope_range_id_tree guarded' = scope_range_id_tree guarded.
Proof.
  unfold SetCallbackEventUponApiExit, SetCudaGraphEventUponApiExit.
  destruct c; simpl;
    repeat case_decide;
    try (destruct (SetCudaGraphNodeEventUponApiExit _ _ _ _ _ _ _ _)
           as [[? ?]|]);
    intros Heq; try discriminate Heq; injection Heq as <- <- <-;
    try done; apply node_map_loop_scope_tree.
Qed.

(** X19.  After a callback exit within the event ceiling, on a thread
    inside at least two nested scopes, the scope-range id the appended
    events carry, the innermost one, has a parent in the thread's
    scope-range tree; when it was not in the tree before, its parent is the
    id of the scope just outside it.  No link that was in the tree is
    changed. *)
Theorem callback_exit_scope_has_parent
  (cupti : CuptiInterface) (tracer : CuptiTracer) (th : ThreadLocal)
  (call : ExitCall) (r : CallbackResult) (outer : list Z)
  (enclosing innermost : Z) :
  TooManyCallbackEvents tracer = false →
  AnnotationStack_GetScopeRangeIds th = outer ++ [enclosing; innermost] →
  add_exit cupti tracer th call = Some r →
  let tree := scope_range_id_tree (annotations_and_events_ th) in
  let tree' := scope_range_id_tree (annotations_and_events_ r.2) in
  (∃ appended,
     event_queue (annotations_and_events_ r.2)
     = event_queue (annotations_and_events_ th) ++ appended
     ∧ Forall (λ e, scope_range_id e = innermost) appended)
  ∧ is_Some (tree' !! innermost)
  ∧ (tree !! innermost = None → tree' !! innermost = Some enclosing)
  ∧ (∀ k v, tree !! k = Some v → tree' !! k = Some v).
Proof.
  intros Hroom Hids. rewrite add_exit_accepted by done.
  destruct (SetCallbackEventUponApiExit _ _ _ _ _ _ _ _ _ _ _)
    as [[[e gi'] g2]|] eqn:Hset; [|discriminate].
  intros [= <-] tree tree'.
  pose proof (SetCallbackEventUponApiExit_scope_tree _ _ _ _ _ _ _ _ _ _ _
                _ _ _ Hset) as Htree.
  pose proof (SetCallbackEventUponApiExit_from_callback _ _ _ _ _ _ _ _ _ _
                _ _ _ Hset) as (He & pushed & Hq & Hall).
  assert (default 0%Z (last (AnnotationStack_GetScopeRangeIds th)) = innermost)
    as Hlast.
  { rewrite Hids.
    change (outer ++ [enclosing; innermost])
      with (outer ++ [enclosing] ++ [innermost]).
    by rewrite (assoc_L (++)), last_snoc. }
  assert (tree'
          = GuardedCallbackAnnotationsAndEvents.walk_back
              (innermost :: enclosing :: rev outer) tree) as ->.
  { subst tree' tree.
    cbn [snd annotations_and_events_ with_graph_and_events].
    rewrite (proj2 (Push_other_fields _ _ _)), Htree.
    unfold GuardedCallbackAnnotationsAndEvents.AddScopeRangeIdSequence.
    rewrite Hids. rewrite decide_True
      by (rewrite length_app; simpl; lia).
    cbn [scope_range_id_tree with_scope_range_id_tree].
    by rewrite rev_app_distr. }
  split; [|split; [|split]].
  - cbn [snd annotations_and_events_ with_graph_and_events].
    rewrite Push_appends, Hq, AddScopeRangeIdSequence_event_queue,
      <- app_assoc.
    eexists. split; [reflexivity|].
    apply Forall_app. split.
    + eapply Forall_impl; [exact Hall|].
      intros x (_ & _ & _ & _ & Hscope & _). by rewrite Hscope.
    + constructor; [|done].
      destruct He as (_ & _ & _ & _ & Hscope & _).
      by destruct (TooManyAnnotationStrings _ _); simpl; rewrite Hscope.
  - apply walk_back_head_known.
  - intros Hnew. rewrite walk_back_step.
    rewrite decide_False by (rewrite Hnew; by intros [? ?]).
    apply walk_back_keeps, lookup_insert_eq.
  - intros k v. apply walk_back_keeps.
Qed.

(** A kernel launch on a thread inside the scopes 10, 11 and 12. *)
Lemma callback_exit_scope_has_parent_witness :
  ∃ r e,
    add_exit Ex.cupti (Ex.attached (Ex.collector 0 0 0)) Ex2.nested_thread
      (Ex.exit_call cuLaunchKernel "cuLaunchKernel") = Some r
    ∧ event_queue (annotations_and_events_ r.2) = [e]
    ∧ scope_range_id e = 12%Z
    ∧ scope_range_id_tree (annotations_and_events_ r.2) !! 12%Z = Some 11%Z.
Proof.
  destruct (add_exit Ex.cupti (Ex.attached (Ex.collector 0 0 0))
              Ex2.nested_thread (Ex.exit_call cuLaunchKernel "cuLaunchKernel"))
    as [r|] eqn:Hrun; [|vm_compute in Hrun; discriminate Hrun].
  destruct (callback_exit_scope_has_parent Ex.cupti
              (Ex.attached (Ex.collector 0 0 0)) Ex2.nested_thread
              (Ex.exit_call cuLaunchKernel "cuLaunchKernel") r
              [10%Z] 11%Z 12%Z eq_refl eq_refl Hrun)
    as ((appended & Hq & Hall) & _ & Hparent & _).
  assert (length (event_queue (annotations_and_events_ r.2)) = 1) as Hlen
    by (vm_compute in Hrun; by injection Hrun as <-).
  simpl in Hq. rewrite Hq in Hlen.
  destruct appended as [|e [|? ?]]; try discriminate Hlen.
  exists r, e. split; [reflexivity|]. split; [exact Hq|].
  split; [exact (Forall_inv Hall)|].
  apply Hparent. reflexivity.
Defined.

(** ** A sampler that cannot be created or started *)

(** [Enable] up to the sampler, on a vendor library whose calls all
    succeed. *)
Lemma Enable_all_succeed kBufferSizeInBytes cupti pm option0 collector t reg :
  all_calls_succeed cupti →
  api_tracing_enabled_ t = false →
  activity_tracing_enabled_ t = false →
  ∃ t4 reg1 es,
    Enable kBufferSizeInBytes cupti pm option0 collector t reg
    = (if pm_sampler_enable option0 then
         if negb (ok (CreatePmSampler_status pm)) then
           Some ((CreatePmSampler_status pm, t4, es), reg1)
         else if negb (ok (StartSampler_status pm)) then
           Some ((StartSampler_status pm, with_pm_sampler_ true t4, es), reg1)
         else
           Some ((OkStatus,
                  with_pm_sampling_enabled_ true (with_pm_sampler_ true t4),
                  es), reg1)
       else Some ((OkStatus, t4, es), reg1))
    ∧ api_tracing_enabled_ t4 = true
    ∧ activity_tracing_enabled_ t4 = true
    ∧ pm_sampling_enabled_ t4 = pm_sampling_enabled_ t
    ∧ is_Some (option_ t4) ∧ is_Some (cupti_driver_api_hook_ t4)
    ∧ collector_ t4 = Some collector
    ∧ last es = Some (AnnotationStackEnable true).
Proof.
  intros Hall Hapi Hact. unfold Enable.
  set (option1 :=
         if enable_nvtx_tracking option0 then
           if decide (CUPTI_ACTIVITY_KIND_MARKER ∈ activities_selected option0)
           then option0
           else with_activities_selected
                  (activities_selected option0 ++ [CUPTI_ACTIVITY_KIND_MARKER])
                  option0
         else option0).
  assert (pm_sampler_enable option1 = pm_sampler_enable option0) as Hpm1.
  { subst option1. destruct (enable_nvtx_tracking option0); [|done].
    by case_decide. }
  set (t0 := with_cupti_driver_api_hook_
               (Some {| hook_option_ := option1; contexts_ := ∅ |})
               (with_collector_ (Some collector)
                  (with_option_ (Some option1) t))).
  destruct (EnableApiTracing_all_succeed cupti t0 reg option1 Hall Hapi eq_refl)
    as [es2 ->].
  cbn [ok negb].
  set (t3 := with_need_root_access_ _ _).
  destruct (EnableActivityTracing_all_succeed kBufferSizeInBytes cupti t3
              option1 Hall Hact eq_refl) as (es4 & -> & _).
  rewrite Hpm1.
  eexists _, _, _. split; [reflexivity|].
  repeat (split; [done || by eexists|]).
  by rewrite !(assoc_L (++)), last_snoc.
Qed.

(** X20.  [Enable] with sampling asked for, on a vendor library whose
    calls all succeed, when the sampler cannot be created or cannot be
    started: the sampler's error is returned, but callback tracing and
    activity tracing have been switched on and stay on, the annotation stack
    is enabled, and the tracer does not report itself available; only the
    sampling flag is off.  A [Disable] after the failed [Enable] returns,
    never stops or deinitialises a sampler, and makes the tracer available
    again on a host with a GPU. *)
Theorem Enable_fails_at_sampler
  (kBufferSizeInBytes : N) (cupti : CuptiInterface) (pm : PmSamplerFactory)
  (option0 : CuptiTracerOptions) (collector : CuptiTracerCollectorOptions)
  (t : CuptiTracer) (reg : PerThreadRegistry) :
  all_calls_succeed cupti →
  api_tracing_enabled_ t = false →
  activity_tracing_enabled_ t = false →
  pm_sampling_enabled_ t = false →
  pm_sampler_enable option0 = true →
  ok (CreatePmSampler_status pm) && ok (StartSampler_status pm) = false →
  ∃ t1 reg1 es1 t2 reg2 es2,
    Enable kBufferSizeInBytes cupti pm option0 collector t reg
    = Some ((if ok (CreatePmSampler_status pm)
             then StartSampler_status pm else CreatePmSampler_status pm,
             t1, es1), reg1)
    ∧ api_tracing_enabled_ t1 = true
    ∧ activity_tracing_enabled_ t1 = true
    ∧ pm_sampling_enabled_ t1 = false
    ∧ last es1 = Some (AnnotationStackEnable true)
    ∧ (∀ num_gpus, IsAvailable num_gpus t1 = false)
    ∧ Disable cupti t1 reg1 = Some (t2, reg2, es2)
    ∧ ¬ PmStopSampler ∈ es2 ∧ ¬ PmDeinitialize ∈ es2
    ∧ ∀ num_gpus, IsAvailable num_gpus t2 = negb (num_gpus =? 0)%Z.
Proof.
  intros Hall Hapi Hact Hpm Hask Hfail.
  destruct (Enable_all_succeed kBufferSizeInBytes cupti pm option0 collector
              t reg Hall Hapi Hact)
    as (t4 & reg1 & es & -> & Hapi4 & Hact4 & Hpm4 & Ho4 & Hh4 & Hc4 & Hlast).
  rewrite Hask. rewrite Hpm in Hpm4.
  set (t1 := if ok (CreatePmSampler_status pm)
             then with_pm_sampler_ true t4 else t4).
  assert (api_tracing_enabled_ t1 = true
          ∧ activity_tracing_enabled_ t1 = true
          ∧ pm_sampling_enabled_ t1 = false
          ∧ is_Some (option_ t1) ∧ is_Some (cupti_driver_api_hook_ t1)
          ∧ is_Some (collector_ t1))
    as (Hapi1 & Hact1 & Hpm1 & Ho1 & Hh1 & Hc1).
  { assert (is_Some (collector_ t4)) as Hc4' by by eexists.
    subst t1. by destruct (ok (CreatePmSampler_status pm)). }
  destruct (Disable_total cupti t1 reg1 Ho1 Hh1 Hc1)
    as [[[t2 reg2] es2] Hdis]; [by rewrite Hpm1|].
  exists t1, reg1, es, t2, reg2, es2.
  split.
  { subst t1. destruct (ok (CreatePmSampler_status pm)); [|done].
    simpl in Hfail. by rewrite Hfail. }
  split; [done|]. split; [done|]. split; [done|]. split; [done|].
  split.
  { intros num_gpus. unfold IsAvailable. rewrite Hact1.
    by rewrite andb_false_r. }
  split; [done|].
  pose proof Hdis as Heffects.
  apply Disable_effects in Heffects
    as (pre & t5 & -> & _ & _ & _ & _ & Hnopm & _ & _).
  specialize (Hnopm Hpm1).
  assert (Forall (λ e, effect_kind e ≠ PmSamplingEffect)
            (Disable_deliver_activity t5).2) as Htail.
  { eapply Forall_impl; [apply Disable_deliver_activity_kinds|].
    intros e [He|He]; by rewrite He. }
  assert (∀ e, effect_kind e = PmSamplingEffect →
               ¬ e ∈ pre
                   ++ [Collector (SetTracingEndTimeNs (GetTimestamp cupti));
                       Collector (OnTracerCollectedCallbackData
                                    (GatherCallbackAnnotationsAndEvents true
                                       reg1).1
                                    (IsCallbackApiEventsRequired t5))]
                   ++ (Disable_deliver_activity t5).2) as Hnone.
  { intros e Hkind [He|[He|He]%elem_of_app]%elem_of_app.
    - by eapply (proj1 (Forall_forall _ _) Hnopm).
    - apply elem_of_cons in He as [->|He]; [discriminate Hkind|].
      apply list_elem_of_singleton in He as ->. discriminate Hkind.
    - by eapply (proj1 (Forall_forall _ _) Htail). }
  split; [by apply Hnone|]. split; [by apply Hnone|].
  apply Disable_state in Hdis as (st3 & t6 & es3 & H3 & -> & _).
  destruct (Disable_deliver_activity_flags t6) as (Hapi6 & Hact6 & Hpm6 & _).
  pose proof (DisableActivityTracing_flag _ _ _ _ _ H3) as Hflag.
  pose proof (DisableActivityTracing_spec _ _ _ _ _ H3)
    as (_ & _ & _ & _ & _ & _ & Hapi3 & Hpm3).
  rewrite (DisableActivityTracing_all_succeed _ _ _ _ _ Hall H3) in Hflag.
  simpl in Hflag, Hapi3, Hpm3. rewrite andb_false_r in Hflag.
  intros num_gpus. unfold IsAvailable.
  rewrite Hapi6, Hact6, Hpm6, Hapi3, Hpm3, Hflag. simpl.
  by rewrite !andb_true_r.
Qed.

(** The sampler is created and cannot be started. *)
Lemma Enable_fails_at_sampler_witness :
  ∃ t1 reg1 es1 t2 reg2 es2,
    Enable 1024 Ex.cupti Ex2.pm_no_start Ex2.options_sampling
      (Ex.collector 0 0 0) (CuptiTracer_new 1) Ex.registry
    = Some ((InternalError "StartSampler failed", t1, es1), reg1)
    ∧ api_tracing_enabled_ t1 = true
    ∧ activity_tracing_enabled_ t1 = true
    ∧ Disable Ex.cupti t1 reg1 = Some (t2, reg2, es2)
    ∧ IsAvailable 1 t2 = true.
Proof.
  destruct (Enable_fails_at_sampler 1024 Ex.cupti Ex2.pm_no_start
              Ex2.options_sampling (Ex.collector 0 0 0) (CuptiTracer_new 1)
              Ex.registry (λ _, eq_refl) eq_refl eq_refl eq_refl eq_refl
              eq_refl)
    as (t1 & reg1 & es1 & t2 & reg2 & es2 & Hen & Hapi & Hact & _ & _ & _
        & Hdis & _ & _ & Havail).
  exists t1, reg1, es1, t2, reg2, es2.
  split; [exact Hen|]. split; [exact Hapi|]. split; [exact Hact|].
  split; [exact Hdis|]. exact (Havail 1%Z).
Defined.
